(** * File Processor API: the job registry, the code filter, the sandbox
      executor, the result endpoint and the retention sweeper

    A shallow embedding of [services/job_service.py], [models.py],
    [services/sandbox_service.py], [services/cleanup_service.py] and the
    endpoints of [app.py], with the properties of the job execution engine
    stated over it.

    Conventions.
    - A Python [str] is a [string] holding the UTF-8 encoding of the text, so
      [bytes.decode('utf-8')] is a validity check that keeps the bytes, and
      the substring test [a in b] is the byte-level one (UTF-8 is
      self-synchronising, so the two agree).
    - A Python [dict] is an insertion-ordered association list ([PyDict]):
      the sweeper iterates over the registry, so the order is kept.
    - The file system is a finite map from the paths the service uses to
      nodes; the entries of a directory are kept in [os.listdir] order.
    - Code that raises is a computation in the monad [M]: a state
      transformer whose result is [Ok] or [Raise]; the state survives a
      raise, as the effects of a Python block survive its exception.
    - Library and interpreter functions the code calls but does not define
      ([os.path.join], [str.lower], [datetime.fromisoformat], [str(e)], ...)
      are the fields of a [Host] record. *)

From Stdlib Require Import ZArith Ascii Bool Lia.
From Stdlib.Strings Require Import Byte.
From Stdlib Require String.
From stdpp Require Import base option list strings gmap pretty.

Local Open Scope Z_scope.
Local Open Scope list_scope.

#[local] Arguments String.append !_ _ / : simpl nomatch.

(** * Part I: the model *)

(** ** Strings *)

Module Str.

Fixpoint startswith (p s : string) : bool :=
  match p, s with
  | EmptyString, _ => true
  | String a p', String b s' => Ascii.eqb a b && startswith p' s'
  | String _ _, EmptyString => false
  end.

(** [p in s] *)
Fixpoint contains (p s : string) : bool :=
  startswith p s ||
  match s with
  | EmptyString => false
  | String _ s' => contains p s'
  end.

(** [s.endswith(p)] *)
Fixpoint endswith (s p : string) : bool :=
  String.eqb s p ||
  match s with
  | EmptyString => false
  | String _ s' => endswith s' p
  end.

(** [sep.join(l)] *)
Fixpoint join (sep : string) (l : list string) : string :=
  match l with
  | [] => ""
  | [x] => x
  | x :: l' => x +:+ sep +:+ join sep l'
  end.

(** The line feed of the f-strings. *)
Definition nl : string := String (ascii_of_byte x0a) "".

(** [p] occurs in [s]: the meaning of [contains]. *)
Definition occurs_in (p s : string) : Prop :=
  exists pre post, s = pre +:+ p +:+ post.

End Str.

(** ** Python dictionaries with string keys *)

Module PyDict.

Definition dict (V : Type) : Type := list (string * V).

(** [d.get(k)] *)
Fixpoint get {V} (k : string) (d : dict V) : option V :=
  match d with
  | [] => None
  | (k', v) :: d' => if String.eqb k' k then Some v else get k d'
  end.

(** [k in d] *)
Definition mem {V} (k : string) (d : dict V) : bool :=
  match get k d with Some _ => true | None => false end.

(** [d[k] = v]: in place when the key is there, appended otherwise *)
Fixpoint set {V} (k : string) (v : V) (d : dict V) : dict V :=
  match d with
  | [] => [(k, v)]
  | (k', v') :: d' =>
      if String.eqb k' k then (k', v) :: d' else (k', v') :: set k v d'
  end.

(** [del d[k]] (a dictionary holds a key once; every binding of it goes) *)
Fixpoint del {V} (k : string) (d : dict V) : dict V :=
  match d with
  | [] => []
  | (k', v') :: d' =>
      if String.eqb k' k then del k d' else (k', v') :: del k d'
  end.

(** [list(d)] *)
Definition keys {V} (d : dict V) : list string := map fst d.

End PyDict.

Import PyDict.

(** ** UTF-8 *)

Definition bytes : Type := list byte.

Definition between (lo hi : N) (b : byte) : bool :=
  (lo <=? Byte.to_N b)%N && (Byte.to_N b <=? hi)%N.

Definition continuation : byte -> bool := between 0x80 0xBF.

(** The second byte of a three-byte sequence: no overlong form after E0, no
    surrogate after ED. *)
Definition second_of_3 (b0 b1 : byte) : bool :=
  if between 0xE0 0xE0 b0 then between 0xA0 0xBF b1
  else if between 0xED 0xED b0 then between 0x80 0x9F b1
  else continuation b1.

(** The second byte of a four-byte sequence: no overlong form after F0,
    nothing above U+10FFFF after F4. *)
Definition second_of_4 (b0 b1 : byte) : bool :=
  if between 0xF0 0xF0 b0 then between 0x90 0xBF b1
  else if between 0xF4 0xF4 b0 then between 0x80 0x8F b1
  else continuation b1.

(** The byte sequences the strict ['utf-8'] codec accepts. *)
Fixpoint utf8_valid (l : bytes) : bool :=
  match l with
  | [] => true
  | b0 :: l1 =>
    if between 0x00 0x7F b0 then utf8_valid l1 else
    match l1 with
    | [] => false
    | b1 :: l2 =>
      if between 0xC2 0xDF b0 then continuation b1 && utf8_valid l2 else
      match l2 with
      | [] => false
      | b2 :: l3 =>
        if between 0xE0 0xEF b0
        then second_of_3 b0 b1 && continuation b2 && utf8_valid l3 else
        match l3 with
        | [] => false
        | b3 :: l4 =>
          between 0xF0 0xF4 b0 && second_of_4 b0 b1 && continuation b2
          && continuation b3 && utf8_valid l4
        end
      end
    end
  end.

(** ** Exceptions and the monad of raising, stateful code *)

Inductive exn : Type :=
| KeyError (key : string)
| IndexError
| ValueError (msg : string)
| UnicodeDecodeError (data : bytes)
| OSError (subclass path : string)
| JSONDecodeError (doc : string)
| RequestValidationError (cause : exn)
| HTTPException (status_code : Z) (detail : string)
| Failure (description : string).

Inductive result (A : Type) : Type :=
| Ok (a : A)
| Raise (e : exn).

Arguments Ok {A} a.
Arguments Raise {A} e.

Definition M (S A : Type) : Type := S -> result A * S.

Definition ret {S A} (a : A) : M S A := fun s => (Ok a, s).

Definition raise {S A} (e : exn) : M S A := fun s => (Raise e, s).

Definition bind {S A B} (m : M S A) (k : A -> M S B) : M S B :=
  fun s => match m s with
           | (Ok a, s') => k a s'
           | (Raise e, s') => (Raise e, s')
           end.

(** [try: m except Exception as e: h e] *)
Definition try_except {S A} (m : M S A) (h : exn -> M S A) : M S A :=
  fun s => match m s with
           | (Ok a, s') => (Ok a, s')
           | (Raise e, s') => h e s'
           end.

Definition gets {S A} (f : S -> A) : M S A := fun s => (Ok (f s), s).

Definition modify {S} (f : S -> S) : M S unit := fun s => (Ok tt, f s).

Definition lift_result {S A} (r : result A) : M S A := fun s => (r, s).

Definition from_option {S A} (e : exn) (o : option A) : M S A :=
  match o with Some a => ret a | None => raise e end.

Notation "x <- m ;; k" := (bind m (fun x => k))
  (at level 100, m at next level, right associativity).
Notation "m ;; k" := (bind m (fun _ => k))
  (at level 100, right associativity).

(** [for x in l: body x] *)
Fixpoint for_each {S A} (l : list A) (body : A -> M S unit) : M S unit :=
  match l with
  | [] => ret tt
  | x :: l' => body x ;; for_each l' body
  end.

(** [data.decode('utf-8')] *)
Definition decode_utf8 (data : bytes) : result string :=
  if utf8_valid data then Ok (String.string_of_list_byte data)
  else Raise (UnicodeDecodeError data).

(** ** The host: platform, library and interpreter *)

Record Host : Type := {
  os_name : string;                                  (* os.name *)
  path_join : string -> string -> string;            (* os.path.join *)
  splitext : string -> string * string;              (* os.path.splitext *)
  basename : string -> string;                       (* os.path.basename *)
  str_lower : string -> string;                      (* str.lower *)
  str_replace : string -> string -> string -> string;(* s.replace(old, new) *)
  (* datetime.fromisoformat, as microseconds on the time line of the naive
     datetimes; None when it raises or when the value cannot be compared
     with datetime.now() *)
  fromisoformat : string -> option Z;
  json_accepts : string -> bool;                     (* json.load returns *)
  (* JSONResponse(content=...) on the document json.load read from this
     text: the exception raised while it is rendered (json.dumps with
     allow_nan=False raises ValueError on NaN and Infinity, which json.load
     accepts), None when it renders *)
  render_error : string -> option exn;
  (* the elements of a set of strings in the order this interpreter
     iterates over it *)
  set_order : list string -> list string;
  exc_str : exn -> string;                           (* str(e) *)
  format_exc : exn -> string;                        (* traceback.format_exc() *)
  (* config.py: the three folders under tempfile.gettempdir() *)
  UPLOAD_FOLDER : string;
  CODE_FOLDER : string;
  RESULTS_FOLDER : string
}.

(** ** [config.py] *)

Definition MAX_EXECUTION_TIME : Z := 120.
Definition MAX_UPLOAD_SIZE : Z := 50 * 1024 * 1024.

(** ** [services/job_service.py] *)

(** A job record: a [Dict[str, Any]] in which the service stores strings. *)
Definition job : Type := dict string.

(** [job_status: Dict[str, Dict[str, Any]]] *)
Definition registry : Type := dict job.

(** [create_job]; [job_id] is the [uuid.uuid4()] drawn and [timestamp] the
    [datetime.now().isoformat()] read. *)
Definition create_job (job_id timestamp filename file_path : string)
    (reg : registry) : registry :=
  set job_id
    [("id", job_id); ("filename", filename); ("status", "uploaded");
     ("timestamp", timestamp); ("file_path", file_path)]
    reg.

(** [job_status[job_id][key] = value]. Every caller has checked
    [job_id in job_status] first, so the [KeyError] of an absent [job_id]
    is never raised; the registry is then left as it is. *)
Definition store (job_id key value : string) (reg : registry) : registry :=
  match get job_id reg with
  | Some j => set job_id (set key value j) reg
  | None => reg
  end.

Definition update_job_status (job_id status : string) (kwargs : dict string)
    (reg : registry) : registry :=
  if mem job_id reg then
    fold_left (fun r kv => store job_id (fst kv) (snd kv) r) kwargs
      (store job_id "status" status reg)
  else reg.

Definition get_job_status (job_id : string) (reg : registry) : job :=
  match get job_id reg with Some j => j | None => [] end.

Definition delete_job (job_id : string) (reg : registry) : registry :=
  if mem job_id reg then del job_id reg else reg.

(** The loop over [kwargs], on the record itself. *)
Definition assign (kwargs : dict string) (j : job) : job :=
  fold_left (fun j kv => set (fst kv) (snd kv) j) kwargs j.

(** [job_status[job_id]['status']], when both keys are there. *)
Definition status_of (job_id : string) (reg : registry) : option string :=
  match get job_id reg with
  | Some j => get "status" j
  | None => None
  end.

(** [filename.rsplit('.', 1)[1]], when [filename] has a dot. *)
Fixpoint after_last_dot (filename : string) : option string :=
  match filename with
  | EmptyString => None
  | String a rest =>
      match after_last_dot rest with
      | Some ext => Some ext
      | None => if Ascii.eqb a "." then Some rest else None
      end
  end.

Definition ALLOWED_EXTENSIONS : list string := ["csv"; "xls"; "xlsx"].

Definition allowed_file (lower : string -> string) (filename : string)
    (allowed_extensions : list string) : bool :=
  match after_last_dot filename with
  | Some ext => existsb (String.eqb (lower ext)) allowed_extensions
  | None => false
  end.

(** ** [models.py] *)

Definition forbidden_modules : list string :=
  ["subprocess"; "os.system"; "eval("; "exec("; "importlib";
   "sys.modules"; "__import__"; "open("; "file(";
   "execfile("; "compile("; "pty"; "popen"; "system"].

(** The loop of the validator: the first listed token found in [v]. *)
Fixpoint first_forbidden (modules : list string) (v : string) : option string :=
  match modules with
  | [] => None
  | m :: rest => if Str.contains m v then Some m else first_forbidden rest v
  end.

Definition validate_code (v : string) : result string :=
  match first_forbidden forbidden_modules v with
  | Some m => Raise (ValueError ("Forbidden module or function detected: " +:+ m))
  | None => Ok v
  end.

Record CodeSubmission : Type := { code : string }.

(** Building the model runs the field validator on [code]. *)
Definition CodeSubmission_parse (body : string) : result CodeSubmission :=
  match validate_code body with
  | Ok v => Ok {| code := v |}
  | Raise e => Raise (RequestValidationError e)
  end.

(** ** The file system

    The disk maps the paths the service names (an input file, a code file, a
    result directory) to what is there; the three folders of [config.py]
    exist from the import on and are not entries of the map. A call raises
    when the node is of the wrong kind or missing, as the library call
    does; failures that come from outside the service (permissions, a full
    disk) are not part of the model. *)

(** What a directory holds under a name: a regular file, or something for
    which [os.path.isfile] is false. *)
Inductive entry : Type :=
| RegularFile (content : string)
| NotAFile.

Inductive node : Type :=
| File (content : string)
| Dir (entries : list (string * entry)).

Abbreviation disk := (gmap string node).

Definition os_path_exists (p : string) (d : disk) : bool :=
  match d !! p with Some _ => true | None => false end.

Definition os_remove (p : string) (d : disk) : result unit * disk :=
  match d !! p with
  | Some (File _) => (Ok tt, delete p d)
  | Some (Dir _) => (Raise (OSError "IsADirectoryError" p), d)
  | None => (Raise (OSError "FileNotFoundError" p), d)
  end.

Definition shutil_rmtree (p : string) (d : disk) : result unit * disk :=
  match d !! p with
  | Some (Dir _) => (Ok tt, delete p d)
  | Some (File _) => (Raise (OSError "NotADirectoryError" p), d)
  | None => (Raise (OSError "FileNotFoundError" p), d)
  end.

(** [with open(p, 'w') as f: f.write(text)] (and the ['wb'] form) *)
Definition write_file (p text : string) (d : disk) : result unit * disk :=
  match d !! p with
  | Some (Dir _) => (Raise (OSError "IsADirectoryError" p), d)
  | _ => (Ok tt, <[p := File text]> d)
  end.

(** [os.makedirs(p, exist_ok=True)] *)
Definition os_makedirs (p : string) (d : disk) : result unit * disk :=
  match d !! p with
  | Some (Dir _) => (Ok tt, d)
  | Some (File _) => (Raise (OSError "FileExistsError" p), d)
  | None => (Ok tt, <[p := Dir []]> d)
  end.

Definition os_listdir (p : string) (d : disk) : result (list (string * entry)) :=
  match d !! p with
  | Some (Dir entries) => Ok entries
  | Some (File _) => Raise (OSError "NotADirectoryError" p)
  | None => Raise (OSError "FileNotFoundError" p)
  end.

(** [os.path.isfile(os.path.join(dir, f))] for a name [f] that
    [os.listdir(dir)] returned. *)
Definition is_regular (e : string * entry) : bool :=
  match snd e with RegularFile _ => true | NotAFile => false end.

(** The text of the regular file [f] among the entries of a directory. *)
Fixpoint read_entry (f : string) (entries : list (string * entry)) : option string :=
  match entries with
  | [] => None
  | (name, e) :: rest =>
      if String.eqb name f
      then match e with RegularFile text => Some text | NotAFile => None end
      else read_entry f rest
  end.

(** ** The state of the service *)

(** A call of [execute_code_in_sandbox] handed to [BackgroundTasks]. *)
Record task : Type := Task {
  task_job_id : string;
  task_file_path : string;
  task_code_path : string;
  task_result_path : string;
  task_max_execution_time : Z
}.

Record state : Type := State {
  job_status : registry;
  files : disk;
  background_tasks : list task
}.

Definition on_registry (f : registry -> registry) : M state unit :=
  modify (fun st => State (f (job_status st)) (files st) (background_tasks st)).

Definition on_files {A} (op : disk -> result A * disk) : M state A :=
  fun st => let '(r, d) := op (files st) in
            (r, State (job_status st) d (background_tasks st)).

Definition add_task (t : task) : M state unit :=
  modify (fun st => State (job_status st) (files st) (background_tasks st ++ [t])).

(** [job_status[job_id]] *)
Definition job_of (job_id : string) : M state job :=
  reg <- gets job_status ;;
  from_option (KeyError job_id) (get job_id reg).

(** [d[key]] on a record *)
Definition field {S} (key : string) (j : job) : M S string :=
  from_option (KeyError key) (get key j).

(** ** [services/sandbox_service.py] *)

(** The launched process, which is the [docker run] client and not the
    container it starts, as its handle shows it. [Signalled]: [kill()] has
    been called on it while it lived and nothing has waited for it since, so
    its [returncode] is still [None]. [Killed]: it has been waited for after
    that. *)
Inductive proc_state : Type :=
| Running
| Exited (returncode : Z)
| Signalled
| Killed.

(** What the executor does to its process. *)
Inductive call : Type :=
| Spawn (cmd : list string)
| Communicate
| Kill.

(** What the executor works on: the registry, its process handle (none
    before the launch) and the calls made so far. *)
Record sandbox : Type := Sandbox {
  registry_of : registry;
  process : option proc_state;
  calls : list call
}.

(** How the wait on a launched process ends. [Returns]: within the deadline,
    with the exit code and the two captured streams. [TimesOut]: the deadline
    passes first; [returncode] is what the handle holds when the handler
    runs ([None] while the process lives), the streams are what it wrote so
    far. *)
Inductive outcome : Type :=
| Returns (returncode : Z) (stdout stderr : bytes)
| TimesOut (returncode : option Z) (stdout stderr : bytes).

(** One execution as the isolation runtime decides it: the launch raises, or
    a process exists and the wait on it ends. *)
Inductive run : Type :=
| LaunchFails (e : exn)
| Launches (o : outcome).

Definition update (job_id status : string) (kwargs : dict string) : M sandbox unit :=
  modify (fun s => Sandbox (update_job_status job_id status kwargs (registry_of s))
                           (process s) (calls s)).

(** [subprocess.Popen] and [asyncio.create_subprocess_exec] on the command *)
Definition spawn (cmd : list string) : M sandbox unit :=
  modify (fun s => Sandbox (registry_of s) (Some Running) (calls s ++ [Spawn cmd])).

(** [process.communicate(...)], leaving [returncode] on the handle *)
Definition communicate (returncode : option Z) : M sandbox unit :=
  modify (fun s => Sandbox (registry_of s)
                     (match returncode, process s with
                      | Some c, Some Running => Some (Exited c)
                      | _, p => p
                      end)
                     (calls s ++ [Communicate])).

(** [process.kill()]: sends the signal to a live process and returns; a
    finished one is left alone *)
Definition kill : M sandbox unit :=
  modify (fun s => Sandbox (registry_of s)
                     (match process s with
                      | Some Running => Some Signalled
                      | p => p
                      end)
                     (calls s ++ [Kill])).

(** [process.communicate()] with no timeout, after [kill()]: waits for the
    process to end *)
Definition communicate_after_kill : M sandbox unit :=
  modify (fun s => Sandbox (registry_of s)
                     (match process s with
                      | Some Signalled => Some Killed
                      | p => p
                      end)
                     (calls s ++ [Communicate])).


Definition exit_error (exit_code : Z) (stderr_text : string) : string :=
  "Exit code: " +:+ pretty exit_code +:+ Str.nl +:+ "Stderr: " +:+ stderr_text.

Definition timeout_error (max_execution_time : Z) : string :=
  "Execution timed out after " +:+ pretty max_execution_time +:+ " seconds".

(** The lines both branches share after a wait that returned. *)
Definition report_exit (job_id : string) (exit_code : Z)
    (stdout_text stderr_text : string) : M sandbox unit :=
  update job_id "running" [("stdout", stdout_text); ("stderr", stderr_text)] ;;
  if negb (exit_code =? 0)
  then update job_id "failed" [("error", exit_error exit_code stderr_text)]
  else update job_id "completed" [].

Definition _execute_windows (job_id : string) (docker_cmd : list string)
    (max_execution_time : Z) (r : run) : M sandbox unit :=
  match r with
  | LaunchFails e => raise e
  | Launches (Returns exit_code stdout stderr) =>
      spawn docker_cmd ;;
      communicate (Some exit_code) ;;
      stdout_text <- match stdout with
                     | [] => ret ""
                     | _ => lift_result (decode_utf8 stdout)
                     end ;;
      stderr_text <- match stderr with
                     | [] => ret ""
                     | _ => lift_result (decode_utf8 stderr)
                     end ;;
      report_exit job_id exit_code stdout_text stderr_text
  | Launches (TimesOut returncode stdout stderr) =>
      spawn docker_cmd ;;
      communicate returncode ;;
      (* except subprocess.TimeoutExpired: *)
      kill ;;
      communicate_after_kill ;;    (* stdout, stderr = process.communicate() *)
      update job_id "timeout" [("error", timeout_error max_execution_time)]
  end.

Definition _execute_unix (job_id : string) (docker_cmd : list string)
    (max_execution_time : Z) (r : run) : M sandbox unit :=
  match r with
  | LaunchFails e => raise e
  | Launches (Returns exit_code stdout stderr) =>
      spawn docker_cmd ;;
      communicate (Some exit_code) ;;
      stdout_text <- lift_result (decode_utf8 stdout) ;;
      stderr_text <- lift_result (decode_utf8 stderr) ;;
      report_exit job_id exit_code stdout_text stderr_text
  | Launches (TimesOut returncode stdout stderr) =>
      spawn docker_cmd ;;
      communicate returncode ;;
      (* except asyncio.TimeoutError: *)
      match returncode with
      | None => kill
      | Some _ => ret tt
      end ;;
      update job_id "timeout" [("error", timeout_error max_execution_time)]
  end.

Definition docker_command (file_path code_path result_path file_ext : string)
    (max_execution_time : Z) : list string :=
  ["docker"; "run"; "--rm";
   "--memory=512m"; "--cpu-shares=512";
   "--stop-timeout"; pretty max_execution_time;
   "-v"; file_path +:+ ":/data/input_file" +:+ file_ext +:+ ":ro";
   "-v"; code_path +:+ ":/data/process.py:ro";
   "-v"; result_path +:+ ":/data/output:rw";
   "python-sandbox";
   "sh"; "-c"; "cd /data && python -m process"].

Section Executor.

Variable H : Host.

Definition is_nt : bool := String.eqb (os_name H) "nt".

(** [p.replace('\\', '/').replace('C:', '/c')] *)
Definition docker_path (p : string) : string :=
  str_replace H (str_replace H p "\" "/") "C:" "/c".

(** The command built from the three paths, converted first on Windows. *)
Definition docker_cmd_of (file_path code_path result_path : string)
    (max_execution_time : Z) : list string :=
  let file_ext := str_lower H (snd (splitext H file_path)) in
  let file_path := if is_nt then docker_path file_path else file_path in
  let code_path := if is_nt then docker_path code_path else code_path in
  let result_path := if is_nt then docker_path result_path else result_path in
  docker_command file_path code_path result_path file_ext max_execution_time.

(** The executor up to the launch: the two [running] updates; the value is
    the command. *)
Definition prepare (job_id file_path code_path result_path : string)
    (max_execution_time : Z) : M sandbox (list string) :=
  update job_id "running" [] ;;
  let docker_cmd := docker_cmd_of file_path code_path result_path max_execution_time in
  update job_id "running" [("docker_cmd", Str.join " " docker_cmd)] ;;
  ret docker_cmd.

(** The registry once [prepare] has run. *)
Definition prepared (job_id file_path code_path result_path : string)
    (max_execution_time : Z) (reg : registry) : registry :=
  update_job_status job_id "running"
    [("docker_cmd",
      Str.join " " (docker_cmd_of file_path code_path result_path max_execution_time))]
    (update_job_status job_id "running" [] reg).

(** The branch on [os.name]. *)
Definition execute (job_id : string) (docker_cmd : list string)
    (max_execution_time : Z) (r : run) : M sandbox unit :=
  if is_nt then _execute_windows job_id docker_cmd max_execution_time r
  else _execute_unix job_id docker_cmd max_execution_time r.

(** [except Exception as e:] of [execute_code_in_sandbox] *)
Definition on_exception (job_id : string) (e : exn) : M sandbox unit :=
  update job_id "failed"
    [("error", "Exception: " +:+ exc_str H e +:+ Str.nl +:+ format_exc H e)].

Definition execute_code_in_sandbox (job_id file_path code_path result_path : string)
    (max_execution_time : Z) (r : run) : M sandbox unit :=
  try_except
    (docker_cmd <- prepare job_id file_path code_path result_path max_execution_time ;;
     execute job_id docker_cmd max_execution_time r)
    (on_exception job_id).

(** The executor between two suspensions. It suspends on the launch of its
    process and on the wait for it, and writes nothing in between:
    [exec_begin] is what it does before, [exec_finish] what it does once the
    launch has failed or the wait is over. *)
Definition exec_begin (t : task) : M sandbox (list string) :=
  prepare (task_job_id t) (task_file_path t) (task_code_path t)
    (task_result_path t) (task_max_execution_time t).

Definition exec_finish (job_id : string) (docker_cmd : list string)
    (max_execution_time : Z) (r : run) : M sandbox unit :=
  try_except
    (execute job_id docker_cmd max_execution_time r)
    (on_exception job_id).

End Executor.

(** The double quote. *)
Definition dq : string := String (ascii_of_byte x22) EmptyString.

(** [get_code_template]: the text between the triple quotes, line by
    line. *)
Definition get_code_template : string :=
  Str.join Str.nl
    [EmptyString;
     "# This is a template for processing your data file";
     "# The input file is available as " +:+ dq +:+ "input_file.csv" +:+ dq
       +:+ " (or .xlsx/.xls)";
     "# You should output your results to the current directory";
     EmptyString;
     "import pandas as pd";
     "import json";
     EmptyString;
     "# Determine file type and read accordingly";
     "import os";
     "df = pd.read_csv('/data/input_file.csv')";
     EmptyString;
     "# Process your data here";
     "# Example: Calculate summary statistics";
     "result = {";
     "    'row_count': len(df),";
     "    'column_count': len(df.columns),";
     "    'columns': list(df.columns),";
     "    'summary': df.describe().to_dict()";
     "}";
     "print(" +:+ dq +:+ "result" +:+ dq +:+ ", result)";
     "df.columns = [col.upper() for col in df.columns]";
     EmptyString;
     "# Save results";
     EmptyString;
     "#  Save as CSV";
     "df.to_csv('/data/output/processed_data.csv', index=False)";
     EmptyString;
     EmptyString;
     "print(" +:+ dq +:+ "Processing completed successfully" +:+ dq +:+ ")";
     EmptyString].


(** ** [services/cleanup_service.py] and [app.py] *)

(** [timedelta(days=1)], in microseconds. *)
Definition day : Z := 86400000000.

(** The body of a JSON response: a dictionary of strings, or the document
    [json.load] read from a file with this text. *)
Inductive content : Type :=
| Fields (d : dict string)
| Document (text : string).

Inductive response : Type :=
| Returned (body : dict string)
| JSONResponse (status_code : Z) (body : content)
| FileResponse (path : string) (media_type : option string) (filename : string).

Section Service.

Variable H : Host.

(** The first loop of the sweeper: the ids whose [timestamp] is before the
    cutoff, in registry order. A record without a timestamp, or with one
    that does not parse, raises. *)
Fixpoint jobs_to_delete (cutoff_time : Z) (items : registry) : result (list string) :=
  match items with
  | [] => Ok []
  | (job_id, j) :: rest =>
      match get "timestamp" j with
      | None => Raise (KeyError "timestamp")
      | Some ts =>
          match fromisoformat H ts with
          | None => Raise (ValueError ts)
          | Some job_time =>
              match jobs_to_delete cutoff_time rest with
              | Ok ids => Ok (if job_time <? cutoff_time then job_id :: ids else ids)
              | Raise e => Raise e
              end
          end
      end
  end.

(** [if key in job_status[job_id] and os.path.exists(job_status[job_id][key]):
       rm(job_status[job_id][key])] *)
Definition remove_artifact (job_id key : string)
    (rm : string -> disk -> result unit * disk) : M state unit :=
  j <- job_of job_id ;;
  match get key j with
  | Some p =>
      present <- gets (fun st => os_path_exists p (files st)) ;;
      if present then on_files (rm p) else ret tt
  | None => ret tt
  end.

(** The three removals, written out twice in the source: in the sweeper and
    in [cleanup_job_files]. *)
Definition remove_artifacts (job_id : string) : M state unit :=
  remove_artifact job_id "file_path" os_remove ;;
  remove_artifact job_id "code_path" os_remove ;;
  remove_artifact job_id "result_path" shutil_rmtree.

(** The body of the second loop of the sweeper, with its bare [except]. *)
Definition purge (job_id : string) : M state unit :=
  try_except
    (remove_artifacts job_id ;; on_registry (delete_job job_id))
    (fun _ => ret tt).

(** One turn of the [while True] loop of [cleanup_old_jobs], up to the
    sleep, with [now] the clock read. *)
Definition cleanup_old_jobs_cycle (now : Z) : M state unit :=
  try_except
    (jobs <- (reg <- gets job_status ;;
              lift_result (jobs_to_delete (now - day) reg)) ;;
     for_each jobs purge)
    (fun _ => ret tt).

Definition cleanup_job_files (job_id : string) : M state bool :=
  reg <- gets job_status ;;
  if negb (mem job_id reg) then ret false
  else try_except (remove_artifacts job_id ;; ret true) (fun _ => ret false).

(** [upload_file]; [job_id] and [timestamp] are what [create_job] draws and
    reads. *)
Definition upload_file (job_id timestamp : string)
    (file_filename : string) (data : bytes) : M state response :=
  if String.eqb file_filename "" then raise (HTTPException 400 "No file selected")
  else if negb (allowed_file (str_lower H) file_filename ALLOWED_EXTENSIONS) then
    raise (HTTPException 400
             ("File type not allowed. Supported formats: "
              +:+ Str.join ", " (set_order H ALLOWED_EXTENSIONS)))
  else
    let filename := basename H file_filename in
    on_registry (create_job job_id timestamp filename "") ;;
    let file_path := path_join H (UPLOAD_FOLDER H) (job_id +:+ "_" +:+ filename) in
    if (Z.of_nat (length data) >? MAX_UPLOAD_SIZE) then
      on_registry (delete_job job_id) ;;
      raise (HTTPException 400 "File too large. Maximum size: 50.0MB")
    else
      on_files (write_file file_path (String.string_of_list_byte data)) ;;
      on_registry (store job_id "file_path" file_path) ;;
      ret (Returned [("job_id", job_id); ("status", "uploaded");
                     ("message", "File uploaded successfully")]).

(** [os.path.join(CODE_FOLDER, f"{job_id}_process.py")] *)
Definition code_path_of (job_id : string) : string :=
  path_join H (CODE_FOLDER H) (job_id +:+ "_process.py").

(** [os.path.join(RESULTS_FOLDER, job_id)] *)
Definition result_path_of (job_id : string) : string :=
  path_join H (RESULTS_FOLDER H) job_id.

Definition processing_response (job_id : string) : response :=
  Returned [("job_id", job_id); ("status", "processing");
            ("message", "Code submitted and processing started")].

Definition submit_code (job_id : string) (code_submission : CodeSubmission)
    : M state response :=
  reg <- gets job_status ;;
  if negb (mem job_id reg) then raise (HTTPException 404 "Job not found")
  else
    try_except
      (let code_path := code_path_of job_id in
       on_files (write_file code_path (code code_submission)) ;;
       let result_path := result_path_of job_id in
       on_files (os_makedirs result_path) ;;
       on_registry (store job_id "status" "processing") ;;
       on_registry (store job_id "code_path" code_path) ;;
       on_registry (store job_id "result_path" result_path) ;;
       j <- job_of job_id ;;
       file_path <- field "file_path" j ;;
       add_task (Task job_id file_path code_path result_path MAX_EXECUTION_TIME) ;;
       ret (processing_response job_id))
      (fun e => raise (HTTPException 500 ("Error processing code: " +:+ exc_str H e))).

(** The registry once [submit_code] has stored its three fields. *)
Definition submitted (job_id : string) (reg : registry) : registry :=
  store job_id "result_path" (result_path_of job_id)
    (store job_id "code_path" (code_path_of job_id)
       (store job_id "status" "processing" reg)).

(** The route as the framework serves it: the body is parsed into a
    [CodeSubmission], which runs the validator, before the handler is
    called. *)
Definition post_submit_code (job_id body : string) : M state response :=
  code_submission <- lift_result (CodeSubmission_parse body) ;;
  submit_code job_id code_submission.

(** The three kinds of result file, by the end of the name. *)
Definition is_csv (f : string) : bool := Str.endswith f ".csv".
Definition is_excel (f : string) : bool := Str.endswith f ".xlsx" || Str.endswith f ".xls".
Definition is_json (f : string) : bool := Str.endswith f ".json".

Definition get_status (job_id : string) : M state job :=
  reg <- gets job_status ;;
  from_option (HTTPException 404 "Job not found") (get job_id reg).

(** The file [get_results] prefers for the requested format, if there is
    one. *)
Definition preferred (job_id output_format result_path : string)
    (result_files : list string) : option response :=
  if String.eqb output_format "csv" then
    match List.filter is_csv result_files with
    | f :: _ =>
        Some (FileResponse (path_join H result_path f) (Some "text/csv")
                ("result_" +:+ job_id +:+ ".csv"))
    | [] => None
    end
  else if String.eqb output_format "excel" then
    match List.filter is_excel result_files with
    | f :: _ =>
        Some (FileResponse (path_join H result_path f)
                (Some "application/vnd.openxmlformats-officedocument.spreadsheetml.sheet")
                ("result_" +:+ job_id +:+ ".xlsx"))
    | [] => None
    end
  else None.

Definition get_results (job_id output_format : string) : M state response :=
  reg <- gets job_status ;;
  match get job_id reg with
  | None => raise (HTTPException 404 "Job not found")
  | Some j =>
      status <- field "status" j ;;
      if negb (String.eqb status "completed") then
        ret (JSONResponse 400
               (Fields [("status", status); ("message", "Results not available yet")]))
      else
        result_path <- field "result_path" j ;;
        entries <- (d <- gets files ;; lift_result (os_listdir result_path d)) ;;
        let result_files := map fst (List.filter is_regular entries) in
        match result_files with
        | [] => raise (HTTPException 404 "No results found")
        | first :: _ =>
            match preferred job_id output_format result_path result_files with
            | Some r => ret r
            | None =>
                match List.filter is_json result_files with
                | f :: _ =>
                    text <- from_option
                              (OSError "FileNotFoundError" (path_join H result_path f))
                              (read_entry f entries) ;;
                    if json_accepts H text then
                      match render_error H text with
                      | None => ret (JSONResponse 200 (Document text))
                      | Some e => raise e
                      end
                    else raise (JSONDecodeError text)
                | [] =>
                    ret (FileResponse (path_join H result_path first) None
                           ("result_" +:+ job_id +:+ "_" +:+ first))
                end
            end
        end
  end.

Definition cleanup_job (job_id : string) : M state response :=
  reg <- gets job_status ;;
  if negb (mem job_id reg) then raise (HTTPException 404 "Job not found")
  else
    try_except
      (success <- cleanup_job_files job_id ;;
       if (success : bool) then
         on_registry (delete_job job_id) ;;
         ret (Returned [("message", "Job " +:+ job_id +:+ " cleaned up successfully")])
       else raise (HTTPException 500 "Error cleaning up job files"))
      (fun e => raise (HTTPException 500 ("Error cleaning up job: " +:+ exc_str H e))).

(** [get_template] *)
Definition get_template : M state response :=
  ret (Returned [("template", get_code_template)]).

End Service.

(** The second loop as a fold. *)
Definition purge_all (ids : list string) (s : state) : state :=
  fold_left (fun s job_id => snd (purge job_id s)) ids s.


(** ** The service as a transition system

    The requests, the background executions and the sweeper all run on one
    event loop: each runs alone between two suspensions. An execution is
    queued by [submit_code], begins (up to the launch), then waits for its
    process and finishes; anything else may run while it is queued or
    waits. On Windows the launch and the wait block the loop, so there a
    [Finish] follows its [Begin] at once. *)

(** An execution waiting for its process. *)
Record pending : Type := Pending {
  pending_job_id : string;
  pending_cmd : list string;
  pending_max_execution_time : Z
}.

Record system : Type := System {
  server : state;
  awaiting : list pending;
  issued : list string       (* the identifiers [uuid4] has drawn so far *)
}.

Inductive action : Type :=
| Upload (job_id timestamp filename : string) (data : bytes)
| SubmitCode (job_id body : string)
| Begin (n : nat)
| Finish (n : nat) (r : run)
| Sweep (now : Z)
| Cleanup (job_id : string).

Definition initial : system := System (State [] ∅ []) [] [].

Definition terminal (status : string) : Prop :=
  status = "completed" \/ status = "failed" \/ status = "timeout".

(** The place of a status in the lifecycle. *)
Definition rank (status : string) : nat :=
  if String.eqb status "processing" then 1
  else if String.eqb status "running" then 2
  else if String.eqb status "completed" then 3
  else if String.eqb status "failed" then 3
  else if String.eqb status "timeout" then 3
  else 0.

Section Transitions.

Variable H : Host.

Definition step (a : action) (s : system) : system :=
  let st := server s in
  match a with
  | Upload job_id timestamp filename data =>
      System (snd (upload_file H job_id timestamp filename data st))
        (awaiting s) (job_id :: issued s)
  | SubmitCode job_id body =>
      System (snd (post_submit_code H job_id body st)) (awaiting s) (issued s)
  | Begin n =>
      match background_tasks st !! n with
      | None => s
      | Some t =>
          let '(r, sb) := exec_begin H t (Sandbox (job_status st) None []) in
          System
            (State (registry_of sb) (files st) (delete n (background_tasks st)))
            (awaiting s
             ++ [Pending (task_job_id t)
                   (match r with Ok docker_cmd => docker_cmd | Raise _ => [] end)
                   (task_max_execution_time t)])
            (issued s)
      end
  | Finish n r =>
      match awaiting s !! n with
      | None => s
      | Some p =>
          let sb := snd (exec_finish H (pending_job_id p) (pending_cmd p)
                           (pending_max_execution_time p) r
                           (Sandbox (job_status st) (Some Running) [])) in
          System (State (registry_of sb) (files st) (background_tasks st))
            (delete n (awaiting s)) (issued s)
      end
  | Sweep now =>
      System (snd (cleanup_old_jobs_cycle H now st)) (awaiting s) (issued s)
  | Cleanup job_id =>
      System (snd (cleanup_job H job_id st)) (awaiting s) (issued s)
  end.

(** What the code takes for granted and does not check: [uuid4] draws an
    identifier it has not drawn before, and code is submitted to a job
    only while its status is [uploaded]. *)
Definition admissible (a : action) (s : system) : Prop :=
  match a with
  | Upload job_id _ _ _ => ~ In job_id (issued s)
  | SubmitCode job_id _ =>
      mem job_id (job_status (server s)) = true ->
      status_of job_id (job_status (server s)) = Some "uploaded"
  | _ => True
  end.

(** Every action of a schedule is admissible where it is played. *)
Fixpoint admissible_run (schedule : list action) (s : system) : Prop :=
  match schedule with
  | [] => True
  | a :: rest => admissible a s /\ admissible_run rest (step a s)
  end.

Inductive reachable : system -> Prop :=
| reachable_initial : reachable initial
| reachable_step a s : reachable s -> admissible a s -> reachable (step a s).

(** What holds of every reachable state: a queued execution belongs to a
    job that is [processing] (or gone), a waiting one to a job that is
    [running] (or gone), no job has two executions, and every identifier in
    use has been drawn. *)
Record invariant (s : system) : Prop := {
  inv_queued :
    forall t status,
      In t (background_tasks (server s)) ->
      status_of (task_job_id t) (job_status (server s)) = Some status ->
      status = "processing";
  inv_awaiting :
    forall p status,
      In p (awaiting s) ->
      status_of (pending_job_id p) (job_status (server s)) = Some status ->
      status = "running";
  inv_single :
    List.NoDup (map task_job_id (background_tasks (server s))
                ++ map pending_job_id (awaiting s));
  inv_issued :
    forall job_id,
      mem job_id (job_status (server s)) = true
      \/ In job_id (map task_job_id (background_tasks (server s)))
      \/ In job_id (map pending_job_id (awaiting s)) ->
      In job_id (issued s)
}.

(** A schedule played from a state. *)
Definition play (schedule : list action) (s : system) : system :=
  fold_left (fun s a => step a s) schedule s.

End Transitions.

(** ** Reading the sweeper

    The paths a record names, the records the sweeper takes for old, and the
    records whose artifacts the two removal calls accept: a file where
    [os.remove] is used, a directory where [shutil.rmtree] is used, or
    nothing at all. *)

Definition path_at (key : string) (j : job) : list string :=
  match get key j with Some p => [p] | None => [] end.

Definition artifact_paths (j : job) : list string :=
  path_at "file_path" j ++ path_at "code_path" j ++ path_at "result_path" j.

Definition stamped (H : Host) (j : job) (t : Z) : Prop :=
  exists ts, get "timestamp" j = Some ts /\ fromisoformat H ts = Some t.

Definition well_stamped (H : Host) (reg : registry) : Prop :=
  forall job_id j, In (job_id, j) reg -> exists t, stamped H j t.

Definition removable (d : disk) (j : job) : Prop :=
  (forall p es, get "file_path" j = Some p -> d !! p <> Some (Dir es))
  /\ (forall p es, get "code_path" j = Some p -> d !! p <> Some (Dir es))
  /\ (forall p text, get "result_path" j = Some p -> d !! p <> Some (File text)).

(** The disk of [s'] is the disk of [s] less some paths that satisfy [P];
    the rest of the state is the same. *)
Definition shrinks_at (P : string -> Prop) (s s' : state) : Prop :=
  job_status s' = job_status s
  /\ background_tasks s' = background_tasks s
  /\ forall p, files s' !! p = files s !! p \/ (files s' !! p = None /\ P p).

(** [s] is what is left of [st] when the jobs of [D] have been through the
    loop: records and paths are as in [st] or gone, and what is gone
    belonged to a job of [D]. *)
Definition swept (st : state) (D : list string) (s : state) : Prop :=
  background_tasks s = background_tasks st
  /\ (forall job_id, get job_id (job_status s) = get job_id (job_status st)
                     \/ (get job_id (job_status s) = None /\ In job_id D))
  /\ (forall p, files s !! p = files st !! p
                \/ (files s !! p = None
                    /\ exists job_id j, In job_id D
                                        /\ get job_id (job_status st) = Some j
                                        /\ In p (artifact_paths j))).

(** ** Reading the lifecycle *)

(** The registry [reg'] is [reg] with the status of [job_id], if it is
    there, set to [status]. *)
Definition rewrites (job_id status : string) (reg reg' : registry) : Prop :=
  (forall other, other <> job_id -> get other reg' = get other reg)
  /\ (get job_id reg = None -> get job_id reg' = None)
  /\ (get job_id reg <> None -> status_of job_id reg' = Some status).

(** The registry [reg'] is [reg] less some records. *)
Definition drops (reg reg' : registry) : Prop :=
  forall job_id, get job_id reg' = get job_id reg \/ get job_id reg' = None.

(** ** Reading a listing

    [f] is the first name of the listing [l] of the kind [P]; no name of
    [l] is of the kind [P]. *)



(** ** Reading the records *)

(** The six values of [status] the code writes. *)
Definition known_status (status : string) : Prop :=
  In status ["uploaded"; "processing"; "running"; "completed"; "failed"; "timeout"].

(** Every record of the registry has one of them. *)
Definition all_known (reg : registry) : Prop :=
  forall job_id j, get job_id reg = Some j ->
    exists status, get "status" j = Some status /\ known_status status.

(** From [reg] to [reg'] the only writes are to the fields [fields] of the
    record of [job_id]: the other records are the same, a missing record
    stays missing, and the other fields of the record read as before. *)
Definition writes_only (fields : list string) (job_id : string) (reg reg' : registry) :
    Prop :=
  (forall other, other <> job_id -> get other reg' = get other reg)
  /\ (get job_id reg = None -> get job_id reg' = None)
  /\ (forall j, get job_id reg = Some j ->
        exists j', get job_id reg' = Some j'
                   /\ forall key, ~ In key fields -> get key j' = get key j).

(** The fields [create_job] and [upload_file] write. *)
Definition upload_fields : list string := ["id"; "filename"; "timestamp"; "file_path"].

(** The fields an execution writes. *)
Definition execution_fields : list string :=
  ["status"; "docker_cmd"; "stdout"; "stderr"; "error"].

(** The record of [job_id] in [reg'], if there is one, has the upload
    fields of its record in [reg]; and there is none if there was none. *)
Definition keeps_upload_fields (job_id : string) (reg reg' : registry) : Prop :=
  (get job_id reg = None -> get job_id reg' = None)
  /\ (forall j, get job_id reg = Some j ->
        get job_id reg' = None
        \/ exists j', get job_id reg' = Some j'
                      /\ forall key, In key upload_fields -> get key j' = get key j).

(** The schedule has no upload under the identifier [job_id]. *)
Definition never_uploads (job_id : string) (schedule : list action) : Prop :=
  forall timestamp filename data, ~ In (Upload job_id timestamp filename data) schedule.

(** ** Reading the executions *)

(** The input path a record of [job_id] can hold: empty, as [create_job] is
    called, or under the upload folder with the identifier in front. *)
Definition own_input (H : Host) (job_id file_path : string) : Prop :=
  file_path = ""
  \/ exists name, file_path = path_join H (UPLOAD_FOLDER H) (job_id +:+ "_" +:+ name).

Definition own_records (H : Host) (reg : registry) : Prop :=
  forall job_id j, get job_id reg = Some j ->
    exists file_path, get "file_path" j = Some file_path /\ own_input H job_id file_path.

(** A queued execution that has the paths of its own job and the configured
    time limit. *)
Definition own_task (H : Host) (t : task) : Prop :=
  own_input H (task_job_id t) (task_file_path t)
  /\ task_code_path t = code_path_of H (task_job_id t)
  /\ task_result_path t = result_path_of H (task_job_id t)
  /\ task_max_execution_time t = MAX_EXECUTION_TIME.

(** The same for an execution that waits for its process: its command is
    the one built from the paths of its job. *)
Definition own_pending (H : Host) (p : pending) : Prop :=
  pending_max_execution_time p = MAX_EXECUTION_TIME
  /\ exists file_path,
       own_input H (pending_job_id p) file_path
       /\ pending_cmd p
          = docker_cmd_of H file_path (code_path_of H (pending_job_id p))
              (result_path_of H (pending_job_id p)) MAX_EXECUTION_TIME.

(** ** A POSIX host

    The host functions as CPython has them on a POSIX platform, for ASCII
    text; [fromisoformat] reads the two shapes [datetime.isoformat()]
    writes for a naive datetime; [json_accepts], [render_error] and the two
    renderings of an exception are stand-ins, and a set is iterated in the
    order it is written. *)

Module Posix.

(** [posixpath.join(a, b)] *)
Definition join (a b : string) : string :=
  if Str.startswith "/" b then b
  else if String.eqb a "" || Str.endswith a "/" then a +:+ b
  else a +:+ "/" +:+ b.

(** [s.rsplit(c, 1)] when [c] occurs: the text before and after its last
    occurrence. *)
Fixpoint rsplit (c : ascii) (s : string) : option (string * string) :=
  match s with
  | EmptyString => None
  | String a rest =>
      match rsplit c rest with
      | Some (before, after) => Some (String a before, after)
      | None => if Ascii.eqb a c then Some ("", rest) else None
      end
  end.

(** The leading dots of a file name and the rest of it. *)
Fixpoint leading_dots (name : string) : string * string :=
  match name with
  | String "." rest => let '(dots, tail) := leading_dots rest in (String "." dots, tail)
  | _ => ("", name)
  end.

(** [posixpath.splitext] *)
Definition splitext (p : string) : string * string :=
  let '(head, name) :=
    match rsplit "/" p with
    | Some (dir, name) => (dir +:+ "/", name)
    | None => ("", p)
    end in
  let '(dots, tail) := leading_dots name in
  match rsplit "." tail with
  | Some (root, ext) => (head +:+ dots +:+ root, "." +:+ ext)
  | None => (p, "")
  end.

(** [posixpath.basename] *)
Definition basename (p : string) : string :=
  match rsplit "/" p with
  | Some (_, name) => name
  | None => p
  end.

Definition lower_ascii (a : ascii) : ascii :=
  let n := nat_of_ascii a in
  if (65 <=? n)%nat && (n <=? 90)%nat then ascii_of_nat (n + 32) else a.

Fixpoint lower (s : string) : string :=
  match s with
  | EmptyString => EmptyString
  | String a rest => String (lower_ascii a) (lower rest)
  end.

(** [s.replace(old, new)] for a non-empty [old]; [skip] characters of a
    match are still to be dropped. *)
Fixpoint replace_from (skip : nat) (old new s : string) : string :=
  match s with
  | EmptyString => EmptyString
  | String a rest =>
      match skip with
      | S k => replace_from k old new rest
      | O =>
          if Str.startswith old s
          then new +:+ replace_from (String.length old - 1) old new rest
          else String a (replace_from 0 old new rest)
      end
  end.

Definition replace (s old new : string) : string :=
  if String.eqb old "" then s else replace_from 0 old new s.

Definition digit (a : ascii) : option Z :=
  let n := Z.of_nat (nat_of_ascii a) in
  if (48 <=? n) && (n <=? 57) then Some (n - 48) else None.

Fixpoint number_from (acc : Z) (s : string) : option Z :=
  match s with
  | EmptyString => Some acc
  | String a rest =>
      match digit a with
      | Some d => number_from (acc * 10 + d) rest
      | None => None
      end
  end.

Definition number (s : string) : option Z :=
  if String.eqb s "" then None else number_from 0 s.

(** Days from 1970-01-01 to a date of the proleptic Gregorian calendar. *)
Definition days_from_civil (y m d : Z) : Z :=
  let y := if m <=? 2 then y - 1 else y in
  let era := y / 400 in
  let yoe := y - era * 400 in
  let doy := (153 * (if 2 <? m then m - 3 else m + 9) + 2) / 5 + d - 1 in
  let doe := yoe * 365 + yoe / 4 - yoe / 100 + doy in
  era * 146097 + doe - 719468.

(** [YYYY-MM-DDTHH:MM:SS] and [YYYY-MM-DDTHH:MM:SS.ffffff], in
    microseconds. *)
Definition fromisoformat (s : string) : option Z :=
  let part i n := number (String.substring i n s) in
  let sep i c := String.eqb (String.substring i 1 s) c in
  let len := String.length s in
  if negb (Nat.eqb len 19 || Nat.eqb len 26) then None
  else if negb (sep 4%nat "-" && sep 7%nat "-" && sep 10%nat "T"
                && sep 13%nat ":" && sep 16%nat ":") then None
  else
    y ← part 0%nat 4%nat; mo ← part 5%nat 2%nat; d ← part 8%nat 2%nat;
    h ← part 11%nat 2%nat; mi ← part 14%nat 2%nat; sec ← part 17%nat 2%nat;
    us ← (if Nat.eqb len 19 then Some 0
          else if sep 19%nat "." then part 20%nat 6%nat else None);
    if (1 <=? mo) && (mo <=? 12) && (1 <=? d) && (d <=? 31)
       && (h <? 24) && (mi <? 60) && (sec <? 60)
    then Some ((((days_from_civil y mo d * 24 + h) * 60 + mi) * 60 + sec) * 1000000 + us)
    else None.

Definition json_accepts (text : string) : bool :=
  Str.startswith "{" text || Str.startswith "[" text.

Definition render_error (text : string) : option exn :=
  if Str.contains "NaN" text || Str.contains "Infinity" text
  then Some (ValueError "Out of range float values are not JSON compliant")
  else None.

(** The text of the errno of the [OSError] subclasses the file system
    raises. *)
Definition strerror (subclass : string) : string :=
  if String.eqb subclass "FileNotFoundError" then "[Errno 2] No such file or directory"
  else if String.eqb subclass "FileExistsError" then "[Errno 17] File exists"
  else if String.eqb subclass "NotADirectoryError" then "[Errno 20] Not a directory"
  else if String.eqb subclass "IsADirectoryError" then "[Errno 21] Is a directory"
  else subclass.

Fixpoint exc_str (e : exn) : string :=
  match e with
  | KeyError key => "'" +:+ key +:+ "'"
  | IndexError => "list index out of range"
  | ValueError msg => msg
  | UnicodeDecodeError _ => "'utf-8' codec can't decode bytes"
  | OSError subclass path => strerror subclass +:+ ": '" +:+ path +:+ "'"
  | JSONDecodeError _ => "Expecting value"
  | RequestValidationError cause => exc_str cause
  | HTTPException status_code detail => pretty status_code +:+ ": " +:+ detail
  | Failure description => description
  end.

Definition format_exc (e : exn) : string :=
  "Traceback (most recent call last):" +:+ Str.nl +:+ exc_str e +:+ Str.nl.

Definition host : Host :=
  Build_Host "posix" join splitext basename lower replace fromisoformat
    json_accepts render_error (fun extensions => extensions) exc_str format_exc
    "/tmp/file_processor/uploads" "/tmp/file_processor/code"
    "/tmp/file_processor/results".

End Posix.


(** ** Examples *)

Module Example.

(** A job as [upload_file] leaves it. *)
Definition uploaded : registry :=
  store "j1" "file_path" "/tmp/file_processor/uploads/j1_data.csv"
    (create_job "j1" "2024-01-01T00:00:00" "data.csv" "" []).

Definition fresh_sandbox : sandbox := Sandbox uploaded None [].

Definition file_path : string := "/tmp/file_processor/uploads/j1_data.csv".
Definition code_path : string := "/tmp/file_processor/code/j1_process.py".
Definition result_path : string := "/tmp/file_processor/results/j1".

(** The bytes of ["partial"]. *)
Definition partial_output : bytes := [x70; x61; x72; x74; x69; x61; x6c].

(** The bytes of ["boom"]. *)
Definition boom : bytes := [x62; x6f; x6f; x6d].

(** One job taken through its life on the POSIX host: uploaded, code
    submitted, executed, exit code 0. *)
Definition completed_run : list action :=
  [Upload "j1" "2024-01-01T00:00:00" "data.csv" [x61; x2c; x62];
   SubmitCode "j1" "print(1)";
   Begin 0;
   Finish 0 (Launches (Returns 0 [] []))].

Definition completed_system : system := play Posix.host completed_run initial.

(** The completed job with a result directory that holds a JSON file, a
    text file and a sub-directory. *)
Definition with_results : state :=
  let st := server completed_system in
  State (job_status st)
    (<["/tmp/file_processor/results/j1" :=
        Dir [("cache", NotAFile); ("notes.txt", RegularFile "done");
             ("result.json", RegularFile "[3]")]]> (files st))
    (background_tasks st).

(** Three jobs on the disk: two uploaded on 1 January 2024, one of which
    has a directory where its input file should be, and one uploaded on
    2 January at noon. *)
Definition aged : state :=
  State
    [("old_bad",
      [("id", "old_bad"); ("filename", "a.csv"); ("status", "completed");
       ("timestamp", "2024-01-01T00:00:00"); ("file_path", "/up/old_bad_a.csv");
       ("code_path", "/code/old_bad_process.py")]);
     ("old_ok",
      [("id", "old_ok"); ("filename", "b.csv"); ("status", "completed");
       ("timestamp", "2024-01-01T08:00:00"); ("file_path", "/up/old_ok_b.csv");
       ("code_path", "/code/old_ok_process.py"); ("result_path", "/res/old_ok")]);
     ("young",
      [("id", "young"); ("filename", "c.csv"); ("status", "uploaded");
       ("timestamp", "2024-01-02T12:00:00"); ("file_path", "/up/young_c.csv")])]
    (list_to_map
       [("/up/old_bad_a.csv", Dir []);
        ("/code/old_bad_process.py", File "print(0)");
        ("/up/old_ok_b.csv", File "x");
        ("/code/old_ok_process.py", File "print(1)");
        ("/res/old_ok", Dir [("out.csv", RegularFile "1")]);
        ("/up/young_c.csv", File "y")])
    [].

(** 3 January 2024, 00:00:00, in microseconds. *)
Definition sweep_time : Z := 1704240000000000.

(** The server after the upload alone. *)
Definition uploaded_state : state :=
  server (play Posix.host [Upload "j1" "2024-01-01T00:00:00" "data.csv" [x61; x2c; x62]]
            initial).

(** The server after the upload, with a directory where the file of a
    second upload would go. *)
Definition blocked_upload : state :=
  State (job_status uploaded_state)
    (<["/tmp/file_processor/uploads/j2_b.csv" := Dir []]> (files uploaded_state))
    (background_tasks uploaded_state).

(** The completed job with a result directory that holds a sub-directory
    and no file. *)
Definition without_results : state :=
  let st := server completed_system in
  State (job_status st)
    (<["/tmp/file_processor/results/j1" := Dir [("cache", NotAFile)]]> (files st))
    (background_tasks st).

(** The three jobs and a fourth whose timestamp is not a date. *)
Definition unstamped : state :=
  State
    (job_status aged ++ [("odd", [("id", "odd"); ("timestamp", "yesterday")])])
    (files aged) [].

(** The job taken up to the wait for its process. *)
Definition waiting_run : list action :=
  [Upload "j1" "2024-01-01T00:00:00" "data.csv" [x61; x2c; x62];
   SubmitCode "j1" "print(1)";
   Begin 0].

(** What comes after: the process exits and the sweeper passes, nine
    hours after the upload. *)
Definition closing_run : list action :=
  [Finish 0 (Launches (Returns 0 [] [])); Sweep 1704100000000000].

End Example.

(** * Part II: properties *)

(** ** Strings *)

Lemma append_assoc (a b c : string) : (a +:+ b) +:+ c = a +:+ (b +:+ c).
Proof. induction a as [|x a IH]; simpl; [reflexivity | f_equal; exact IH]. Qed.

Lemma startswith_spec (p s : string) :
  Str.startswith p s = true <-> exists post, s = p +:+ post.
Proof.
  revert s; induction p as [|a p IH]; intros s; simpl.
  - split; [intros _; now exists s | reflexivity].
  - destruct s as [|b s].
    + split; [discriminate | intros [post Hs]; discriminate].
    + rewrite andb_true_iff, IH. split.
      * intros [Hab [post ->]]. apply Ascii.eqb_eq in Hab as ->. now exists post.
      * intros [post Hs]. injection Hs as -> ->.
        split; [apply Ascii.eqb_refl | now exists post].
Qed.

Lemma contains_spec (p s : string) :
  Str.contains p s = true <-> Str.occurs_in p s.
Proof.
  unfold Str.occurs_in.
  induction s as [|b s IH]; cbn [Str.contains]; rewrite orb_true_iff, startswith_spec.
  - split.
    + intros [[post Hs] | Hs]; [now exists "", post | discriminate].
    + intros [pre [post Hs]]. left. destruct pre; [now exists post | discriminate].
  - rewrite IH. split.
    + intros [[post Hs] | [pre [post ->]]]; [now exists "", post |].
      now exists (String b pre), post.
    + intros [pre [post Hs]]. destruct pre as [|c pre]; simpl in Hs.
      * left. now exists post.
      * right. injection Hs as _ ->. now exists pre, post.
Qed.

Lemma endswith_spec (s p : string) :
  Str.endswith s p = true <-> exists pre, s = pre +:+ p.
Proof.
  induction s as [|b s IH]; cbn [Str.endswith]; rewrite orb_true_iff.
  - split.
    + intros [Hs | Hs]; [| discriminate]. apply String.eqb_eq in Hs as <-. now exists "".
    + intros [pre Hs]. left. destruct pre; [| discriminate]. simpl in Hs. now subst p.
  - rewrite IH, String.eqb_eq. split.
    + intros [<- | [pre ->]]; [now exists "" | now exists (String b pre)].
    + intros [pre Hs]. destruct pre as [|c pre]; simpl in Hs.
      * now left.
      * right. injection Hs as _ ->. now exists pre.
Qed.

(** ** Dictionaries *)

Section DictFacts.

Context {V : Type}.
Implicit Types (d : dict V) (k : string) (v : V).

Lemma get_set_eq k v d : get k (set k v d) = Some v.
Proof.
  induction d as [|[k' v'] d IH]; simpl.
  - now rewrite String.eqb_refl.
  - destruct (String.eqb k' k) eqn:E; simpl; now rewrite E.
Qed.

Lemma get_set_ne k k' v d : k <> k' -> get k' (set k v d) = get k' d.
Proof.
  intros Hne. induction d as [|[k0 v0] d IH]; simpl.
  - destruct (String.eqb_spec k k'); [contradiction | reflexivity].
  - destruct (String.eqb_spec k0 k) as [->|Hk]; simpl.
    + destruct (String.eqb_spec k k'); [contradiction | reflexivity].
    + now rewrite IH.
Qed.

Lemma get_del_eq k d : get k (del k d) = None.
Proof.
  induction d as [|[k' v'] d IH]; simpl; [reflexivity |].
  destruct (String.eqb k' k) eqn:E; simpl; [assumption | now rewrite E].
Qed.

Lemma get_del_ne k k' d : k <> k' -> get k' (del k d) = get k' d.
Proof.
  intros Hne. induction d as [|[k0 v0] d IH]; simpl; [reflexivity |].
  destruct (String.eqb_spec k0 k) as [->|Hk]; simpl.
  - destruct (String.eqb_spec k k'); [contradiction | assumption].
  - now rewrite IH.
Qed.

Lemma set_keys_present k v d : get k d <> None -> keys (set k v d) = keys d.
Proof.
  induction d as [|[k' v'] d IH]; simpl; [congruence |].
  destruct (String.eqb k' k); [reflexivity |].
  intros Hk. unfold keys in *. simpl. f_equal. now apply IH.
Qed.

Lemma set_same k v d : get k d = Some v -> set k v d = d.
Proof.
  induction d as [|[k' v'] d IH]; simpl; [discriminate |].
  destruct (String.eqb k' k); [now intros [= ->] |].
  intros Hk. now rewrite IH.
Qed.

Lemma del_absent k d : get k d = None -> del k d = d.
Proof.
  induction d as [|[k' v'] d IH]; simpl; [reflexivity |].
  destruct (String.eqb k' k); [discriminate |].
  intros Hk. now rewrite IH.
Qed.

Lemma get_in_keys k v d : get k d = Some v -> In k (keys d).
Proof.
  induction d as [|[k' v'] d IH]; simpl; [discriminate |].
  destruct (String.eqb_spec k' k) as [->|Hk]; [now left |].
  intros Hg. right. now apply IH.
Qed.

Lemma in_keys_get k d : In k (keys d) -> exists v, get k d = Some v.
Proof.
  induction d as [|[k' v'] d IH]; simpl; [contradiction |].
  destruct (String.eqb_spec k' k) as [->|Hk]; [intros _; now exists v' |].
  intros [Hin | Hin]; [contradiction | now apply IH].
Qed.

Lemma mem_true k d : mem k d = true <-> exists v, get k d = Some v.
Proof.
  unfold mem. destruct (get k d) as [v|]; split; try discriminate; eauto.
  intros [v Hv]; discriminate.
Qed.

Lemma mem_false k d : mem k d = false <-> get k d = None.
Proof. unfold mem. destruct (get k d); split; congruence. Qed.

End DictFacts.

(** ** The registry *)

Lemma store_get_same job_id key value reg j :
  get job_id reg = Some j ->
  get job_id (store job_id key value reg) = Some (set key value j).
Proof. intros Hj. unfold store. rewrite Hj. apply get_set_eq. Qed.

Lemma store_get_other job_id other key value reg :
  other <> job_id -> get other (store job_id key value reg) = get other reg.
Proof.
  intros Hne. unfold store. destruct (get job_id reg); [| reflexivity].
  apply get_set_ne. congruence.
Qed.

Lemma store_keys job_id key value reg : keys (store job_id key value reg) = keys reg.
Proof.
  unfold store. destruct (get job_id reg) eqn:Hj; [| reflexivity].
  apply set_keys_present. congruence.
Qed.

Lemma fold_store_get_same job_id kwargs : forall reg j,
  get job_id reg = Some j ->
  get job_id (fold_left (fun r kv => store job_id (fst kv) (snd kv) r) kwargs reg)
  = Some (assign kwargs j).
Proof.
  induction kwargs as [|[k v] kwargs IH]; intros reg j Hj; simpl; [assumption |].
  apply IH. now apply store_get_same.
Qed.

Lemma fold_store_get_other job_id other kwargs : forall reg,
  other <> job_id ->
  get other (fold_left (fun r kv => store job_id (fst kv) (snd kv) r) kwargs reg)
  = get other reg.
Proof.
  induction kwargs as [|[k v] kwargs IH]; intros reg Hne; simpl; [reflexivity |].
  rewrite IH by assumption. now apply store_get_other.
Qed.

Lemma fold_store_keys job_id kwargs : forall reg,
  keys (fold_left (fun r kv => store job_id (fst kv) (snd kv) r) kwargs reg) = keys reg.
Proof.
  induction kwargs as [|[k v] kwargs IH]; intros reg; simpl; [reflexivity |].
  rewrite IH. apply store_keys.
Qed.

Lemma assign_get_other (kwargs : dict string) key : forall j,
  ~ In key (keys kwargs) -> get key (assign kwargs j) = get key j.
Proof.
  induction kwargs as [|[k v] kwargs IH]; intros j Hnin; simpl; [reflexivity |].
  simpl in Hnin. unfold assign in IH. rewrite IH by tauto.
  apply get_set_ne. tauto.
Qed.

Lemma update_get_same job_id status kwargs reg j :
  get job_id reg = Some j ->
  get job_id (update_job_status job_id status kwargs reg)
  = Some (assign kwargs (set "status" status j)).
Proof.
  intros Hj. unfold update_job_status, mem. rewrite Hj.
  apply fold_store_get_same. now apply store_get_same.
Qed.

Lemma update_get_other job_id other status kwargs reg :
  other <> job_id ->
  get other (update_job_status job_id status kwargs reg) = get other reg.
Proof.
  intros Hne. unfold update_job_status. destruct (mem job_id reg); [| reflexivity].
  rewrite fold_store_get_other by assumption. now apply store_get_other.
Qed.

Lemma update_absent job_id status kwargs reg :
  get job_id reg = None -> update_job_status job_id status kwargs reg = reg.
Proof. intros Hj. unfold update_job_status, mem. now rewrite Hj. Qed.

Lemma update_keys job_id status kwargs reg :
  keys (update_job_status job_id status kwargs reg) = keys reg.
Proof.
  unfold update_job_status. destruct (mem job_id reg); [| reflexivity].
  rewrite fold_store_keys. apply store_keys.
Qed.

Lemma update_status_of job_id status kwargs reg j :
  get job_id reg = Some j -> ~ In "status" (keys kwargs) ->
  status_of job_id (update_job_status job_id status kwargs reg) = Some status.
Proof.
  intros Hj Hnin. unfold status_of. rewrite (update_get_same _ _ _ _ _ Hj).
  rewrite assign_get_other by assumption. apply get_set_eq.
Qed.

Lemma update_status_of_other job_id other status kwargs reg :
  other <> job_id ->
  status_of other (update_job_status job_id status kwargs reg) = status_of other reg.
Proof. intros Hne. unfold status_of. now rewrite update_get_other. Qed.

(** C10. [update_job_status] on a job of the registry leaves every field of
    its record other than [status] and the passed keys as it was ([id],
    [filename] and [timestamp] among them), leaves the record of every other
    job as it was, and keeps the order of the registry; on an id that is not
    in the registry it leaves the registry as it was. *)
Theorem update_job_status_frame (job_id status : string) (kwargs : dict string)
    (reg : registry) :
  (forall j, get job_id reg = Some j ->
     exists j', get job_id (update_job_status job_id status kwargs reg) = Some j' /\
       forall key, key <> "status" -> ~ In key (keys kwargs) ->
                   get key j' = get key j)
  /\ (forall other, other <> job_id ->
        get other (update_job_status job_id status kwargs reg) = get other reg)
  /\ keys (update_job_status job_id status kwargs reg) = keys reg
  /\ (get job_id reg = None -> update_job_status job_id status kwargs reg = reg).
Proof.
  repeat split.
  - intros j Hj. eexists. split; [exact (update_get_same _ _ _ _ _ Hj) |].
    intros key Hs Hk. rewrite assign_get_other by assumption.
    apply get_set_ne. congruence.
  - intros other Hne. now apply update_get_other.
  - apply update_keys.
  - apply update_absent.
Qed.

(** C10, at the registry of the example: a [failed] update with an error
    detail keeps [id], [filename] and [timestamp], and an update for an
    unknown id changes nothing. *)
Lemma update_job_status_frame_witness :
  (exists j',
     get "j1" (update_job_status "j1" "failed" [("error", "boom")] Example.uploaded)
     = Some j'
     /\ get "id" j' = Some "j1" /\ get "filename" j' = Some "data.csv"
     /\ get "timestamp" j' = Some "2024-01-01T00:00:00")
  /\ update_job_status "nobody" "failed" [("error", "boom")] Example.uploaded
     = Example.uploaded.
Proof.
  pose proof (update_job_status_frame "j1" "failed" [("error", "boom")] Example.uploaded)
    as (Hsame & _).
  destruct (Hsame (get_job_status "j1" Example.uploaded) eq_refl) as (j' & Hj' & Hkeep).
  split.
  - exists j'. split; [exact Hj' |].
    repeat split; (rewrite Hkeep; [reflexivity | discriminate | cbn; intuition discriminate]).
  - apply (update_job_status_frame "nobody" "failed" [("error", "boom")] Example.uploaded).
    reflexivity.
Defined.

(** ** The executor *)

Ltac dict_simpl :=
  repeat first
    [ rewrite get_set_eq
    | rewrite get_set_ne by discriminate ].

Lemma decode_empty : decode_utf8 [] = Ok "".
Proof. reflexivity. Qed.

Lemma decode_utf8_cases (data : bytes) :
  (utf8_valid data = true /\ decode_utf8 data = Ok (String.string_of_list_byte data))
  \/ (utf8_valid data = false /\ decode_utf8 data = Raise (UnicodeDecodeError data)).
Proof. unfold decode_utf8. destruct (utf8_valid data); [left | right]; now split. Qed.

Section ExecutorFacts.

Variable H : Host.

Lemma prepared_get job_id fp cp rp t reg j :
  get job_id reg = Some j ->
  get job_id (prepared H job_id fp cp rp t reg)
  = Some (set "docker_cmd" (Str.join " " (docker_cmd_of H fp cp rp t))
            (set "status" "running" (set "status" "running" j))).
Proof.
  intros Hj. unfold prepared.
  rewrite (update_get_same _ _ _ _ (set "status" "running" j)); [reflexivity |].
  now rewrite (update_get_same _ _ _ _ _ Hj).
Qed.

Lemma prepared_get_other job_id other fp cp rp t reg :
  other <> job_id -> get other (prepared H job_id fp cp rp t reg) = get other reg.
Proof. intros Hne. unfold prepared. now rewrite !update_get_other. Qed.

Lemma prepared_absent job_id fp cp rp t reg :
  get job_id reg = None -> prepared H job_id fp cp rp t reg = reg.
Proof.
  intros Hj. unfold prepared.
  rewrite (update_absent _ _ _ reg Hj). now apply update_absent.
Qed.


(** The executor when the launch raises. *)
Lemma execute_launch_fails job_id fp cp rp t e s :
  execute_code_in_sandbox H job_id fp cp rp t (LaunchFails e) s
  = (Ok tt,
     Sandbox
       (update_job_status job_id "failed"
          [("error", "Exception: " +:+ exc_str H e +:+ Str.nl +:+ format_exc H e)]
          (prepared H job_id fp cp rp t (registry_of s)))
       (process s) (calls s)).
Proof.
  unfold execute_code_in_sandbox, execute, try_except, bind, prepare, prepared.
  destruct (is_nt H); reflexivity.
Qed.

(** The executor when the process exits in time and both streams decode. *)
Lemma execute_returns_decoded job_id fp cp rp t c out err so se s :
  decode_utf8 out = Ok so -> decode_utf8 err = Ok se ->
  execute_code_in_sandbox H job_id fp cp rp t (Launches (Returns c out err)) s
  = (Ok tt,
     Sandbox
       ((if negb (c =? 0)
         then update_job_status job_id "failed" [("error", exit_error c se)]
         else update_job_status job_id "completed" [])
          (update_job_status job_id "running" [("stdout", so); ("stderr", se)]
             (prepared H job_id fp cp rp t (registry_of s))))
       (Some (Exited c))
       (calls s ++ [Spawn (docker_cmd_of H fp cp rp t); Communicate])).
Proof.
  intros Ho He.
  assert (Ho' : match out with [] => ret "" | _ => lift_result (decode_utf8 out) end
                = (lift_result (decode_utf8 out) : M sandbox string))
    by (destruct out; reflexivity).
  assert (He' : match err with [] => ret "" | _ => lift_result (decode_utf8 err) end
                = (lift_result (decode_utf8 err) : M sandbox string))
    by (destruct err; reflexivity).
  unfold execute_code_in_sandbox, execute, _execute_windows, _execute_unix.
  rewrite Ho', He', Ho, He.
  unfold try_except, bind, prepare, prepared, report_exit, lift_result.
  destruct (is_nt H); destruct (negb (c =? 0));
    cbn -[update_job_status docker_cmd_of exit_error];
    repeat rewrite <- app_assoc; reflexivity.
Qed.

(** The executor when the process exits in time and a stream does not
    decode: [e] is the error of the first one that does not. *)
Lemma execute_returns_undecodable job_id fp cp rp t c out err e s :
  decode_utf8 out = Raise e
  \/ (exists so, decode_utf8 out = Ok so) /\ decode_utf8 err = Raise e ->
  execute_code_in_sandbox H job_id fp cp rp t (Launches (Returns c out err)) s
  = (Ok tt,
     Sandbox
       (update_job_status job_id "failed"
          [("error", "Exception: " +:+ exc_str H e +:+ Str.nl +:+ format_exc H e)]
          (prepared H job_id fp cp rp t (registry_of s)))
       (Some (Exited c))
       (calls s ++ [Spawn (docker_cmd_of H fp cp rp t); Communicate])).
Proof.
  intros Hd.
  assert (Ho' : match out with [] => ret "" | _ => lift_result (decode_utf8 out) end
                = (lift_result (decode_utf8 out) : M sandbox string))
    by (destruct out; reflexivity).
  assert (He' : match err with [] => ret "" | _ => lift_result (decode_utf8 err) end
                = (lift_result (decode_utf8 err) : M sandbox string))
    by (destruct err; reflexivity).
  unfold execute_code_in_sandbox, execute, _execute_windows, _execute_unix.
  rewrite Ho', He'.
  destruct Hd as [Ho | [[so Ho] He]]; rewrite Ho; try rewrite He;
    unfold try_except, bind, prepare, prepared, report_exit, lift_result, on_exception;
    destruct (is_nt H);
    cbn -[update_job_status docker_cmd_of String.append];
    repeat rewrite <- app_assoc; reflexivity.
Qed.

End ExecutorFacts.




(** C5 as stated fails: a process that exits with code 0 within the
    deadline but whose output is not UTF-8 leaves the job [failed], with
    no [stdout] stored. *)
Lemma exit_zero_undecodable_is_failed :
  let s' := snd (execute_code_in_sandbox Posix.host "j1" Example.file_path
                   Example.code_path Example.result_path 120
                   (Launches (Returns 0 [xff] [])) Example.fresh_sandbox) in
  status_of "j1" (registry_of s') = Some "failed"
  /\ status_of "j1" (registry_of s') <> Some "completed"
  /\ get "stdout" (get_job_status "j1" (registry_of s')) = None.
Proof. vm_compute. repeat split; discriminate. Qed.

(** C5, amended. When the process exits within the deadline and both
    captured streams are valid UTF-8, the decoded streams are stored as
    [stdout] and [stderr], the status is [completed] when the exit code is
    zero and [failed] otherwise, and in the latter case the error detail is
    ["Exit code: N\nStderr: "] followed by the decoded error stream. When a
    stream is not valid UTF-8 the decoding raises, nothing is stored as
    [stdout] or [stderr] (the two fields read as before the execution), and
    the job is [failed] with the detail of that exception, whatever the exit
    code. *)
Theorem exit_within_deadline (H : Host) (job_id fp cp rp : string) (t c : Z)
    (out err : bytes) (s : sandbox) (j : job) :
  get job_id (registry_of s) = Some j ->
  exists j',
    get job_id (registry_of (snd (execute_code_in_sandbox H job_id fp cp rp t
                                    (Launches (Returns c out err)) s))) = Some j'
    /\ (forall so se, decode_utf8 out = Ok so -> decode_utf8 err = Ok se ->
          get "stdout" j' = Some so /\ get "stderr" j' = Some se
          /\ get "status" j' = Some (if c =? 0 then "completed" else "failed")
          /\ (c <> 0 ->
              get "error" j'
              = Some ("Exit code: " +:+ pretty c +:+ Str.nl +:+ "Stderr: " +:+ se)))
    /\ (forall e, decode_utf8 out = Raise e
                  \/ (exists so, decode_utf8 out = Ok so) /\ decode_utf8 err = Raise e ->
          get "stdout" j' = get "stdout" j /\ get "stderr" j' = get "stderr" j
          /\ get "status" j' = Some "failed"
          /\ get "error" j'
             = Some ("Exception: " +:+ exc_str H e +:+ Str.nl +:+ format_exc H e)).
Proof.
  intros Hj.
  pose proof (prepared_get H job_id fp cp rp t _ _ Hj) as Hp.
  destruct (decode_utf8 out) as [so|e1] eqn:Ho.
  - destruct (decode_utf8 err) as [se|e2] eqn:He.
    + rewrite (execute_returns_decoded H _ _ _ _ _ _ _ _ so se s Ho He).
      cbn [snd registry_of].
      pose proof (update_get_same job_id "running" [("stdout", so); ("stderr", se)]
                    _ _ Hp) as Hr.
      destruct (Z.eqb_spec c 0) as [->|Hc]; cbn [negb];
        rewrite (update_get_same _ _ _ _ _ Hr); eexists; (split; [reflexivity |]);
        cbn [assign fold_left fst snd]; split.
      * intros so' se' [= <-] [= <-]. dict_simpl. repeat split. congruence.
      * intros e [He' | [_ He']]; discriminate.
      * intros so' se' [= <-] [= <-]. dict_simpl. repeat split.
      * intros e [He' | [_ He']]; discriminate.
    + rewrite (execute_returns_undecodable H _ _ _ _ _ c out err e2 s)
        by (right; split; [now exists so | exact He]).
      cbn [snd registry_of]. rewrite (update_get_same _ _ _ _ _ Hp).
      eexists; split; [reflexivity |]. cbn [assign fold_left fst snd]. split.
      * intros so' se' _ Hse. discriminate.
      * intros e [He' | [_ He']]; [discriminate |]. injection He' as <-.
        dict_simpl. repeat split.
  - rewrite (execute_returns_undecodable H _ _ _ _ _ c out err e1 s) by now left.
    cbn [snd registry_of]. rewrite (update_get_same _ _ _ _ _ Hp).
    eexists; split; [reflexivity |]. cbn [assign fold_left fst snd]. split.
    + intros so' se' Hso. discriminate.
    + intros e [He' | [[so Hso] _]]; [| discriminate]. injection He' as <-.
      dict_simpl. repeat split.
Qed.

(** C5, at an execution that exits with code 1 and writes text to both
    streams, and at one that exits with code 0 and writes a byte that is
    not UTF-8. *)
Lemma exit_within_deadline_witness :
  (exists j',
     get "j1" (registry_of (snd (execute_code_in_sandbox Posix.host "j1"
                                   Example.file_path Example.code_path
                                   Example.result_path 120
                                   (Launches (Returns 1 Example.partial_output Example.boom))
                                   Example.fresh_sandbox))) = Some j'
     /\ (forall so se, decode_utf8 Example.partial_output = Ok so ->
                       decode_utf8 Example.boom = Ok se ->
           get "stdout" j' = Some so /\ get "stderr" j' = Some se
           /\ get "status" j' = Some (if 1 =? 0 then "completed" else "failed")
           /\ (1 <> 0 ->
               get "error" j'
               = Some ("Exit code: " +:+ pretty 1 +:+ Str.nl +:+ "Stderr: " +:+ se)))
     /\ (forall e, decode_utf8 Example.partial_output = Raise e
                   \/ (exists so, decode_utf8 Example.partial_output = Ok so)
                      /\ decode_utf8 Example.boom = Raise e ->
           get "stdout" j' = get "stdout" (get_job_status "j1" Example.uploaded)
           /\ get "stderr" j' = get "stderr" (get_job_status "j1" Example.uploaded)
           /\ get "status" j' = Some "failed"
           /\ get "error" j'
              = Some ("Exception: " +:+ exc_str Posix.host e +:+ Str.nl
                      +:+ format_exc Posix.host e)))
  /\ (exists j',
        get "j1" (registry_of (snd (execute_code_in_sandbox Posix.host "j1"
                                      Example.file_path Example.code_path
                                      Example.result_path 120
                                      (Launches (Returns 0 [xff] []))
                                      Example.fresh_sandbox))) = Some j'
        /\ get "stdout" j' = None /\ get "stderr" j' = None
        /\ get "status" j' = Some "failed"
        /\ get "error" j'
           = Some ("Exception: " +:+ exc_str Posix.host (UnicodeDecodeError [xff])
                   +:+ Str.nl +:+ format_exc Posix.host (UnicodeDecodeError [xff]))).
Proof.
  split.
  - eapply (exit_within_deadline Posix.host "j1" Example.file_path Example.code_path
              Example.result_path 120 1 Example.partial_output Example.boom
              Example.fresh_sandbox).
    reflexivity.
  - destruct (exit_within_deadline Posix.host "j1" Example.file_path Example.code_path
                Example.result_path 120 0 [xff] [] Example.fresh_sandbox
                (get_job_status "j1" Example.uploaded) eq_refl)
      as (j' & Hj' & _ & Hbad).
    exists j'. split; [exact Hj' |].
    apply (Hbad (UnicodeDecodeError [xff])). left. reflexivity.
Defined.

(** C6 as stated fails: on a timed-out execution that had written output,
    the two branches leave the same registry, and neither stores the
    output. *)
Lemma timeout_branches_agree_on_example :
  let cmd := docker_cmd_of Posix.host Example.file_path Example.code_path
               Example.result_path 120 in
  let o := Launches (TimesOut None Example.partial_output Example.boom) in
  registry_of (snd (_execute_windows "j1" cmd 120 o Example.fresh_sandbox))
  = registry_of (snd (_execute_unix "j1" cmd 120 o Example.fresh_sandbox))
  /\ get "stdout" (get_job_status "j1"
                     (registry_of (snd (_execute_windows "j1" cmd 120 o
                                          Example.fresh_sandbox)))) = None
  /\ get "stdout" (get_job_status "j1"
                     (registry_of (snd (_execute_unix "j1" cmd 120 o
                                          Example.fresh_sandbox)))) = None.
Proof. vm_compute. repeat split. Qed.

(** C6, amended. On a timed-out execution the Windows branch and the Unix
    branch write the same registry record: status [timeout] and the same
    error detail, with [stdout] and [stderr] as they were. They differ in
    what they do to the process: the Windows branch kills it and then reads
    its streams, dropping what it reads; the Unix branch kills it only if
    its handle shows it alive and reads nothing more. *)
Theorem timeout_branches_write_same_record (job_id : string) (cmd : list string)
    (t : Z) (rc : option Z) (out err : bytes) (s : sandbox) :
  let w := snd (_execute_windows job_id cmd t (Launches (TimesOut rc out err)) s) in
  let u := snd (_execute_unix job_id cmd t (Launches (TimesOut rc out err)) s) in
  registry_of w = registry_of u
  /\ registry_of u
     = update_job_status job_id "timeout" [("error", timeout_error t)] (registry_of s)
  /\ get "stdout" (get_job_status job_id (registry_of u))
     = get "stdout" (get_job_status job_id (registry_of s))
  /\ get "stderr" (get_job_status job_id (registry_of u))
     = get "stderr" (get_job_status job_id (registry_of s))
  /\ calls w = calls s ++ [Spawn cmd; Communicate; Kill; Communicate]
  /\ calls u = calls s ++ [Spawn cmd; Communicate]
                ++ match rc with None => [Kill] | Some _ => [] end.
Proof.
  cbv zeta.
  assert (Hu : registry_of (snd (_execute_unix job_id cmd t
                                   (Launches (TimesOut rc out err)) s))
               = update_job_status job_id "timeout" [("error", timeout_error t)]
                   (registry_of s))
    by (destruct rc; reflexivity).
  rewrite Hu. repeat split.
  - unfold get_job_status.
    destruct (get job_id (registry_of s)) as [j|] eqn:Hj.
    + rewrite (update_get_same _ _ _ _ _ Hj). cbn [assign fold_left fst snd].
      now dict_simpl.
    + rewrite update_absent by assumption. now rewrite Hj.
  - unfold get_job_status.
    destruct (get job_id (registry_of s)) as [j|] eqn:Hj.
    + rewrite (update_get_same _ _ _ _ _ Hj). cbn [assign fold_left fst snd].
      now dict_simpl.
    + rewrite update_absent by assumption. now rewrite Hj.
  - cbn. now repeat rewrite <- app_assoc.
  - destruct rc; cbn; now repeat rewrite <- app_assoc.
Qed.

(** ** Code submission *)

Lemma first_forbidden_some (modules : list string) (v m : string) :
  first_forbidden modules v = Some m -> In m modules /\ Str.contains m v = true.
Proof.
  induction modules as [|m0 modules IH]; simpl; [discriminate |].
  destruct (Str.contains m0 v) eqn:E.
  - intros [= <-]. auto.
  - intros Hm. destruct (IH Hm). auto.
Qed.

Lemma first_forbidden_none (modules : list string) (v : string) :
  first_forbidden modules v = None <-> forall m, In m modules -> Str.contains m v = false.
Proof.
  induction modules as [|m0 modules IH]; simpl.
  - split; [intros _ m [] | reflexivity].
  - destruct (Str.contains m0 v) eqn:E.
    + split; [discriminate |]. intros Hall. rewrite (Hall m0) in E by auto. discriminate.
    + rewrite IH. split.
      * intros Hall m [<- | Hin]; auto.
      * intros Hall m Hin. apply Hall. auto.
Qed.

Section SubmitFacts.

Variable H : Host.

Lemma submitted_get job_id reg j :
  get job_id reg = Some j ->
  get job_id (submitted H job_id reg)
  = Some (set "result_path" (result_path_of H job_id)
            (set "code_path" (code_path_of H job_id) (set "status" "processing" j))).
Proof.
  intros Hj. unfold submitted.
  erewrite store_get_same; [reflexivity |].
  erewrite store_get_same; [reflexivity |].
  now apply store_get_same.
Qed.

Lemma submitted_get_other job_id other reg :
  other <> job_id -> get other (submitted H job_id reg) = get other reg.
Proof. intros Hne. unfold submitted. now rewrite !store_get_other. Qed.

Lemma submitted_keys job_id reg : keys (submitted H job_id reg) = keys reg.
Proof. unfold submitted. now rewrite !store_keys. Qed.

(** Every way [submit_code] can end. *)
Lemma submit_code_cases job_id cs st r st' :
  submit_code H job_id cs st = (r, st') ->
  (get job_id (job_status st) = None
   /\ r = Raise (HTTPException 404 "Job not found") /\ st' = st)
  \/ (exists j, get job_id (job_status st) = Some j /\
      ((exists d, r = Raise (HTTPException 500 d))
         /\ job_status st' = job_status st
         /\ background_tasks st' = background_tasks st
       \/ (exists d, r = Raise (HTTPException 500 d)) /\ get "file_path" j = None
         /\ job_status st' = submitted H job_id (job_status st)
         /\ background_tasks st' = background_tasks st
       \/ exists fp, get "file_path" j = Some fp /\ r = Ok (processing_response job_id)
         /\ job_status st' = submitted H job_id (job_status st)
         /\ background_tasks st'
            = background_tasks st
              ++ [Task job_id fp (code_path_of H job_id) (result_path_of H job_id)
                    MAX_EXECUTION_TIME])).
Proof.
  unfold submit_code, job_of, field, from_option, bind, gets, try_except, on_files,
    on_registry, modify, add_task, raise, ret.
  destruct (get job_id (job_status st)) as [j|] eqn:Hj.
  2:{ unfold mem. rewrite Hj. cbn. intros [= <- <-]. left. auto. }
  unfold mem. rewrite Hj. cbn [negb].
  intros Heq. right. exists j. split; [reflexivity |].
  destruct (write_file (code_path_of H job_id) (code cs) (files st))
    as [[[]|e] d0] eqn:Hw; cbn [files job_status background_tasks] in Heq.
  2:{ injection Heq as <- <-. left. eauto. }
  destruct (os_makedirs (result_path_of H job_id) d0) as [[[]|e] d1] eqn:Hm;
    cbn [files job_status background_tasks] in Heq.
  2:{ injection Heq as <- <-. left. eauto. }
  fold (submitted H job_id (job_status st)) in Heq.
  rewrite (submitted_get _ _ _ Hj) in Heq.
  rewrite !get_set_ne in Heq by discriminate.
  right.
  destruct (get "file_path" j) as [fp|] eqn:Hf;
    cbn [files job_status background_tasks] in Heq; injection Heq as <- <-.
  - right. exists fp. auto.
  - left. eauto.
Qed.

(** [submit_code] has no conflict answer. *)
Lemma submit_code_never_conflicts job_id cs st detail :
  fst (submit_code H job_id cs st) <> Raise (HTTPException 409 detail).
Proof.
  destruct (submit_code H job_id cs st) as [r st'] eqn:E.
  apply submit_code_cases in E. cbn [fst].
  destruct E as [(_ & -> & _) | (j & _ & [([d ->] & _) | [([d ->] & _) | (fp & _ & -> & _)]])];
    discriminate.
Qed.

(** [submit_code] on a registered job, when the two writes go through. *)
Lemma submit_code_accepts job_id cs st j fp :
  get job_id (job_status st) = Some j ->
  get "file_path" j = Some fp ->
  (forall es, files st !! code_path_of H job_id <> Some (Dir es)) ->
  code_path_of H job_id <> result_path_of H job_id ->
  (forall text, files st !! result_path_of H job_id <> Some (File text)) ->
  submit_code H job_id cs st
  = (Ok (processing_response job_id),
     State (submitted H job_id (job_status st))
       (let d := <[code_path_of H job_id := File (code cs)]> (files st) in
        match d !! result_path_of H job_id with
        | Some _ => d
        | None => <[result_path_of H job_id := Dir []]> d
        end)
       (background_tasks st
        ++ [Task job_id fp (code_path_of H job_id) (result_path_of H job_id)
              MAX_EXECUTION_TIME])).
Proof.
  intros Hj Hf Hc Hne Hr.
  unfold submit_code, job_of, field, from_option, bind, gets, try_except, on_files,
    on_registry, modify, add_task, raise, ret.
  unfold mem. rewrite Hj. cbn [negb].
  assert (Hw : write_file (code_path_of H job_id) (code cs) (files st)
               = (Ok tt, <[code_path_of H job_id := File (code cs)]> (files st))).
  { unfold write_file.
    destruct (files st !! code_path_of H job_id) as [[c|es]|] eqn:E;
      try reflexivity. now destruct (Hc es). }
  rewrite Hw. cbn [files job_status background_tasks].
  unfold os_makedirs. rewrite lookup_insert_ne by assumption.
  destruct (files st !! result_path_of H job_id) as [[c|es]|] eqn:E.
  - now destruct (Hr c).
  - cbn [files job_status background_tasks].
    fold (submitted H job_id (job_status st)). rewrite (submitted_get _ _ _ Hj).
    rewrite !get_set_ne by discriminate. rewrite Hf. reflexivity.
  - cbn [files job_status background_tasks].
    fold (submitted H job_id (job_status st)). rewrite (submitted_get _ _ _ Hj).
    rewrite !get_set_ne by discriminate. rewrite Hf. reflexivity.
Qed.

Lemma post_submit_code_valid job_id body st :
  validate_code body = Ok body ->
  post_submit_code H job_id body st = submit_code H job_id {| code := body |} st.
Proof.
  intros Hv. unfold post_submit_code, CodeSubmission_parse, bind, lift_result.
  now rewrite Hv.
Qed.

Lemma post_submit_code_rejected job_id body st e :
  validate_code body = Raise e ->
  post_submit_code H job_id body st = (Raise (RequestValidationError e), st).
Proof.
  intros Hv. unfold post_submit_code, CodeSubmission_parse, bind, lift_result.
  now rewrite Hv.
Qed.

Lemma validate_code_ok_or_rejected body :
  validate_code body = Ok body \/ exists e, validate_code body = Raise e.
Proof. unfold validate_code. destruct (first_forbidden _ _); eauto. Qed.

End SubmitFacts.

(** C1 as stated fails: code submitted to a job that is already [completed]
    is accepted like a first submission. The answer is [processing], the
    status goes back to [processing], the stored code is replaced and one
    more execution is queued. *)
Lemma resubmission_is_accepted :
  let st := server Example.completed_system in
  let second := submit_code Posix.host "j1" {| code := "print(2)" |} st in
  status_of "j1" (job_status st) = Some "completed"
  /\ files st !! "/tmp/file_processor/code/j1_process.py" = Some (File "print(1)")
  /\ background_tasks st = []
  /\ fst second = Ok (processing_response "j1")
  /\ status_of "j1" (job_status (snd second)) = Some "processing"
  /\ files (snd second) !! "/tmp/file_processor/code/j1_process.py"
     = Some (File "print(2)")
  /\ background_tasks (snd second)
     = [Task "j1" "/tmp/file_processor/uploads/j1_data.csv"
          "/tmp/file_processor/code/j1_process.py"
          "/tmp/file_processor/results/j1" 120].
Proof. vm_compute. repeat split. Qed.

(** C1, amended. [submit_code] does not look at the status and has no
    conflict answer. For every job of the registry, whatever its status,
    when its record has a [file_path] and the code file and the result
    directory can be written, the call stores the submitted code in the code
    file of the job, makes sure the result directory exists, sets the status
    to [processing] and the two paths (the same on every submission), queues
    one more execution and answers [processing]. So a second submission
    replaces the stored code and resets the status. *)
Theorem submit_code_ignores_status (H : Host) (job_id : string) (cs : CodeSubmission)
    (st : state) (j : job) (fp : string) :
  get job_id (job_status st) = Some j ->
  get "file_path" j = Some fp ->
  (forall es, files st !! code_path_of H job_id <> Some (Dir es)) ->
  code_path_of H job_id <> result_path_of H job_id ->
  (forall text, files st !! result_path_of H job_id <> Some (File text)) ->
  exists st' j',
    submit_code H job_id cs st = (Ok (processing_response job_id), st')
    /\ get job_id (job_status st') = Some j'
    /\ get "status" j' = Some "processing"
    /\ get "code_path" j' = Some (code_path_of H job_id)
    /\ get "result_path" j' = Some (result_path_of H job_id)
    /\ files st' !! code_path_of H job_id = Some (File (code cs))
    /\ (exists es, files st' !! result_path_of H job_id = Some (Dir es))
    /\ background_tasks st'
       = background_tasks st
         ++ [Task job_id fp (code_path_of H job_id) (result_path_of H job_id)
               MAX_EXECUTION_TIME]
    /\ forall detail,
         fst (submit_code H job_id cs st) <> Raise (HTTPException 409 detail).
Proof.
  intros Hj Hf Hc Hne Hr.
  rewrite (submit_code_accepts H job_id cs st j fp Hj Hf Hc Hne Hr).
  eexists _, _. split; [reflexivity |]. cbn [job_status files background_tasks fst].
  split; [exact (submitted_get H _ _ _ Hj) |].
  dict_simpl. repeat split; try discriminate.
  - rewrite lookup_insert_ne by assumption.
    destruct (files st !! result_path_of H job_id) eqn:E.
    + apply lookup_insert_eq.
    + rewrite lookup_insert_ne by congruence. apply lookup_insert_eq.
  - rewrite lookup_insert_ne by assumption.
    destruct (files st !! result_path_of H job_id) as [[c|es]|] eqn:E.
    + now destruct (Hr c).
    + exists es. rewrite lookup_insert_ne by assumption. exact E.
    + exists []. apply lookup_insert_eq.
Qed.

(** C1, amended, at the completed job of the example. *)
Lemma submit_code_ignores_status_witness :
  exists st' j',
    submit_code Posix.host "j1" {| code := "print(2)" |}
      (server Example.completed_system)
    = (Ok (processing_response "j1"), st')
    /\ get "j1" (job_status st') = Some j'
    /\ get "status" j' = Some "processing"
    /\ get "code_path" j' = Some (code_path_of Posix.host "j1")
    /\ get "result_path" j' = Some (result_path_of Posix.host "j1")
    /\ files st' !! code_path_of Posix.host "j1" = Some (File "print(2)")
    /\ (exists es, files st' !! result_path_of Posix.host "j1" = Some (Dir es))
    /\ background_tasks st'
       = background_tasks (server Example.completed_system)
         ++ [Task "j1" Example.file_path (code_path_of Posix.host "j1")
               (result_path_of Posix.host "j1") MAX_EXECUTION_TIME]
    /\ forall detail,
         fst (submit_code Posix.host "j1" {| code := "print(2)" |}
                (server Example.completed_system))
         <> Raise (HTTPException 409 detail).
Proof.
  eapply (submit_code_ignores_status Posix.host "j1" {| code := "print(2)" |}
            (server Example.completed_system)).
  - vm_compute. reflexivity.
  - vm_compute. reflexivity.
  - intros es. vm_compute. discriminate.
  - vm_compute. discriminate.
  - intros text. vm_compute. discriminate.
Defined.

(** C4. A source text in which a token of the denylist occurs is rejected by
    the validator, naming a token of the list that occurs in it, and the
    route then raises before the handler runs: the state is as it was, so
    nothing is written and no execution is queued. A source text in which
    no token of the list occurs is returned as it is. *)
Theorem denylist_rejects_before_launch (H : Host) (v : string) :
  (forall tok, In tok forbidden_modules -> Str.occurs_in tok v ->
     (exists found,
        In found forbidden_modules /\ Str.occurs_in found v
        /\ validate_code v
           = Raise (ValueError ("Forbidden module or function detected: " +:+ found)))
     /\ forall job_id st,
          exists e, post_submit_code H job_id v st = (Raise e, st))
  /\ ((forall tok, In tok forbidden_modules -> ~ Str.occurs_in tok v) ->
      validate_code v = Ok v).
Proof.
  split.
  - intros tok Hin Hocc. apply contains_spec in Hocc.
    unfold validate_code.
    destruct (first_forbidden forbidden_modules v) as [m|] eqn:E.
    + destruct (first_forbidden_some _ _ _ E) as [Hm Hc]. split.
      * exists m. repeat split; [assumption | now apply contains_spec].
      * intros job_id st. eexists. apply post_submit_code_rejected.
        unfold validate_code. rewrite E. reflexivity.
    + rewrite first_forbidden_none in E. rewrite (E tok Hin) in Hocc. discriminate.
  - intros Hnone. unfold validate_code.
    destruct (first_forbidden forbidden_modules v) as [m|] eqn:E; [| reflexivity].
    apply first_forbidden_some in E as [Hm Hc].
    apply contains_spec in Hc. now destruct (Hnone m Hm).
Qed.

(** C4, at a text that calls [os.system] and at a text with no token of
    the list. *)
Lemma denylist_rejects_before_launch_witness :
  ((exists found,
      In found forbidden_modules /\ Str.occurs_in found "import os; os.system('ls')"
      /\ validate_code "import os; os.system('ls')"
         = Raise (ValueError ("Forbidden module or function detected: " +:+ found)))
   /\ forall job_id st,
        exists e,
          post_submit_code Posix.host job_id "import os; os.system('ls')" st
          = (Raise e, st))
  /\ validate_code "print(1)" = Ok "print(1)".
Proof.
  split.
  - apply (proj1 (denylist_rejects_before_launch Posix.host "import os; os.system('ls')")
             "system").
    + simpl. tauto.
    + exists "import os; os.", "('ls')". reflexivity.
  - apply (proj2 (denylist_rejects_before_launch Posix.host "print(1)")).
    intros tok Hin Hocc. apply contains_spec in Hocc. cbn in Hin.
    repeat (destruct Hin as [<- | Hin]; [vm_compute in Hocc; discriminate |]).
    destruct Hin.
Defined.

(** C9. When the launch raises, before any process exists, the submission
    has already been answered with [processing]; the execution queued by it
    then ends without raising, the job has status [failed] and an error
    detail that holds the description of the exception, and no process was
    started. *)
Theorem launch_failure_is_recorded (H : Host) (job_id body : string) (st : state)
    (j : job) (fp : string) (e : exn) :
  validate_code body = Ok body ->
  get job_id (job_status st) = Some j ->
  get "file_path" j = Some fp ->
  (forall es, files st !! code_path_of H job_id <> Some (Dir es)) ->
  code_path_of H job_id <> result_path_of H job_id ->
  (forall text, files st !! result_path_of H job_id <> Some (File text)) ->
  exists st' t sb' j',
    post_submit_code H job_id body st = (Ok (processing_response job_id), st')
    /\ background_tasks st' = background_tasks st ++ [t]
    /\ task_job_id t = job_id
    /\ execute_code_in_sandbox H (task_job_id t) (task_file_path t) (task_code_path t)
         (task_result_path t) (task_max_execution_time t) (LaunchFails e)
         (Sandbox (job_status st') None [])
       = (Ok tt, sb')
    /\ get job_id (registry_of sb') = Some j'
    /\ get "status" j' = Some "failed"
    /\ get "error" j'
       = Some ("Exception: " +:+ exc_str H e +:+ Str.nl +:+ format_exc H e)
    /\ Str.occurs_in (exc_str H e)
         ("Exception: " +:+ exc_str H e +:+ Str.nl +:+ format_exc H e)
    /\ process sb' = None
    /\ calls sb' = [].
Proof.
  intros Hv Hj Hf Hc Hne Hr.
  rewrite (post_submit_code_valid H _ _ _ Hv).
  rewrite (submit_code_accepts H job_id _ st j fp Hj Hf Hc Hne Hr).
  eexists _, _, _, _. split; [reflexivity |].
  cbn [job_status files background_tasks task_job_id task_file_path task_code_path
       task_result_path task_max_execution_time].
  split; [reflexivity |]. split; [reflexivity |].
  rewrite execute_launch_fails. split; [reflexivity |].
  cbn [registry_of process calls].
  pose proof (submitted_get H _ _ _ Hj) as Hs.
  pose proof (prepared_get H job_id fp (code_path_of H job_id) (result_path_of H job_id)
                MAX_EXECUTION_TIME _ _ Hs) as Hp.
  rewrite (update_get_same _ _ _ _ _ Hp). split; [reflexivity |].
  cbn [assign fold_left fst snd]. dict_simpl.
  repeat split.
  exists "Exception: ", (Str.nl +:+ format_exc H e). reflexivity.
Qed.

(** C9, at a launch that fails because the runtime is not installed. *)
Lemma launch_failure_is_recorded_witness :
  exists st' t sb' j',
    post_submit_code Posix.host "j1" "print(1)" Example.uploaded_state
    = (Ok (processing_response "j1"), st')
    /\ background_tasks st' = background_tasks Example.uploaded_state ++ [t]
    /\ task_job_id t = "j1"
    /\ execute_code_in_sandbox Posix.host (task_job_id t) (task_file_path t)
         (task_code_path t) (task_result_path t) (task_max_execution_time t)
         (LaunchFails (OSError "FileNotFoundError" "docker"))
         (Sandbox (job_status st') None [])
       = (Ok tt, sb')
    /\ get "j1" (registry_of sb') = Some j'
    /\ get "status" j' = Some "failed"
    /\ get "error" j'
       = Some ("Exception: "
               +:+ exc_str Posix.host (OSError "FileNotFoundError" "docker")
               +:+ Str.nl
               +:+ format_exc Posix.host (OSError "FileNotFoundError" "docker"))
    /\ Str.occurs_in (exc_str Posix.host (OSError "FileNotFoundError" "docker"))
         ("Exception: "
          +:+ exc_str Posix.host (OSError "FileNotFoundError" "docker")
          +:+ Str.nl
          +:+ format_exc Posix.host (OSError "FileNotFoundError" "docker"))
    /\ process sb' = None
    /\ calls sb' = [].
Proof.
  eapply (launch_failure_is_recorded Posix.host "j1" "print(1)" Example.uploaded_state).
  - vm_compute. reflexivity.
  - vm_compute. reflexivity.
  - vm_compute. reflexivity.
  - intros es. vm_compute. discriminate.
  - vm_compute. discriminate.
  - intros text. vm_compute. discriminate.
Defined.

(** ** The result endpoint *)



Section ResultFacts.

Variable H : Host.




Lemma get_results_empty job_id fmt st j rp entries :
  get job_id (job_status st) = Some j -> get "status" j = Some "completed" ->
  get "result_path" j = Some rp -> files st !! rp = Some (Dir entries) ->
  map fst (List.filter is_regular entries) = [] ->
  get_results H job_id fmt st = (Raise (HTTPException 404 "No results found"), st).
Proof.
  intros Hj Hs Hrp Hd Hfiles.
  unfold get_results, bind, gets, field, from_option, lift_result, os_listdir.
  rewrite Hj, Hs. cbn [ret negb]. rewrite String.eqb_refl. cbn [negb].
  rewrite Hrp. cbn [ret]. now rewrite Hd, Hfiles.
Qed.




End ResultFacts.



(** ** The sweeper *)

Section SweepFacts.

Variable H : Host.

Lemma shrinks_at_refl P s : shrinks_at P s s.
Proof. repeat split. intros p. now left. Qed.

Lemma shrinks_at_trans (P Q R : string -> Prop) s1 s2 s3 :
  (forall p, P p -> R p) -> (forall p, Q p -> R p) ->
  shrinks_at P s1 s2 -> shrinks_at Q s2 s3 -> shrinks_at R s1 s3.
Proof.
  intros HP HQ (Hr1 & Ht1 & Hf1) (Hr2 & Ht2 & Hf2).
  repeat split; [congruence | congruence |].
  intros p. destruct (Hf2 p) as [E2 | [E2 Hq]].
  - rewrite E2. destruct (Hf1 p) as [E1 | [E1 Hp]]; [now left | right; auto].
  - right. auto.
Qed.

Lemma remove_artifact_run job_id key rm s j :
  get job_id (job_status s) = Some j ->
  remove_artifact job_id key rm s
  = match get key j with
    | Some p => if os_path_exists p (files s) then on_files (rm p) s else (Ok tt, s)
    | None => (Ok tt, s)
    end.
Proof.
  intros Hj. unfold remove_artifact, job_of, from_option, bind, gets.
  rewrite Hj. cbn [ret].
  destruct (get key j); [destruct (os_path_exists _ _) |]; reflexivity.
Qed.

Lemma remove_artifact_absent job_id key rm s :
  get job_id (job_status s) = None ->
  remove_artifact job_id key rm s = (Raise (KeyError job_id), s).
Proof.
  intros Hj. unfold remove_artifact, job_of, from_option, bind, gets.
  now rewrite Hj.
Qed.

Lemma remove_artifact_effect job_id key rm s j r s' :
  rm = os_remove \/ rm = shutil_rmtree ->
  get job_id (job_status s) = Some j ->
  remove_artifact job_id key rm s = (r, s') ->
  shrinks_at (fun p => get key j = Some p) s s'
  /\ (r = Ok tt -> forall p, get key j = Some p -> files s' !! p = None).
Proof.
  intros Hrm Hj. rewrite (remove_artifact_run _ _ _ _ _ Hj).
  destruct (get key j) as [p|] eqn:Hk.
  2:{ intros [= <- <-]. split; [apply shrinks_at_refl | discriminate]. }
  unfold os_path_exists, on_files.
  destruct (files s !! p) as [n|] eqn:Hp.
  2:{ intros [= <- <-]. split; [apply shrinks_at_refl |]. now intros _ q [= <-]. }
  destruct Hrm as [-> | ->]; [unfold os_remove | unfold shutil_rmtree];
    rewrite Hp; destruct n; intros [= <- <-]; cbn [files job_status background_tasks];
    (split;
     [ split; [reflexivity | split; [reflexivity |]]; cbn [files]; intros q;
       first
         [ now left
         | destruct (decide (p = q)) as [<- | Hne];
           [ right; split; [apply lookup_delete_eq | first [assumption | reflexivity]]
           | left; now apply lookup_delete_ne ] ]
     | intros Hr; try discriminate Hr; intros q Hq;
       assert (q = p) as -> by congruence; apply lookup_delete_eq ]).
Qed.

Lemma os_remove_succeeds job_id key s j :
  get job_id (job_status s) = Some j ->
  (forall p es, get key j = Some p -> files s !! p <> Some (Dir es)) ->
  fst (remove_artifact job_id key os_remove s) = Ok tt.
Proof.
  intros Hj Hk. rewrite (remove_artifact_run _ _ _ _ _ Hj).
  destruct (get key j) as [p|] eqn:E; [| reflexivity].
  unfold os_path_exists, on_files, os_remove.
  destruct (files s !! p) as [[c|es]|] eqn:Hp; try reflexivity.
  now destruct (Hk p es).
Qed.

Lemma shutil_rmtree_succeeds job_id key s j :
  get job_id (job_status s) = Some j ->
  (forall p text, get key j = Some p -> files s !! p <> Some (File text)) ->
  fst (remove_artifact job_id key shutil_rmtree s) = Ok tt.
Proof.
  intros Hj Hk. rewrite (remove_artifact_run _ _ _ _ _ Hj).
  destruct (get key j) as [p|] eqn:E; [| reflexivity].
  unfold os_path_exists, on_files, shutil_rmtree.
  destruct (files s !! p) as [[c|es]|] eqn:Hp; try reflexivity.
  now destruct (Hk p c).
Qed.

Lemma shrinks_at_keeps_absent P s s' p :
  shrinks_at P s s' -> files s !! p = None -> files s' !! p = None.
Proof. intros (_ & _ & Hf) Hp. destruct (Hf p) as [E | [E _]]; congruence. Qed.

Lemma shrinks_at_not P s s' p n :
  shrinks_at P s s' -> files s !! p <> Some n -> files s' !! p <> Some n.
Proof. intros (_ & _ & Hf) Hp. destruct (Hf p) as [E | [E _]]; congruence. Qed.

Lemma in_path_at key j p : In p (path_at key j) <-> get key j = Some p.
Proof.
  unfold path_at. destruct (get key j); simpl; split; try tauto; try discriminate.
  - intros [-> | []]. reflexivity.
  - intros [= ->]. now left.
Qed.

Lemma in_artifact_paths j p :
  In p (artifact_paths j)
  <-> get "file_path" j = Some p \/ get "code_path" j = Some p
      \/ get "result_path" j = Some p.
Proof. unfold artifact_paths. rewrite !in_app_iff, !in_path_at. tauto. Qed.

Lemma remove_artifacts_effect job_id s j r s' :
  get job_id (job_status s) = Some j ->
  remove_artifacts job_id s = (r, s') ->
  shrinks_at (fun p => In p (artifact_paths j)) s s'
  /\ (r = Ok tt -> forall p, In p (artifact_paths j) -> files s' !! p = None)
  /\ (removable (files s) j -> r = Ok tt).
Proof.
  intros Hj. unfold remove_artifacts, bind.
  destruct (remove_artifact job_id "file_path" os_remove s) as [r1 s1] eqn:E1.
  pose proof (os_remove_succeeds job_id "file_path" s j Hj) as Hok1. rewrite E1 in Hok1.
  apply (remove_artifact_effect _ _ _ _ j) in E1 as [Hs1 Hn1]; auto.
  assert (Hj1 : get job_id (job_status s1) = Some j)
    by (destruct Hs1 as (-> & _); exact Hj).
  assert (Hw1 : shrinks_at (fun p => In p (artifact_paths j)) s s1).
  { eapply (shrinks_at_trans _ _ _ s s s1); [| | apply shrinks_at_refl | exact Hs1];
      cbn beta; intros p Hp; [exact Hp | apply in_artifact_paths; auto]. }
  destruct r1 as [[]|e1].
  2:{ intros [= <- <-]. split; [exact Hw1 |]. split; [discriminate |].
      intros (Hr1 & _). now apply Hok1. }
  destruct (remove_artifact job_id "code_path" os_remove s1) as [r2 s2] eqn:E2.
  pose proof (os_remove_succeeds job_id "code_path" s1 j Hj1) as Hok2. rewrite E2 in Hok2.
  apply (remove_artifact_effect _ _ _ _ j) in E2 as [Hs2 Hn2]; auto.
  assert (Hj2 : get job_id (job_status s2) = Some j)
    by (destruct Hs2 as (-> & _); exact Hj1).
  assert (Hw2 : shrinks_at (fun p => In p (artifact_paths j)) s s2).
  { eapply (shrinks_at_trans _ _ _ s s1 s2); [| | exact Hw1 | exact Hs2];
      cbn beta; intros p Hp; [exact Hp | apply in_artifact_paths; auto]. }
  destruct r2 as [[]|e2].
  2:{ intros [= <- <-]. split; [exact Hw2 |]. split; [discriminate |].
      intros (_ & Hr2 & _). apply Hok2. intros p es Hp.
      eapply shrinks_at_not; [exact Hs1 | now apply Hr2]. }
  destruct (remove_artifact job_id "result_path" shutil_rmtree s2) as [r3 s3] eqn:E3.
  pose proof (shutil_rmtree_succeeds job_id "result_path" s2 j Hj2) as Hok3.
  rewrite E3 in Hok3.
  apply (remove_artifact_effect _ _ _ _ j) in E3 as [Hs3 Hn3]; auto.
  assert (Hw3 : shrinks_at (fun p => In p (artifact_paths j)) s s3).
  { eapply (shrinks_at_trans _ _ _ s s2 s3); [| | exact Hw2 | exact Hs3];
      cbn beta; intros p Hp; [exact Hp | apply in_artifact_paths; auto]. }
  intros [= <- <-]. split; [exact Hw3 |]. split.
  - intros -> p Hp. apply in_artifact_paths in Hp as [Hp | [Hp | Hp]].
    + eapply shrinks_at_keeps_absent; [exact Hs3 |].
      eapply shrinks_at_keeps_absent; [exact Hs2 |]. now apply Hn1.
    + eapply shrinks_at_keeps_absent; [exact Hs3 |]. now apply Hn2.
    + now apply Hn3.
  - intros (_ & _ & Hr3). apply Hok3. intros p text Hp.
    eapply shrinks_at_not; [exact Hs2 |].
    eapply shrinks_at_not; [exact Hs1 |]. now apply Hr3.
Qed.

Lemma purge_absent job_id s :
  get job_id (job_status s) = None -> purge job_id s = (Ok tt, s).
Proof.
  intros Hj. unfold purge, try_except, bind, remove_artifacts, bind.
  now rewrite (remove_artifact_absent _ _ _ _ Hj).
Qed.

Lemma purge_present job_id s j :
  get job_id (job_status s) = Some j ->
  exists s',
    purge job_id s = (Ok tt, s')
    /\ background_tasks s' = background_tasks s
    /\ (forall p, files s' !! p = files s !! p
                  \/ (files s' !! p = None /\ In p (artifact_paths j)))
    /\ (job_status s' = job_status s \/ job_status s' = del job_id (job_status s))
    /\ (removable (files s) j ->
        job_status s' = del job_id (job_status s)
        /\ forall p, In p (artifact_paths j) -> files s' !! p = None).
Proof.
  intros Hj. unfold purge, try_except, bind.
  destruct (remove_artifacts job_id s) as [r s1] eqn:E.
  apply (remove_artifacts_effect _ _ j) in E as ((Hr & Ht & Hf) & Hnone & Hok); auto.
  destruct r as [[]|e].
  - unfold on_registry, modify. eexists. split; [reflexivity |].
    cbn [job_status files background_tasks].
    assert (Hd : delete_job job_id (job_status s1) = del job_id (job_status s)).
    { unfold delete_job, mem. now rewrite Hr, Hj. }
    rewrite Hd. split; [exact Ht |]. split; [exact Hf |]. split; [now right |].
    intros _. split; [reflexivity |]. now apply Hnone.
  - eexists. split; [reflexivity |].
    split; [exact Ht |]. split; [exact Hf |]. split; [left; exact Hr |].
    intros Hrm. discriminate (Hok Hrm).
Qed.

Lemma purge_total job_id s : fst (purge job_id s) = Ok tt.
Proof.
  destruct (get job_id (job_status s)) as [j|] eqn:Hj.
  - destruct (purge_present _ _ _ Hj) as (s' & -> & _). reflexivity.
  - now rewrite purge_absent.
Qed.

Lemma for_each_purge ids : forall s, for_each ids purge s = (Ok tt, purge_all ids s).
Proof.
  induction ids as [|job_id ids IH]; intros s; [reflexivity |].
  cbn [for_each purge_all fold_left]. unfold bind.
  pose proof (purge_total job_id s) as Ht.
  destruct (purge job_id s) as [r s1]. cbn [fst] in Ht. subst r. apply IH.
Qed.

Lemma swept_start st : swept st [] st.
Proof. repeat split; intros; now left. Qed.

Lemma swept_weaken st D D' s :
  (forall x, In x D -> In x D') -> swept st D s -> swept st D' s.
Proof.
  intros Hsub (Ht & Hr & Hf). repeat split; [exact Ht | |].
  - intros job_id. destruct (Hr job_id) as [E | [E Hin]]; [now left | right; auto].
  - intros p. destruct (Hf p) as [E | (E & job_id & j & Hin & Hj & Hp)]; [now left |].
    right. split; [exact E |]. exists job_id, j. auto.
Qed.

Lemma swept_removable st D s j :
  swept st D s -> removable (files st) j -> removable (files s) j.
Proof.
  intros (_ & _ & Hf) (H1 & H2 & H3).
  repeat split; intros p x Hp; destruct (Hf p) as [E | [E _]]; rewrite E;
    first [discriminate | eauto].
Qed.

Lemma purge_swept st D s job_id :
  swept st D s -> swept st (job_id :: D) (snd (purge job_id s)).
Proof.
  intros Hs. destruct (get job_id (job_status s)) as [j|] eqn:Hj.
  2:{ rewrite purge_absent by assumption. cbn [snd].
      eapply swept_weaken; [| exact Hs]. intros x Hx. now right. }
  destruct (purge_present _ _ _ Hj) as (s' & -> & Ht & Hf & Hr & _). cbn [snd].
  destruct Hs as (Ht0 & Hr0 & Hf0).
  assert (Hj0 : get job_id (job_status st) = Some j).
  { destruct (Hr0 job_id) as [E | [E _]]; congruence. }
  repeat split; [congruence | |].
  - intros other. destruct (Hr0 other) as [E | [E Hin]].
    + destruct Hr as [-> | ->]; [now left |].
      destruct (decide (job_id = other)) as [<- | Hne].
      * right. split; [apply get_del_eq | now left].
      * left. now rewrite get_del_ne.
    + right. split; [| now right].
      destruct Hr as [-> | ->]; [exact E |].
      destruct (decide (job_id = other)) as [<- | Hne];
        [apply get_del_eq | now rewrite get_del_ne].
  - intros p. destruct (Hf p) as [E | [E Hin]].
    + rewrite E. destruct (Hf0 p) as [E0 | (E0 & id & j0 & Hin & Hj' & Hp)]; [now left |].
      right. split; [exact E0 |]. exists id, j0. repeat split; auto. now right.
    + right. split; [exact E |]. exists job_id, j. repeat split; auto. now left.
Qed.

Lemma purge_removes st D s job_id j :
  swept st D s -> get job_id (job_status st) = Some j -> ~ In job_id D ->
  removable (files st) j ->
  get job_id (job_status (snd (purge job_id s))) = None
  /\ forall p, In p (artifact_paths j) -> files (snd (purge job_id s)) !! p = None.
Proof.
  intros Hs Hj Hnin Hrm.
  assert (Hjs : get job_id (job_status s) = Some j).
  { destruct Hs as (_ & Hr & _). destruct (Hr job_id) as [E | [_ Hin]];
      [congruence | contradiction]. }
  destruct (purge_present _ _ _ Hjs) as (s' & -> & _ & _ & _ & Hdel). cbn [snd].
  destruct (Hdel (swept_removable _ _ _ _ Hs Hrm)) as [-> Hp].
  split; [apply get_del_eq | exact Hp].
Qed.

(** What is gone stays gone through the rest of the loop. *)
Lemma purge_all_keeps_absent ids : forall s,
  (forall job_id, get job_id (job_status s) = None ->
                  get job_id (job_status (purge_all ids s)) = None)
  /\ (forall p, files s !! p = None -> files (purge_all ids s) !! p = None).
Proof.
  induction ids as [|id ids IH]; intros s; [split; auto |].
  cbn [purge_all fold_left]. fold (purge_all ids (snd (purge id s))).
  destruct (IH (snd (purge id s))) as [IHr IHf].
  pose proof (purge_swept s [] s id (swept_start s)) as (_ & Hr & Hf).
  split.
  - intros job_id Hn. apply IHr. destruct (Hr job_id) as [E | [E _]]; congruence.
  - intros p Hn. apply IHf. destruct (Hf p) as [E | [E _]]; congruence.
Qed.

Lemma purge_all_swept st ids : forall D s,
  swept st D s -> List.NoDup ids -> (forall x, In x ids -> ~ In x D) ->
  swept st (ids ++ D) (purge_all ids s)
  /\ forall job_id j,
       In job_id ids -> get job_id (job_status st) = Some j ->
       removable (files st) j ->
       get job_id (job_status (purge_all ids s)) = None
       /\ forall p, In p (artifact_paths j) -> files (purge_all ids s) !! p = None.
Proof.
  induction ids as [|id ids IH]; intros D s Hs Hnd Hdis.
  - split; [exact Hs | intros ? ? []].
  - cbn [purge_all fold_left]. fold (purge_all ids (snd (purge id s))).
    inversion Hnd as [|? ? Hnin Hnd']; subst.
    destruct (IH (id :: D) (snd (purge id s))) as [IHs IHr].
    + now apply purge_swept.
    + exact Hnd'.
    + intros x Hx [<- | Hin]; [contradiction | exact (Hdis x (or_intror Hx) Hin)].
    + split.
      * eapply swept_weaken; [| exact IHs]. intros x Hx.
        apply in_app_iff in Hx as [Hx | [<- | Hx]]; cbn; rewrite ?in_app_iff; auto.
      * intros job_id j [<- | Hin] Hj Hrm; [| now apply IHr].
        destruct (purge_removes st D s id j Hs Hj (Hdis id (or_introl eq_refl)) Hrm)
          as [Hgone Hpaths].
        destruct (purge_all_keeps_absent ids (snd (purge id s))) as [Kr Kf].
        split; [now apply Kr |]. intros p Hp. apply Kf. now apply Hpaths.
Qed.
End SweepFacts.

Section SweepCycle.

Variable H : Host.

Lemma stamped_unique j t t' : stamped H j t -> stamped H j t' -> t = t'.
Proof. intros (ts & Hts & Ht) (ts' & Hts' & Ht'). congruence. Qed.

Lemma get_of_in {V} (k : string) (v : V) (d : dict V) :
  List.NoDup (keys d) -> In (k, v) d -> get k d = Some v.
Proof.
  induction d as [|[k' v'] d IH]; simpl; [intros _ [] |].
  intros Hnd [[= -> ->] | Hin].
  - now rewrite String.eqb_refl.
  - inversion Hnd as [|? ? Hnin Hnd']; subst.
    destruct (String.eqb_spec k' k) as [->|Hne]; [| now apply IH].
    destruct Hnin. change (In (fst (k, v)) (map fst d)). now apply in_map.
Qed.

Lemma in_of_get {V} (k : string) (v : V) (d : dict V) :
  get k d = Some v -> In (k, v) d.
Proof.
  induction d as [|[k' v'] d IH]; simpl; [discriminate |].
  destruct (String.eqb_spec k' k) as [->|Hne].
  - intros [= ->]. now left.
  - intros Hg. right. now apply IH.
Qed.

(** The first loop: with every timestamp readable it returns, in registry
    order, the ids of the records stamped before the cutoff. *)
Lemma jobs_to_delete_spec cutoff reg :
  well_stamped H reg ->
  exists ids,
    jobs_to_delete H cutoff reg = Ok ids
    /\ (forall job_id, In job_id ids <->
          exists j t, In (job_id, j) reg /\ stamped H j t /\ t < cutoff)
    /\ (List.NoDup (keys reg) -> List.NoDup ids).
Proof.
  induction reg as [|[id j] reg IH]; intros Hw.
  - exists []. split; [reflexivity |]. split; [| intros _; constructor].
    intros job_id. split; [intros [] | intros (? & ? & [] & _)].
  - destruct IH as (ids & Hids & Hin & Hnd).
    { intros job_id j' Hj'. apply (Hw job_id j'). now right. }
    destruct (Hw id j (or_introl eq_refl)) as (t & ts & Hts & Ht).
    cbn [jobs_to_delete]. rewrite Hts, Ht, Hids.
    assert (Hsub : forall x, In x ids -> In x (keys reg)).
    { intros x Hx. apply Hin in Hx as (j' & _ & Hx & _).
      change (In (fst (x, j')) (map fst reg)). now apply in_map. }
    destruct (Z.ltb_spec t cutoff) as [Hlt | Hge]; eexists; (split; [reflexivity |]); split.
    + intros job_id. cbn [In]. rewrite Hin. split.
      * intros [<- | (j' & t' & Hj' & Hs & Hlt')].
        -- exists j, t. repeat split; [now left | now exists ts | assumption].
        -- exists j', t'. repeat split; [now right | assumption | assumption].
      * intros (j' & t' & [[= <- <-] | Hj'] & Hs & Hlt'); [now left |].
        right. now exists j', t'.
    + intros Hk. cbn in Hk. inversion Hk as [|? ? Hnin Hk']; subst.
      constructor; [| now apply Hnd]. intros Hx. apply Hnin. now apply Hsub.
    + intros job_id. rewrite Hin. split.
      * intros (j' & t' & Hj' & Hs & Hlt'). exists j', t'. repeat split; auto. now right.
      * intros (j' & t' & [[= <- <-] | Hj'] & Hs & Hlt').
        -- assert (t' = t) as -> by (eapply stamped_unique; [exact Hs | now exists ts]).
           lia.
        -- now exists j', t'.
    + intros Hk. cbn in Hk. inversion Hk; subst. now apply Hnd.
Qed.

Lemma cleanup_cycle_run now st ids :
  jobs_to_delete H (now - day) (job_status st) = Ok ids ->
  cleanup_old_jobs_cycle H now st = (Ok tt, purge_all ids st).
Proof.
  intros Hids. unfold cleanup_old_jobs_cycle, try_except, bind, gets, lift_result.
  rewrite Hids. now rewrite for_each_purge.
Qed.

(** C8. One sweeper cycle on a registry whose timestamps all read ends
    normally, and after it: every job stamped before the cutoff whose
    artifacts the removal calls accept is out of the registry and none of
    the paths its record names (input file, code file, result directory) is
    on the disk, whether or not the removal of another job's artifacts
    failed; every job stamped at or after the cutoff has its record as it
    was; a path that no old job names is as it was. *)
Theorem sweep_cycle now st :
  List.NoDup (keys (job_status st)) ->
  well_stamped H (job_status st) ->
  exists st',
    cleanup_old_jobs_cycle H now st = (Ok tt, st')
    /\ (forall job_id j t,
          get job_id (job_status st) = Some j -> stamped H j t -> t < now - day ->
          removable (files st) j ->
          get job_id (job_status st') = None
          /\ forall p, In p (artifact_paths j) -> files st' !! p = None)
    /\ (forall job_id j t,
          get job_id (job_status st) = Some j -> stamped H j t -> now - day <= t ->
          get job_id (job_status st') = Some j)
    /\ (forall p,
          (forall job_id j t,
             get job_id (job_status st) = Some j -> stamped H j t -> t < now - day ->
             ~ In p (artifact_paths j)) ->
          files st' !! p = files st !! p)
    /\ background_tasks st' = background_tasks st.
Proof.
  intros Hnd Hw.
  destruct (jobs_to_delete_spec (now - day) _ Hw) as (ids & Hids & Hin & Hnd').
  exists (purge_all ids st). split; [now apply cleanup_cycle_run |].
  destruct (purge_all_swept st ids [] st (swept_start st) (Hnd' Hnd))
    as [(Ht & Hr & Hf) Hgone]; [intros x _ [] |].
  repeat split.
  - eapply Hgone; eauto. apply Hin. exists j, t. repeat split; auto. now apply in_of_get.
  - eapply Hgone; eauto. apply Hin. exists j, t. repeat split; auto. now apply in_of_get.
  - intros job_id j t Hj Hs Hge.
    destruct (Hr job_id) as [E | [_ Hx]]; [congruence |].
    rewrite app_nil_r in Hx. apply Hin in Hx as (j' & t' & Hj' & Hs' & Hlt).
    apply (get_of_in _ _ _ Hnd) in Hj'. assert (j' = j) as -> by congruence.
    assert (t' = t) as -> by (eapply stamped_unique; eassumption). lia.
  - intros p Hp. destruct (Hf p) as [E | (_ & job_id & j & Hx & Hj & Hpj)]; [exact E |].
    rewrite app_nil_r in Hx. apply Hin in Hx as (j' & t' & Hj' & Hs' & Hlt).
    apply (get_of_in _ _ _ Hnd) in Hj'. assert (j' = j) as -> by congruence.
    now destruct (Hp job_id j t' Hj Hs' Hlt).
  - exact Ht.
Qed.
End SweepCycle.

(** C8 on three jobs: the two old ones and the young one of
    [Example.aged]. *)
Lemma sweep_cycle_witness :
  exists st',
    cleanup_old_jobs_cycle Posix.host Example.sweep_time Example.aged = (Ok tt, st')
    /\ (forall job_id j t,
          get job_id (job_status Example.aged) = Some j -> stamped Posix.host j t ->
          t < Example.sweep_time - day ->
          removable (files Example.aged) j ->
          get job_id (job_status st') = None
          /\ forall p, In p (artifact_paths j) -> files st' !! p = None)
    /\ (forall job_id j t,
          get job_id (job_status Example.aged) = Some j -> stamped Posix.host j t ->
          Example.sweep_time - day <= t ->
          get job_id (job_status st') = Some j)
    /\ (forall p,
          (forall job_id j t,
             get job_id (job_status Example.aged) = Some j -> stamped Posix.host j t ->
             t < Example.sweep_time - day ->
             ~ In p (artifact_paths j)) ->
          files st' !! p = files Example.aged !! p)
    /\ background_tasks st' = background_tasks Example.aged.
Proof.
  apply (sweep_cycle Posix.host Example.sweep_time Example.aged).
  - cbn. repeat constructor; cbn; intuition discriminate.
  - intros job_id j Hin. cbn in Hin.
    destruct Hin as [[= <- <-] | [[= <- <-] | [[= <- <-] | []]]];
      eexists; eexists; (split; [reflexivity | vm_compute; reflexivity]).
Defined.

(** The same cycle, computed: the old job whose input path is a directory
    stays (its removal raises, and its code file stays too), the other old
    job and its three artifacts are gone, the young job and its file are
    there. *)
Lemma sweep_isolates_failure :
  let st' := snd (cleanup_old_jobs_cycle Posix.host Example.sweep_time Example.aged) in
  keys (job_status st') = ["old_bad"; "young"]
  /\ files st' !! "/up/old_ok_b.csv" = None
  /\ files st' !! "/code/old_ok_process.py" = None
  /\ files st' !! "/res/old_ok" = None
  /\ files st' !! "/up/old_bad_a.csv" = Some (Dir [])
  /\ files st' !! "/code/old_bad_process.py" = Some (File "print(0)")
  /\ files st' !! "/up/young_c.csv" = Some (File "y").
Proof. vm_compute. repeat split. Qed.

(** ** The lifecycle *)

Lemma set_keeps {V} (k k' : string) (v : V) (d : dict V) :
  get k' d <> None -> get k' (set k v d) <> None.
Proof.
  intros Hk. destruct (String.eqb_spec k k') as [->|Hne].
  - rewrite get_set_eq. discriminate.
  - now rewrite get_set_ne.
Qed.


Lemma store_absent job_id key value reg :
  get job_id reg = None -> store job_id key value reg = reg.
Proof. intros Hn. unfold store. now rewrite Hn. Qed.

Lemma status_of_present job_id reg status :
  status_of job_id reg = Some status -> get job_id reg <> None.
Proof. unfold status_of. destruct (get job_id reg); [discriminate | discriminate]. Qed.

Lemma rewrites_update job_id status kwargs reg :
  ~ In "status" (keys kwargs) ->
  rewrites job_id status reg (update_job_status job_id status kwargs reg).
Proof.
  intros Hk. repeat split.
  - intros other Hne. now apply update_get_other.
  - intros Hn. now rewrite update_absent.
  - intros Hj. destruct (get job_id reg) as [j|] eqn:E; [| congruence].
    now apply (update_status_of _ _ _ _ j).
Qed.

Lemma rewrites_trans job_id a b r1 r2 r3 :
  rewrites job_id a r1 r2 -> rewrites job_id b r2 r3 -> rewrites job_id b r1 r3.
Proof.
  intros (Ho1 & Hn1 & Hs1) (Ho2 & Hn2 & Hs2). repeat split.
  - intros other Hne. rewrite Ho2, Ho1; auto.
  - auto.
  - intros Hj. apply Hs2. eapply status_of_present. now apply Hs1.
Qed.

Section LifecycleFacts.

Variable H : Host.

Lemma exec_begin_run t sb :
  exec_begin H t sb
  = (Ok (docker_cmd_of H (task_file_path t) (task_code_path t) (task_result_path t)
           (task_max_execution_time t)),
     Sandbox
       (prepared H (task_job_id t) (task_file_path t) (task_code_path t)
          (task_result_path t) (task_max_execution_time t) (registry_of sb))
       (process sb) (calls sb)).
Proof. reflexivity. Qed.

(** The executor is its two phases in a row. *)
Lemma execute_code_in_sandbox_phases t r sb :
  execute_code_in_sandbox H (task_job_id t) (task_file_path t) (task_code_path t)
    (task_result_path t) (task_max_execution_time t) r sb
  = exec_finish H (task_job_id t)
      (docker_cmd_of H (task_file_path t) (task_code_path t) (task_result_path t)
         (task_max_execution_time t))
      (task_max_execution_time t) r (snd (exec_begin H t sb)).
Proof. reflexivity. Qed.

(** What [exec_finish] writes: one update to a terminal status, after at
    most one [running] update. *)
Lemma exec_finish_shape job_id cmd tm r sb :
  exists status kwargs reg1,
    terminal status /\ ~ In "status" (keys kwargs)
    /\ registry_of (snd (exec_finish H job_id cmd tm r sb))
       = update_job_status job_id status kwargs reg1
    /\ (reg1 = registry_of sb
        \/ exists kwargs1, ~ In "status" (keys kwargs1)
                           /\ reg1 = update_job_status job_id "running" kwargs1
                                       (registry_of sb)).
Proof.
  unfold exec_finish, execute.
  destruct r as [e | [c out err | rc out err]].
  - destruct (is_nt H); cbn -[update_job_status String.append];
      eexists _, _, _; (split; [| split; [| split; [reflexivity | now left]]]);
      [unfold terminal; auto | cbn; intuition discriminate
      |unfold terminal; auto | cbn; intuition discriminate].
  - assert (Ho' : match out with [] => ret "" | _ => lift_result (decode_utf8 out) end
                  = (lift_result (decode_utf8 out) : M sandbox string))
      by (destruct out; reflexivity).
    assert (He' : match err with [] => ret "" | _ => lift_result (decode_utf8 err) end
                  = (lift_result (decode_utf8 err) : M sandbox string))
      by (destruct err; reflexivity).
    unfold _execute_windows, _execute_unix. rewrite Ho', He'.
    assert (Hsame : (if is_nt H then
                       spawn cmd ;; communicate (Some c) ;;
                       stdout_text <- lift_result (decode_utf8 out) ;;
                       stderr_text <- lift_result (decode_utf8 err) ;;
                       report_exit job_id c stdout_text stderr_text
                     else
                       spawn cmd ;; communicate (Some c) ;;
                       stdout_text <- lift_result (decode_utf8 out) ;;
                       stderr_text <- lift_result (decode_utf8 err) ;;
                       report_exit job_id c stdout_text stderr_text)
                    = (spawn cmd ;; communicate (Some c) ;;
                       stdout_text <- lift_result (decode_utf8 out) ;;
                       stderr_text <- lift_result (decode_utf8 err) ;;
                       report_exit job_id c stdout_text stderr_text))
      by (destruct (is_nt H); reflexivity).
    rewrite Hsame. clear Hsame Ho' He'.
    unfold try_except, bind, report_exit, lift_result, on_exception.
    destruct (decode_utf8 out) as [so|e1]; [destruct (decode_utf8 err) as [se|e2] |].
    + destruct (negb (c =? 0)); cbn -[update_job_status exit_error];
        eexists _, _, _; (split; [| split; [| split; [reflexivity |]]]);
        [ unfold terminal; auto | cbn; intuition discriminate
        | right; eexists; split; [| reflexivity]; cbn; intuition discriminate
        | unfold terminal; auto | cbn; intuition discriminate
        | right; eexists; split; [| reflexivity]; cbn; intuition discriminate ].
    + cbn -[update_job_status String.append].
      eexists _, _, _. split; [| split; [| split; [reflexivity | now left]]];
        [unfold terminal; auto | cbn; intuition discriminate].
    + cbn -[update_job_status String.append].
      eexists _, _, _. split; [| split; [| split; [reflexivity | now left]]];
        [unfold terminal; auto | cbn; intuition discriminate].
  - destruct (is_nt H); destruct rc; cbn -[update_job_status timeout_error];
      eexists _, _, _; (split; [| split; [| split; [reflexivity | now left]]]);
      [unfold terminal; auto | cbn; intuition discriminate
      |unfold terminal; auto | cbn; intuition discriminate
      |unfold terminal; auto | cbn; intuition discriminate
      |unfold terminal; auto | cbn; intuition discriminate].
Qed.


Lemma prepared_rewrites job_id fp cp rp tm reg :
  rewrites job_id "running" reg (prepared H job_id fp cp rp tm reg).
Proof.
  unfold prepared. eapply rewrites_trans; apply rewrites_update; cbn; intuition discriminate.
Qed.

Lemma submitted_rewrites job_id reg :
  rewrites job_id "processing" reg (submitted H job_id reg).
Proof.
  repeat split.
  - intros other Hne. now apply submitted_get_other.
  - intros Hn. unfold submitted.
    now rewrite (store_absent _ "status" _ reg Hn), (store_absent _ "code_path" _ reg Hn),
      (store_absent _ "result_path" _ reg Hn).
  - intros Hj. destruct (get job_id reg) as [j|] eqn:E; [| congruence].
    unfold status_of. rewrite (submitted_get H _ _ _ E). now dict_simpl.
Qed.

Lemma exec_begin_rewrites t sb :
  rewrites (task_job_id t) "running"
    (registry_of sb) (registry_of (snd (exec_begin H t sb))).
Proof. rewrite exec_begin_run. apply prepared_rewrites. Qed.

Lemma exec_finish_rewrites job_id cmd tm r sb :
  exists status,
    terminal status
    /\ rewrites job_id status (registry_of sb)
         (registry_of (snd (exec_finish H job_id cmd tm r sb))).
Proof.
  destruct (exec_finish_shape job_id cmd tm r sb)
    as (status & kwargs & reg1 & Ht & Hk & -> & [-> | (kw1 & Hk1 & ->)]);
    exists status; (split; [exact Ht |]).
  - now apply rewrites_update.
  - eapply rewrites_trans; now apply rewrites_update.
Qed.

(** Every way the route of [submit_code] can end, on the registry and the
    queue. *)
Lemma post_submit_code_effect job_id body st :
  let st' := snd (post_submit_code H job_id body st) in
  (job_status st' = job_status st /\ background_tasks st' = background_tasks st)
  \/ (get job_id (job_status st) <> None
      /\ job_status st' = submitted H job_id (job_status st)
      /\ (background_tasks st' = background_tasks st
          \/ exists t, task_job_id t = job_id
                       /\ background_tasks st' = background_tasks st ++ [t])).
Proof.
  cbv zeta. destruct (validate_code_ok_or_rejected body) as [Hv | [e Hv]].
  2:{ rewrite (post_submit_code_rejected H _ _ _ _ Hv). now left. }
  rewrite (post_submit_code_valid H _ _ _ Hv).
  destruct (submit_code H job_id {| code := body |} st) as [r st'] eqn:E.
  apply submit_code_cases in E. cbn [snd].
  destruct E as [(_ & _ & ->) | (j & Hj & [(_ & Hr & Ht) | [(_ & _ & Hr & Ht) | (fp & _ & _ & Hr & Ht)]])].
  - now left.
  - now left.
  - right. rewrite Hj. repeat split; [discriminate | exact Hr | now left].
  - right. rewrite Hj. repeat split; [discriminate | exact Hr |].
    right. eexists. split; [| exact Ht]. reflexivity.
Qed.

Lemma upload_file_effect job_id ts filename data st :
  let st' := snd (upload_file H job_id ts filename data st) in
  background_tasks st' = background_tasks st
  /\ (forall other, other <> job_id ->
        get other (job_status st') = get other (job_status st))
  /\ (job_status st' = job_status st
      \/ get job_id (job_status st') = None
      \/ status_of job_id (job_status st') = Some "uploaded").
Proof.
  cbv zeta. unfold upload_file.
  destruct (String.eqb filename ""); [cbn; auto |].
  destruct (negb (allowed_file (str_lower H) filename ALLOWED_EXTENSIONS)); [cbn; auto |].
  unfold bind, on_registry, on_files, modify, raise, ret. cbv zeta.
  cbn [job_status files background_tasks].
  destruct (Z.of_nat (length data) >? MAX_UPLOAD_SIZE).
  - cbn [snd job_status files background_tasks]. split; [reflexivity |]. split.
    + intros other Hne. unfold delete_job, create_job, mem. rewrite get_set_eq.
      rewrite get_del_ne by congruence. apply get_set_ne. congruence.
    + right. left. unfold delete_job, create_job, mem. rewrite get_set_eq.
      apply get_del_eq.
  - match goal with
    | |- context [write_file ?a ?b ?c] => destruct (write_file a b c) as [[[]|e] d]
    end;
      cbn [snd job_status files background_tasks]; (split; [reflexivity |]); split.
    + intros other Hne. rewrite store_get_other by assumption.
      apply get_set_ne. congruence.
    + right. right. unfold status_of, create_job.
      erewrite store_get_same by apply get_set_eq. now dict_simpl.
    + intros other Hne. apply get_set_ne. congruence.
    + right. right. unfold status_of, create_job. rewrite get_set_eq. now dict_simpl.
Qed.

Lemma purge_all_drops ids : forall s,
  background_tasks (purge_all ids s) = background_tasks s
  /\ drops (job_status s) (job_status (purge_all ids s)).
Proof.
  induction ids as [|id ids IH]; intros s; [split; [reflexivity | intros x; now left] |].
  cbn [purge_all fold_left]. fold (purge_all ids (snd (purge id s))).
  destruct (IH (snd (purge id s))) as [IHt IHd].
  pose proof (purge_swept s [] s id (swept_start s)) as (Ht & Hr & _).
  split; [congruence |].
  intros x. destruct (IHd x) as [E | E]; [| now right].
  rewrite E. destruct (Hr x) as [E' | [E' _]]; auto.
Qed.

Lemma cleanup_cycle_drops now st :
  let st' := snd (cleanup_old_jobs_cycle H now st) in
  background_tasks st' = background_tasks st
  /\ drops (job_status st) (job_status st').
Proof.
  cbv zeta. destruct (jobs_to_delete H (now - day) (job_status st)) as [ids|e] eqn:E.
  - rewrite (cleanup_cycle_run H _ _ _ E). apply purge_all_drops.
  - unfold cleanup_old_jobs_cycle, try_except, bind, gets, lift_result. rewrite E.
    cbn. split; [reflexivity | intros x; now left].
Qed.

Lemma cleanup_job_files_run job_id st j :
  get job_id (job_status st) = Some j ->
  cleanup_job_files job_id st
  = match remove_artifacts job_id st with
    | (Ok _, s1) => (Ok true, s1)
    | (Raise _, s1) => (Ok false, s1)
    end.
Proof.
  intros Hj. unfold cleanup_job_files, bind, gets, mem, try_except. rewrite Hj.
  cbn [negb]. destruct (remove_artifacts job_id st) as [[[]|e] s1]; reflexivity.
Qed.

Lemma cleanup_job_drops job_id st :
  let st' := snd (cleanup_job H job_id st) in
  background_tasks st' = background_tasks st
  /\ drops (job_status st) (job_status st').
Proof.
  cbv zeta. unfold cleanup_job, bind, gets, mem.
  destruct (get job_id (job_status st)) as [j|] eqn:Hj; cbn [negb].
  2:{ cbn. split; [reflexivity | intros x; now left]. }
  unfold try_except, bind. rewrite (cleanup_job_files_run _ _ _ Hj).
  destruct (remove_artifacts job_id st) as [r s1] eqn:E.
  apply (remove_artifacts_effect _ _ j) in E as ((Hr & Ht & _) & _); [| exact Hj].
  destruct r as [[]|e]; cbn [ret raise on_registry modify snd job_status background_tasks].
  - split; [exact Ht |]. rewrite Hr. intros x. unfold delete_job, mem. rewrite Hj.
    destruct (decide (job_id = x)) as [<- | Hne].
    + right. apply get_del_eq.
    + left. now apply get_del_ne.
  - split; [exact Ht |]. rewrite Hr. intros x. now left.
Qed.

End LifecycleFacts.

Lemma lookup_split {A} (l : list A) (n : nat) (x : A) :
  l !! n = Some x -> exists l1 l2, l = l1 ++ x :: l2 /\ delete n l = l1 ++ l2.
Proof.
  revert n. induction l as [|y l IH]; intros [|n] Hn; try discriminate.
  - injection Hn as ->. now exists [], l.
  - destruct (IH n Hn) as (l1 & l2 & -> & Hd). exists (y :: l1), l2.
    split; [reflexivity |].
    change (y :: delete n (l1 ++ x :: l2) = y :: (l1 ++ l2)). now rewrite Hd.
Qed.

(** Taking the [n]-th execution out of one list and, maybe, putting its job
    at the end of the other keeps the jobs distinct. *)
Lemma nodup_move {A B} (f : A -> string) (g : B -> string)
    (l : list A) (m : list B) (n : nat) (t : A) :
  l !! n = Some t ->
  List.NoDup (map f l ++ map g m) ->
  (forall t', In t' (delete n l) -> In t' l /\ f t' <> f t)
  /\ (forall p, In p m -> g p <> f t)
  /\ List.NoDup (map f (delete n l) ++ map g m)
  /\ forall p, g p = f t -> List.NoDup (map f (delete n l) ++ map g (m ++ [p])).
Proof.
  intros Hn Hnd. destruct (lookup_split _ _ _ Hn) as (l1 & l2 & -> & ->).
  rewrite map_app in Hnd. cbn [map] in Hnd. rewrite <- app_assoc in Hnd.
  cbn [app] in Hnd. apply NoDup_remove in Hnd as [Hnd Hnin0].
  assert (Hnin : ~ In (f t) (map f (l1 ++ l2) ++ map g m)).
  { intros Hx. apply Hnin0. rewrite map_app in Hx. rewrite <- List.app_assoc in Hx. exact Hx. }
  rewrite List.app_assoc in Hnd. rewrite <- map_app in Hnd.
  split; [| split; [| split; [exact Hnd |]]].
  - intros t' Ht'. split.
    + apply in_app_iff in Ht' as [Hi | Hi]; apply in_app_iff; [now left | right; now right].
    + intros Heq. apply Hnin. apply in_app_iff. left. rewrite <- Heq. now apply in_map.
  - intros p Hp Heq. apply Hnin. apply in_app_iff. right. rewrite <- Heq. now apply in_map.
  - intros p Hp. rewrite (map_app g), List.app_assoc. cbn [map].
    apply List.NoDup_app; [exact Hnd | repeat constructor; intros [] |].
    intros a Ha [<- | []]. rewrite Hp in Ha. contradiction.
Qed.

Lemma nodup_take {A B} (f : A -> string) (g : B -> string)
    (l : list A) (m : list B) (n : nat) (p : B) :
  m !! n = Some p ->
  List.NoDup (map f l ++ map g m) ->
  (forall p', In p' (delete n m) -> In p' m /\ g p' <> g p)
  /\ (forall t, In t l -> f t <> g p)
  /\ List.NoDup (map f l ++ map g (delete n m)).
Proof.
  intros Hn Hnd. destruct (lookup_split _ _ _ Hn) as (m1 & m2 & -> & ->).
  rewrite map_app in Hnd. cbn [map] in Hnd. rewrite app_assoc in Hnd.
  apply NoDup_remove in Hnd as [Hnd Hnin0].
  assert (Hnin : ~ In (g p) (map f l ++ map g (m1 ++ m2))).
  { intros Hx. apply Hnin0. rewrite map_app in Hx. rewrite List.app_assoc in Hx. exact Hx. }
  rewrite <- List.app_assoc in Hnd. rewrite <- map_app in Hnd.
  split; [| split; [| exact Hnd]].
  - intros p' Hp'. split.
    + apply in_app_iff in Hp' as [Hi | Hi]; apply in_app_iff; [now left | right; now right].
    + intros Heq. apply Hnin. apply in_app_iff. right. rewrite <- Heq. now apply in_map.
  - intros t Ht Heq. apply Hnin. apply in_app_iff. left. rewrite <- Heq. now apply in_map.
Qed.

Lemma mem_get {V} (k : string) (d : dict V) : mem k d = true <-> get k d <> None.
Proof. unfold mem. destruct (get k d); split; congruence. Qed.

(** The invariant through a step that rewrites the status of one job. *)
Lemma invariant_rewrites (s : system) (job_id status : string) (reg' : registry)
    (files' : disk) (tasks' : list task) (awaiting' : list pending) :
  invariant s ->
  rewrites job_id status (job_status (server s)) reg' ->
  (forall t, In t tasks' ->
     (In t (background_tasks (server s)) /\ task_job_id t <> job_id)
     \/ (task_job_id t = job_id /\ status = "processing")) ->
  (forall p, In p awaiting' ->
     (In p (awaiting s) /\ pending_job_id p <> job_id)
     \/ (pending_job_id p = job_id /\ status = "running")) ->
  List.NoDup (map task_job_id tasks' ++ map pending_job_id awaiting') ->
  (forall x, In x (map task_job_id tasks' ++ map pending_job_id awaiting') ->
             In x (issued s)) ->
  invariant (System (State reg' files' tasks') awaiting' (issued s)).
Proof.
  intros [Iq Ia Is Ii] (Ho & Hn & Hs) Ht Hp Hnd Hsub.
  split; cbn [server awaiting issued job_status background_tasks].
  - intros t st Hin Hst. destruct (Ht t Hin) as [[Hin' Hne] | [Heq ->]].
    + apply (Iq t st Hin'). unfold status_of in *. now rewrite <- (Ho _ Hne).
    + rewrite Heq in Hst. rewrite Hs in Hst; [congruence |].
      intros Habs. apply Hn in Habs. apply status_of_present in Hst. contradiction.
  - intros p st Hin Hst. destruct (Hp p Hin) as [[Hin' Hne] | [Heq ->]].
    + apply (Ia p st Hin'). unfold status_of in *. now rewrite <- (Ho _ Hne).
    + rewrite Heq in Hst. rewrite Hs in Hst; [congruence |].
      intros Habs. apply Hn in Habs. apply status_of_present in Hst. contradiction.
  - exact Hnd.
  - intros x [Hx | Hx].
    + apply Ii. left. apply mem_get. apply mem_get in Hx.
      destruct (decide (x = job_id)) as [-> | Hne].
      * intros Habs. now apply Hn in Habs.
      * now rewrite <- (Ho _ Hne).
    + apply Hsub. apply in_app_iff. tauto.
Qed.

(** The invariant through a step that only drops records. *)
Lemma invariant_drops (s : system) (st' : state) :
  invariant s ->
  background_tasks st' = background_tasks (server s) ->
  drops (job_status (server s)) (job_status st') ->
  invariant (System st' (awaiting s) (issued s)).
Proof.
  intros [Iq Ia Is Ii] Ht Hd.
  assert (Hst : forall x st, status_of x (job_status st') = Some st ->
                             status_of x (job_status (server s)) = Some st).
  { intros x st. unfold status_of. destruct (Hd x) as [-> | ->]; [auto | discriminate]. }
  split; cbn [server awaiting issued]; rewrite ?Ht.
  - intros t st Hin Hs. eapply Iq; eauto.
  - intros p st Hin Hs. eapply Ia; eauto.
  - exact Is.
  - intros x [Hx | Hx]; [| apply Ii; tauto].
    apply Ii. left. apply mem_get. apply mem_get in Hx.
    destruct (Hd x) as [E | E]; congruence.
Qed.

Section Lifecycle.

Variable H : Host.

Lemma invariant_initial : invariant initial.
Proof.
  split; cbn; try contradiction; try (intros; contradiction).
  - constructor.
  - intros x [Hx | [[] | []]]. discriminate.
Qed.

Lemma step_invariant (a : action) (s : system) :
  invariant s -> admissible a s -> invariant (step H a s).
Proof.
  intros Inv Hadm. pose proof Inv as [Iq Ia Is Ii].
  destruct a as [job_id ts filename data | job_id body | n | n o | now | job_id];
    cbn [step admissible] in *.
  - (* Upload *)
    destruct (upload_file_effect H job_id ts filename data (server s)) as (Ht & Ho & Hj).
    assert (Hfresh : get job_id (job_status (server s)) = None).
    { destruct (get job_id (job_status (server s))) eqn:E; [| reflexivity].
      destruct Hadm. apply Ii. left. apply mem_get. congruence. }
    assert (Hq : forall x, In x (map task_job_id (background_tasks (server s))
                                 ++ map pending_job_id (awaiting s)) -> x <> job_id).
    { intros x Hx ->. apply Hadm. apply Ii. apply in_app_iff in Hx. tauto. }
    split; cbn [server awaiting issued]; rewrite ?Ht.
    + intros t st Hin Hst. apply (Iq t st Hin). unfold status_of in *.
      rewrite <- Ho; [exact Hst |]. apply Hq. apply in_app_iff. left. now apply in_map.
    + intros p st Hin Hst. apply (Ia p st Hin). unfold status_of in *.
      rewrite <- Ho; [exact Hst |]. apply Hq. apply in_app_iff. right. now apply in_map.
    + exact Is.
    + intros x [Hx | Hx]; [| right; apply Ii; tauto].
      destruct (decide (x = job_id)) as [-> | Hne]; [now left |].
      right. apply Ii. left. apply mem_get. apply mem_get in Hx. now rewrite <- (Ho _ Hne).
  - (* SubmitCode *)
    destruct (post_submit_code_effect H job_id body (server s))
      as [[Hr Ht] | (Hj & Hr & Ht)].
    + destruct (snd (post_submit_code H job_id body (server s))) as [reg' f' t'].
      cbn in Hr, Ht. subst. now split.
    + destruct (snd (post_submit_code H job_id body (server s))) as [reg' f' t'].
      cbn [job_status background_tasks] in Hr, Ht.
      assert (Hup : status_of job_id (job_status (server s)) = Some "uploaded")
        by (apply Hadm; now apply mem_get).
      assert (Hnq : forall t, In t (background_tasks (server s)) -> task_job_id t <> job_id).
      { intros t Hin Heq. rewrite <- Heq in Hup. now discriminate (Iq t _ Hin Hup). }
      assert (Hna : forall p, In p (awaiting s) -> pending_job_id p <> job_id).
      { intros p Hin Heq. rewrite <- Heq in Hup. now discriminate (Ia p _ Hin Hup). }
      apply (invariant_rewrites s job_id "processing"); auto.
      * subst reg'. apply submitted_rewrites.
      * intros t Hin. destruct Ht as [-> | (t0 & Hid & ->)]; [left; auto |].
        apply in_app_iff in Hin as [Hin | [<- | []]]; [left; auto | right; auto].
      * destruct Ht as [-> | (t0 & Hid & ->)]; [exact Is |].
        rewrite map_app, <- List.app_assoc. cbn [map app].
        apply (NoDup_Add (Add_app _ _ _)). split; [exact Is |].
        rewrite Hid. intros Hin. apply in_app_iff in Hin as [Hin | Hin];
          apply in_map_iff in Hin as (y & Hy & Hin); [now apply (Hnq y) | now apply (Hna y)].
      * intros x Hx. destruct Ht as [-> | (t0 & Hid & ->)]; [apply Ii; apply in_app_iff in Hx; tauto |].
        rewrite map_app in Hx. cbn [map] in Hx.
        apply in_app_iff in Hx as [Hx | Hx]; [| apply Ii; tauto].
        apply in_app_iff in Hx as [Hx | [<- | []]]; [apply Ii; tauto |].
        rewrite Hid. apply Ii. left. now apply mem_get.
  - (* Begin *)
    destruct (background_tasks (server s) !! n) as [t|] eqn:Hn; [| exact Inv].
    pose proof (exec_begin_rewrites H t (Sandbox (job_status (server s)) None []))
      as Hrw.
    rewrite exec_begin_run in *. cbn [snd registry_of] in *.
    destruct (nodup_move task_job_id pending_job_id _ (awaiting s) n t Hn Is)
      as (Hdel & Haw & Hnd & Hmove).
    apply (invariant_rewrites s (task_job_id t) "running" _ _ _ _ Inv Hrw).
    + intros t' Ht'. left. now apply Hdel.
    + intros p Hp. apply in_app_iff in Hp as [Hp | [<- | []]].
      * left. split; [exact Hp | now apply Haw].
      * right. now split.
    + now apply Hmove.
    + intros x Hx. apply Ii. apply in_app_iff in Hx as [Hx | Hx].
      * right. left. apply in_map_iff in Hx as (y & <- & Hy). apply in_map.
        now apply Hdel.
      * rewrite map_app in Hx. cbn [map] in Hx.
        apply in_app_iff in Hx as [Hx | [<- | []]]; [tauto |].
        right. left. cbn [pending_job_id]. apply in_map. apply list_elem_of_In.
        now apply (list_elem_of_lookup_2 _ n).
  - (* Finish *)
    destruct (awaiting s !! n) as [p|] eqn:Hn; [| exact Inv].
    destruct (exec_finish_rewrites H (pending_job_id p) (pending_cmd p)
                (pending_max_execution_time p) o
                (Sandbox (job_status (server s)) (Some Running) []))
      as (st & Hterm & Hrw).
    destruct (nodup_take task_job_id pending_job_id (background_tasks (server s))
                _ n p Hn Is) as (Hdel & Hq & Hnd).
    apply (invariant_rewrites s (pending_job_id p) st _ _ _ _ Inv Hrw).
    + intros t Ht. left. split; [exact Ht | now apply Hq].
    + intros p' Hp'. left. now apply Hdel.
    + exact Hnd.
    + intros x Hx. apply Ii. apply in_app_iff in Hx as [Hx | Hx]; [tauto |].
      right. right. apply in_map_iff in Hx as (y & <- & Hy). apply in_map.
      now apply Hdel.
  - (* Sweep *)
    destruct (cleanup_cycle_drops H now (server s)) as [Ht Hd].
    now apply invariant_drops.
  - (* Cleanup *)
    destruct (cleanup_job_drops H job_id (server s)) as [Ht Hd].
    now apply invariant_drops.
Qed.

Lemma reachable_invariant (s : system) : reachable H s -> invariant s.
Proof.
  induction 1 as [|a s Hr IH Hadm]; [apply invariant_initial | now apply step_invariant].
Qed.


Lemma rewrites_status job_id new reg reg' x status :
  rewrites job_id new reg reg' -> status_of x reg = Some status ->
  status_of x reg' = Some (if String.eqb x job_id then new else status).
Proof.
  intros (Ho & Hn & Hs) Hx. destruct (String.eqb_spec x job_id) as [-> | Hne].
  - apply Hs. now apply status_of_present in Hx.
  - unfold status_of in *. now rewrite (Ho _ Hne).
Qed.

Lemma not_terminal_uploaded : ~ terminal "uploaded".
Proof. intros [E | [E | E]]; discriminate. Qed.

Lemma not_terminal_processing : ~ terminal "processing".
Proof. intros [E | [E | E]]; discriminate. Qed.

Lemma not_terminal_running : ~ terminal "running".
Proof. intros [E | [E | E]]; discriminate. Qed.

Lemma rank_terminal status : terminal status -> rank status = 3%nat.
Proof. intros [-> | [-> | ->]]; reflexivity. Qed.

(** One step from a state that satisfies the invariant: a status moves
    forward or stays, and a terminal one stays, unless the record goes. *)
Lemma step_status (a : action) (s : system) (job_id status : string) :
  invariant s -> admissible a s ->
  status_of job_id (job_status (server s)) = Some status ->
  get job_id (job_status (server (step H a s))) = None
  \/ exists status',
       status_of job_id (job_status (server (step H a s))) = Some status'
       /\ (rank status <= rank status')%nat
       /\ (terminal status -> status' = status).
Proof.
  intros [Iq Ia Is Ii] Hadm Hst.
  assert (Hkeep : forall reg', status_of job_id reg' = Some status ->
            get job_id reg' = None
            \/ exists status', status_of job_id reg' = Some status'
                 /\ (rank status <= rank status')%nat
                 /\ (terminal status -> status' = status)).
  { intros reg' E. right. exists status. auto. }
  destruct a as [id ts filename data | id body | n | n o | now | id];
    cbn [step admissible server] in *.
  - destruct (upload_file_effect H id ts filename data (server s)) as (_ & Ho & _).
    apply Hkeep. unfold status_of in *. rewrite Ho; [exact Hst |].
    intros ->. apply Hadm. apply Ii. left. apply mem_get.
    now apply status_of_present in Hst.
  - destruct (post_submit_code_effect H id body (server s)) as [[Hr _] | (Hj & Hr & _)];
      rewrite Hr; [now apply Hkeep |].
    generalize (rewrites_status _ _ _ _ _ _ (submitted_rewrites H id _) Hst).
    destruct (String.eqb_spec job_id id) as [-> | Hne]; intros Hnew;
      [| now apply Hkeep].
    assert (status = "uploaded") as ->.
    { specialize (Hadm (proj2 (mem_get _ _) Hj)). congruence. }
    right. exists "processing". split; [exact Hnew |]. split; [cbn; lia |].
    intros Habs. now destruct not_terminal_uploaded.
  - destruct (background_tasks (server s) !! n) as [t|] eqn:Hn; [| now apply Hkeep].
    pose proof (exec_begin_rewrites H t (Sandbox (job_status (server s)) None []))
      as Hrw.
    destruct (exec_begin H t (Sandbox (job_status (server s)) None []))
      as [r sb] eqn:E.
    cbn [snd server job_status] in *.
    generalize (rewrites_status _ _ _ _ _ _ Hrw Hst).
    destruct (String.eqb_spec job_id (task_job_id t)) as [-> | Hne]; intros Hnew;
      [| now apply Hkeep].
    assert (status = "processing") as ->.
    { apply (Iq t); [| exact Hst]. apply list_elem_of_In.
      now apply (list_elem_of_lookup_2 _ n). }
    right. eexists. split; [exact Hnew |]. split.
    + cbn. lia.
    + intros Habs. now destruct not_terminal_processing.
  - destruct (awaiting s !! n) as [p|] eqn:Hn; [| now apply Hkeep].
    destruct (exec_finish_rewrites H (pending_job_id p) (pending_cmd p)
                (pending_max_execution_time p) o
                (Sandbox (job_status (server s)) (Some Running) []))
      as (new & Hterm & Hrw).
    cbn [snd server job_status registry_of] in *.
    generalize (rewrites_status _ _ _ _ _ _ Hrw Hst).
    destruct (String.eqb_spec job_id (pending_job_id p)) as [-> | Hne]; intros Hnew;
      [| now apply Hkeep].
    assert (status = "running") as ->.
    { apply (Ia p); [| exact Hst]. apply list_elem_of_In.
      now apply (list_elem_of_lookup_2 _ n). }
    right. exists new. split; [exact Hnew |]. split.
    + rewrite (rank_terminal _ Hterm). cbn. lia.
    + intros Habs. now destruct not_terminal_running.
  - destruct (cleanup_cycle_drops H now (server s)) as [_ Hd].
    destruct (Hd job_id) as [E | E]; [| now left].
    apply Hkeep. unfold status_of in *. now rewrite E.
  - destruct (cleanup_job_drops H id (server s)) as [_ Hd].
    destruct (Hd job_id) as [E | E]; [| now left].
    apply Hkeep. unfold status_of in *. now rewrite E.
Qed.

End Lifecycle.
Lemma rewrites_absent job_id new reg reg' x :
  rewrites job_id new reg reg' -> get x reg = None -> get x reg' = None.
Proof.
  intros (Ho & Hn & _) Hx. destruct (decide (x = job_id)) as [-> | Hne]; [auto |].
  now rewrite (Ho _ Hne).
Qed.

Section Schedules.

Variable H : Host.

(** A record that is gone stays gone: its identifier is not drawn again. *)
Lemma step_absent (a : action) (s : system) (job_id : string) :
  admissible a s -> In job_id (issued s) ->
  get job_id (job_status (server s)) = None ->
  In job_id (issued (step H a s))
  /\ get job_id (job_status (server (step H a s))) = None.
Proof.
  intros Hadm Hin Hn.
  destruct a as [id ts filename data | id body | n | n o | now | id];
    cbn [step admissible server issued] in *.
  - split; [now right |].
    destruct (upload_file_effect H id ts filename data (server s)) as (_ & Ho & _).
    rewrite Ho; [exact Hn | congruence].
  - split; [exact Hin |].
    destruct (post_submit_code_effect H id body (server s)) as [[Hr _] | (_ & Hr & _)];
      rewrite Hr; [exact Hn |].
    exact (rewrites_absent _ _ _ _ _ (submitted_rewrites H id _) Hn).
  - destruct (background_tasks (server s) !! n) as [t|] eqn:E; [| now split].
    pose proof (exec_begin_rewrites H t (Sandbox (job_status (server s)) None []))
      as Hrw.
    destruct (exec_begin H t (Sandbox (job_status (server s)) None []))
      as [r sb].
    cbn [snd server issued job_status] in *. split; [exact Hin |].
    exact (rewrites_absent _ _ _ _ _ Hrw Hn).
  - destruct (awaiting s !! n) as [p|] eqn:E; [| now split].
    destruct (exec_finish_rewrites H (pending_job_id p) (pending_cmd p)
                (pending_max_execution_time p) o
                (Sandbox (job_status (server s)) (Some Running) []))
      as (new & _ & Hrw).
    cbn [snd server issued job_status registry_of] in *. split; [exact Hin |].
    exact (rewrites_absent _ _ _ _ _ Hrw Hn).
  - split; [exact Hin |].
    destruct (cleanup_cycle_drops H now (server s)) as [_ Hd].
    destruct (Hd job_id) as [E | E]; congruence.
  - split; [exact Hin |].
    destruct (cleanup_job_drops H id (server s)) as [_ Hd].
    destruct (Hd job_id) as [E | E]; congruence.
Qed.

Lemma step_issued (a : action) (s : system) (x : string) :
  In x (issued s) -> In x (issued (step H a s)).
Proof.
  intros Hin. destruct a as [id ? ? ? | ? ? | n | n o | ? | ?]; cbn [step issued];
    try assumption.
  - now right.
  - destruct (background_tasks (server s) !! n); [| assumption].
    now destruct (exec_begin H _ _).
  - now destruct (awaiting s !! n).
Qed.

Lemma play_absent (schedule : list action) : forall (s : system) (job_id : string),
  admissible_run H schedule s -> In job_id (issued s) ->
  get job_id (job_status (server s)) = None ->
  get job_id (job_status (server (play H schedule s))) = None.
Proof.
  induction schedule as [|a rest IH]; intros s job_id Hadm Hin Hn; [exact Hn |].
  destruct Hadm as [Ha Hrest]. cbn [play fold_left].
  destruct (step_absent a s job_id Ha Hin Hn) as [Hin' Hn'].
  now apply IH.
Qed.

Lemma play_invariant (schedule : list action) : forall s,
  invariant s -> admissible_run H schedule s -> invariant (play H schedule s).
Proof.
  induction schedule as [|a rest IH]; intros s Inv Hadm; [exact Inv |].
  destruct Hadm as [Ha Hrest]. cbn [play fold_left].
  apply IH; [now apply step_invariant | exact Hrest].
Qed.

Lemma play_status (schedule : list action) : forall (s : system) (job_id status : string),
  invariant s -> admissible_run H schedule s ->
  status_of job_id (job_status (server s)) = Some status ->
  get job_id (job_status (server (play H schedule s))) = None
  \/ exists status',
       status_of job_id (job_status (server (play H schedule s))) = Some status'
       /\ (rank status <= rank status')%nat
       /\ (terminal status -> status' = status).
Proof.
  induction schedule as [|a rest IH]; intros s job_id status Inv Hadm Hst.
  - right. exists status. auto.
  - destruct Hadm as [Ha Hrest]. cbn [play fold_left].
    assert (Hiss : In job_id (issued s)).
    { apply (inv_issued s Inv). left. apply mem_get.
      now apply status_of_present in Hst. }
    destruct (step_status H a s job_id status Inv Ha Hst) as [Hn | (st1 & H1 & Hr1 & Ht1)].
    + left. apply play_absent; [exact Hrest | now apply step_issued | exact Hn].
    + destruct (IH (step H a s) job_id st1 (step_invariant H a s Inv Ha) Hrest H1)
        as [Hn | (st2 & H2 & Hr2 & Ht2)]; [now left |].
      right. exists st2. split; [exact H2 |]. split; [lia |].
      intros Hterm. specialize (Ht1 Hterm). subst st1. now apply Ht2.
Qed.

End Schedules.

Lemma reachable_play (H : Host) (schedule : list action) : forall s,
  reachable H s -> admissible_run H schedule s -> reachable H (play H schedule s).
Proof.
  induction schedule as [|a rest IH]; intros s Hr Hadm; [exact Hr |].
  destruct Hadm as [Ha Hrest]. cbn [play fold_left].
  apply IH; [now constructor | exact Hrest].
Qed.

(** C2 as stated fails: neither [update_job_status] nor [submit_code] looks
    at the current status. Code submitted to a job that is [completed] sets
    its status back to [processing], and an update sets whatever status it
    is given. *)
Lemma terminal_status_is_overwritten :
  status_of "j1" (job_status (server Example.completed_system)) = Some "completed"
  /\ status_of "j1"
       (job_status (server (step Posix.host (SubmitCode "j1" "print(2)")
                              Example.completed_system)))
     = Some "processing"
  /\ status_of "j1"
       (update_job_status "j1" "running" []
          (job_status (server Example.completed_system)))
     = Some "running".
Proof. vm_compute. repeat split. Qed.

(** C2, amended. In every run of the service in which code is submitted
    to a job only while its status is [uploaded] (the code does not
    check this) and [uuid4] never draws an identifier twice, whatever the
    uploads, submissions, beginnings and ends of executions, sweeps and
    deletions that follow: a job either is gone from the registry or has a
    status at least as far in the lifecycle [uploaded], [processing],
    [running], terminal as before, and a status that was [completed],
    [failed] or [timeout] is the same. *)
Theorem lifecycle_is_monotone (H : Host) (s : system) (schedule : list action)
    (job_id status : string) :
  reachable H s ->
  admissible_run H schedule s ->
  status_of job_id (job_status (server s)) = Some status ->
  get job_id (job_status (server (play H schedule s))) = None
  \/ exists status',
       status_of job_id (job_status (server (play H schedule s))) = Some status'
       /\ (rank status <= rank status')%nat
       /\ (terminal status -> status' = status).
Proof.
  intros Hr Hadm Hst.
  apply (play_status H schedule s job_id status); auto.
  now apply reachable_invariant with (H := H).
Qed.

(** C2, at the completed job of the example, followed by a second upload,
    a submission to the new job, its execution that times out, and a
    sweep. *)
Lemma lifecycle_is_monotone_witness :
  let later :=
    [Upload "j2" "2024-01-01T09:00:00" "more.csv" [x31];
     SubmitCode "j2" "print(3)";
     Begin 0;
     Finish 0 (Launches (TimesOut None [] []));
     Sweep 1704100000000000] in
  get "j1" (job_status (server (play Posix.host later Example.completed_system))) = None
  \/ exists status',
       status_of "j1" (job_status (server (play Posix.host later Example.completed_system)))
       = Some status'
       /\ (rank "completed" <= rank status')%nat
       /\ (terminal "completed" -> status' = "completed").
Proof.
  cbv zeta.
  apply (lifecycle_is_monotone Posix.host Example.completed_system).
  - apply (reachable_play Posix.host Example.completed_run initial).
    + constructor.
    + vm_compute. intuition.
  - vm_compute. intuition discriminate.
  - vm_compute. reflexivity.
Defined.

(** * Part III: further properties *)

(** ** The registry operations *)

Lemma after_last_dot_none (filename : string) :
  after_last_dot filename = None <-> Str.contains "." filename = false.
Proof.
  induction filename as [|a rest IH]; [split; reflexivity |].
  cbn [after_last_dot Str.contains Str.startswith].
  destruct (after_last_dot rest) as [ext|].
  - split; [discriminate |]. intros Hc. apply orb_false_iff in Hc as [_ Hc].
    apply IH in Hc. discriminate.
  - rewrite (proj1 IH eq_refl), orb_false_r, andb_true_r.
    destruct (Ascii.eqb_spec a ".") as [-> | Hne]; [split; discriminate |].
    split; [intros _ | reflexivity].
    destruct (Ascii.eqb_spec "." a) as [<- | _]; [contradiction | reflexivity].
Qed.

Lemma after_last_dot_some (filename ext : string) :
  after_last_dot filename = Some ext <->
  exists stem, filename = stem +:+ "." +:+ ext /\ after_last_dot ext = None.
Proof.
  revert ext. induction filename as [|a rest IH]; intros ext.
  - split; [discriminate | intros (stem & Hs & _); destruct stem; discriminate].
  - cbn [after_last_dot]. destruct (after_last_dot rest) as [ext'|] eqn:E.
    + split.
      * intros [= <-]. destruct (proj1 (IH ext') eq_refl) as (stem & -> & Hn).
        exists (String a stem). now split.
      * intros (stem & Hs & Hn). destruct stem as [|c stem]; cbn in Hs.
        -- injection Hs as -> ->. congruence.
        -- injection Hs as -> Hrest.
           apply IH. exists stem. split; [exact Hrest | exact Hn].
    + destruct (Ascii.eqb_spec a ".") as [-> | Hne].
      * split.
        -- intros [= <-]. exists "". now split.
        -- intros (stem & Hs & Hn). destruct stem as [|c stem]; cbn in Hs.
           ++ now injection Hs as ->.
           ++ injection Hs as _ Hrest.
              assert (Hx : None = Some ext)
                by (apply IH; exists stem; split; [exact Hrest | exact Hn]).
              discriminate.
      * split; [discriminate |].
        intros (stem & Hs & Hn). destruct stem as [|c stem]; cbn in Hs.
        -- injection Hs as -> ->. contradiction.
        -- injection Hs as _ Hrest.
           assert (Hx : None = Some ext)
             by (apply IH; exists stem; split; [exact Hrest | exact Hn]).
           discriminate.
Qed.

(** X1. [allowed_file] accepts a name exactly when it has a dot and the text
    after its last dot, lowered, is one of the allowed extensions. A name
    without a dot is refused. *)
Theorem allowed_file_spec (lower : string -> string) (filename : string)
    (allowed_extensions : list string) :
  allowed_file lower filename allowed_extensions = true
  <-> exists stem ext,
        filename = stem +:+ "." +:+ ext
        /\ ~ Str.occurs_in "." ext
        /\ In (lower ext) allowed_extensions.
Proof.
  unfold allowed_file. split.
  - destruct (after_last_dot filename) as [ext|] eqn:E; [| discriminate].
    intros Hex. apply after_last_dot_some in E as (stem & -> & Hn).
    exists stem, ext. split; [reflexivity |]. split.
    + intros Hocc. apply contains_spec in Hocc.
      apply after_last_dot_none in Hn. congruence.
    + apply existsb_exists in Hex as (x & Hin & Hx).
      apply String.eqb_eq in Hx. now subst x.
  - intros (stem & ext & -> & Hn & Hin).
    assert (E : after_last_dot (stem +:+ "." +:+ ext) = Some ext).
    { apply after_last_dot_some. exists stem. split; [reflexivity |].
      apply after_last_dot_none. destruct (Str.contains "." ext) eqn:Hc; [| reflexivity].
      apply contains_spec in Hc. contradiction. }
    rewrite E. apply existsb_exists. exists (lower ext). split; [exact Hin |].
    apply String.eqb_refl.
Qed.

Lemma set_absent {V} (k : string) (v : V) (d : dict V) :
  get k d = None -> set k v d = d ++ [(k, v)].
Proof.
  induction d as [|[k' v'] d IH]; simpl; [reflexivity |].
  destruct (String.eqb k' k); [discriminate |]. intros Hn. now rewrite IH.
Qed.

Lemma del_set {V} (k : string) (v : V) (d : dict V) : del k (set k v d) = del k d.
Proof.
  induction d as [|[k' v'] d IH]; simpl.
  - now rewrite String.eqb_refl.
  - destruct (String.eqb k' k) eqn:E; simpl; rewrite E; [reflexivity | now rewrite IH].
Qed.

Lemma delete_created (job_id timestamp filename file_path : string) (reg : registry) :
  get job_id reg = None ->
  delete_job job_id (create_job job_id timestamp filename file_path reg) = reg.
Proof.
  intros Hn. unfold delete_job, create_job, mem. rewrite get_set_eq.
  rewrite del_set. now apply del_absent.
Qed.

(** X2. [create_job] with an identifier that is not in the registry puts the
    new record, with status [uploaded], at the end of the registry and
    leaves every other record as it was; [delete_job] on it gives the
    registry back. *)
Theorem create_job_round_trip (job_id timestamp filename file_path : string)
    (reg : registry) :
  get job_id reg = None ->
  get job_id (create_job job_id timestamp filename file_path reg)
  = Some [("id", job_id); ("filename", filename); ("status", "uploaded");
          ("timestamp", timestamp); ("file_path", file_path)]
  /\ keys (create_job job_id timestamp filename file_path reg) = keys reg ++ [job_id]
  /\ (forall other, other <> job_id ->
        get other (create_job job_id timestamp filename file_path reg) = get other reg)
  /\ delete_job job_id (create_job job_id timestamp filename file_path reg) = reg.
Proof.
  intros Hn. unfold create_job. repeat split.
  - apply get_set_eq.
  - rewrite (set_absent _ _ _ Hn). unfold keys. now rewrite map_app.
  - intros other Hne. apply get_set_ne. congruence.
  - now apply delete_created.
Qed.

Lemma create_job_round_trip_witness :
  get "j2" (create_job "j2" "2024-01-02T00:00:00" "b.csv" "" Example.uploaded)
  = Some [("id", "j2"); ("filename", "b.csv"); ("status", "uploaded");
          ("timestamp", "2024-01-02T00:00:00"); ("file_path", "")]
  /\ keys (create_job "j2" "2024-01-02T00:00:00" "b.csv" "" Example.uploaded)
     = keys Example.uploaded ++ ["j2"]
  /\ (forall other, other <> "j2" ->
        get other (create_job "j2" "2024-01-02T00:00:00" "b.csv" "" Example.uploaded)
        = get other Example.uploaded)
  /\ delete_job "j2" (create_job "j2" "2024-01-02T00:00:00" "b.csv" "" Example.uploaded)
     = Example.uploaded.
Proof.
  apply (create_job_round_trip "j2" "2024-01-02T00:00:00" "b.csv" "" Example.uploaded).
  reflexivity.
Defined.

Lemma del_keys {V} (k : string) (d : dict V) :
  keys (del k d) = List.filter (fun k' => negb (String.eqb k' k)) (keys d).
Proof.
  induction d as [|[k' v'] d IH]; [reflexivity |]. cbn [del keys map fst List.filter].
  destruct (String.eqb k' k); cbn [negb]; [exact IH |].
  unfold keys in *. cbn [map fst]. now rewrite IH.
Qed.

(** X3. [delete_job] removes the record of the identifier and nothing else:
    the other records and their order stay; on an identifier that is not
    registered it returns the registry as it is, so deleting twice is
    deleting once. *)
Theorem delete_job_spec (job_id : string) (reg : registry) :
  get job_id (delete_job job_id reg) = None
  /\ (forall other, other <> job_id ->
        get other (delete_job job_id reg) = get other reg)
  /\ keys (delete_job job_id reg)
     = List.filter (fun k => negb (String.eqb k job_id)) (keys reg)
  /\ (get job_id reg = None -> delete_job job_id reg = reg)
  /\ delete_job job_id (delete_job job_id reg) = delete_job job_id reg.
Proof.
  assert (Hn : get job_id reg = None -> delete_job job_id reg = reg).
  { intros E. unfold delete_job, mem. now rewrite E. }
  assert (Hg : get job_id (delete_job job_id reg) = None).
  { unfold delete_job, mem. destruct (get job_id reg) eqn:E; [apply get_del_eq | exact E]. }
  repeat split; auto.
  - intros other Hne. unfold delete_job. destruct (mem job_id reg); [| reflexivity].
    apply get_del_ne. congruence.
  - unfold delete_job, mem. destruct (get job_id reg) eqn:E; [apply del_keys |].
    rewrite <- del_keys. now rewrite del_absent.
  - unfold delete_job at 1. unfold mem. now rewrite Hg.
Qed.

Lemma assign_get_in (kwargs : dict string) : forall (j : job) (k v : string),
  List.NoDup (keys kwargs) -> In (k, v) kwargs -> get k (assign kwargs j) = Some v.
Proof.
  induction kwargs as [|[k0 v0] kwargs IH]; intros j k v Hnd Hin; [destruct Hin |].
  cbn in Hnd. inversion Hnd as [|? ? Hnin Hnd']; subst.
  cbn [assign fold_left fst snd]. destruct Hin as [[= -> ->] | Hin].
  - fold (assign kwargs (set k v j)). rewrite assign_get_other by assumption.
    apply get_set_eq.
  - now apply (IH (set k0 v0 j)).
Qed.

(** X4. [update_job_status] on a registered job stores what it is given:
    afterwards the record holds the new status and, under each keyword, the
    value passed for it. *)
Theorem update_job_status_stores (job_id status : string) (kwargs : dict string)
    (reg : registry) (j : job) :
  get job_id reg = Some j ->
  List.NoDup (keys kwargs) ->
  ~ In "status" (keys kwargs) ->
  exists j',
    get job_id (update_job_status job_id status kwargs reg) = Some j'
    /\ get "status" j' = Some status
    /\ forall k v, In (k, v) kwargs -> get k j' = Some v.
Proof.
  intros Hj Hnd Hs. eexists. split; [exact (update_get_same _ _ _ _ _ Hj) |]. split.
  - rewrite assign_get_other by assumption. apply get_set_eq.
  - intros k v Hin. now apply assign_get_in.
Qed.

Lemma update_job_status_stores_witness :
  exists j',
    get "j1" (update_job_status "j1" "running" [("stdout", "a"); ("stderr", "b")]
                Example.uploaded) = Some j'
    /\ get "status" j' = Some "running"
    /\ forall k v, In (k, v) [("stdout", "a"); ("stderr", "b")] -> get k j' = Some v.
Proof.
  apply (update_job_status_stores "j1" "running" [("stdout", "a"); ("stderr", "b")]
           Example.uploaded (get_job_status "j1" Example.uploaded)).
  - reflexivity.
  - cbn. repeat constructor; cbn; intuition discriminate.
  - cbn. intuition discriminate.
Defined.


(** ** What is written where *)

Lemma writes_only_refl fields job_id reg : writes_only fields job_id reg reg.
Proof. repeat split; eauto. Qed.

Lemma writes_only_trans fields job_id r1 r2 r3 :
  writes_only fields job_id r1 r2 -> writes_only fields job_id r2 r3 ->
  writes_only fields job_id r1 r3.
Proof.
  intros (Ho1 & Hn1 & Hj1) (Ho2 & Hn2 & Hj2). repeat split.
  - intros other Hne. now rewrite Ho2, Ho1.
  - auto.
  - intros j Hj. destruct (Hj1 j Hj) as (j1 & E1 & K1).
    destruct (Hj2 j1 E1) as (j2 & E2 & K2).
    exists j2. split; [exact E2 |]. intros key Hk. now rewrite K2, K1.
Qed.

Lemma writes_only_store fields job_id key value reg :
  In key fields -> writes_only fields job_id reg (store job_id key value reg).
Proof.
  intros Hin. repeat split.
  - intros other Hne. now apply store_get_other.
  - intros Hn. now rewrite store_absent.
  - intros j Hj. exists (set key value j). split; [now apply store_get_same |].
    intros k Hk. apply get_set_ne. intros ->. contradiction.
Qed.

Lemma writes_only_update fields job_id status kwargs reg :
  In "status" fields -> incl (keys kwargs) fields ->
  writes_only fields job_id reg (update_job_status job_id status kwargs reg).
Proof.
  intros Hs Hk. repeat split.
  - intros other Hne. now apply update_get_other.
  - intros Hn. now rewrite update_absent.
  - intros j Hj. exists (assign kwargs (set "status" status j)).
    split; [now apply update_get_same |].
    intros key Hkey. rewrite assign_get_other.
    + apply get_set_ne. intros E. subst key. contradiction.
    + intros Hin. apply Hkey. now apply Hk.
Qed.

Lemma writes_only_keeps fields x job_id reg reg' :
  (forall key, In key upload_fields -> ~ In key fields) ->
  writes_only fields x reg reg' -> keeps_upload_fields job_id reg reg'.
Proof.
  intros Hd (Ho & Hn & Hj). destruct (decide (job_id = x)) as [-> | Hne].
  - split; [exact Hn |]. intros j E. right. destruct (Hj j E) as (j' & E' & K).
    exists j'. split; [exact E' |]. intros key Hk. apply K. now apply Hd.
  - unfold keeps_upload_fields. rewrite (Ho _ Hne).
    split; [auto |]. intros j E. right. exists j. auto.
Qed.

Lemma drops_keeps job_id reg reg' : drops reg reg' -> keeps_upload_fields job_id reg reg'.
Proof.
  intros Hd. unfold keeps_upload_fields. destruct (Hd job_id) as [E | E]; rewrite E.
  - split; [auto |]. intros j Hj. right. exists j. auto.
  - split; [auto |]. intros j Hj. now left.
Qed.

Lemma keeps_upload_fields_refl job_id reg : keeps_upload_fields job_id reg reg.
Proof. split; [auto |]. intros j Hj. right. exists j. auto. Qed.

Lemma keeps_upload_fields_trans job_id r1 r2 r3 :
  keeps_upload_fields job_id r1 r2 -> keeps_upload_fields job_id r2 r3 ->
  keeps_upload_fields job_id r1 r3.
Proof.
  intros [Hn1 Hj1] [Hn2 Hj2]. split; [auto |].
  intros j Hj. destruct (Hj1 j Hj) as [E | (j1 & E1 & K1)]; [left; auto |].
  destruct (Hj2 j1 E1) as [E | (j2 & E2 & K2)]; [now left |].
  right. exists j2. split; [exact E2 |]. intros key Hk. now rewrite K2, K1.
Qed.

Ltac fields_apart :=
  let key := fresh "key" in
  intros key; unfold upload_fields;
  cbn [In]; intuition (subst; discriminate).

Ltac listed := unfold incl; cbn; tauto.


(** ** The upload *)

Section UploadFacts.

Variable H : Host.

(** [upload_file] once the name has passed the two checks. *)
Lemma upload_file_checked job_id ts filename data st :
  filename <> "" ->
  allowed_file (str_lower H) filename ALLOWED_EXTENSIONS = true ->
  upload_file H job_id ts filename data st
  = let reg := create_job job_id ts (basename H filename) "" (job_status st) in
    let file_path :=
      path_join H (UPLOAD_FOLDER H) (job_id +:+ "_" +:+ basename H filename) in
    if Z.of_nat (length data) >? MAX_UPLOAD_SIZE then
      (Raise (HTTPException 400 "File too large. Maximum size: 50.0MB"),
       State (delete_job job_id reg) (files st) (background_tasks st))
    else
      match write_file file_path (String.string_of_list_byte data) (files st) with
      | (Ok _, d) =>
          (Ok (Returned [("job_id", job_id); ("status", "uploaded");
                         ("message", "File uploaded successfully")]),
           State (store job_id "file_path" file_path reg) d (background_tasks st))
      | (Raise e, d) => (Raise e, State reg d (background_tasks st))
      end.
Proof.
  intros Hne Hal. unfold upload_file.
  destruct (String.eqb_spec filename "") as [-> | _]; [contradiction |].
  rewrite Hal. cbn [negb]. cbv zeta.
  unfold bind, on_registry, on_files, modify, raise, ret.
  cbn [job_status files background_tasks].
  destruct (Z.of_nat (length data) >? MAX_UPLOAD_SIZE); [reflexivity |].
  cbn [job_status files background_tasks].
  match goal with
  | |- context [write_file ?a ?b ?c] => destruct (write_file a b c) as [[[]|e] d]
  end; reflexivity.
Qed.

(** X5. An upload that is refused leaves nothing behind: with an empty
    name, a name whose extension is not allowed, or more than
    [MAX_UPLOAD_SIZE] bytes, [upload_file] raises a 400 and the registry, the
    disk and the queue are as before. In the last case the job was created
    and deleted again. *)
Theorem upload_refused_leaves_no_trace (job_id ts filename : string) (data : bytes)
    (st : state) :
  get job_id (job_status st) = None ->
  filename = ""
  \/ allowed_file (str_lower H) filename ALLOWED_EXTENSIONS = false
  \/ MAX_UPLOAD_SIZE < Z.of_nat (length data) ->
  exists detail,
    upload_file H job_id ts filename data st = (Raise (HTTPException 400 detail), st).
Proof.
  intros Hfresh Hbad.
  destruct (String.eqb_spec filename "") as [-> | Hne]; [eexists; reflexivity |].
  destruct (allowed_file (str_lower H) filename ALLOWED_EXTENSIONS) eqn:Hal.
  - destruct Hbad as [-> | [Hf | Hbig]]; [contradiction | discriminate |].
    rewrite (upload_file_checked _ _ _ _ _ Hne Hal). cbv zeta.
    destruct (Z.gtb_spec (Z.of_nat (length data)) MAX_UPLOAD_SIZE) as [_ | Hle]; [| lia].
    eexists. f_equal. destruct st as [reg d q]. cbn [job_status files background_tasks] in *.
    f_equal. now apply delete_created.
  - unfold upload_file.
    destruct (String.eqb_spec filename "") as [-> | _]; [contradiction |].
    rewrite Hal. eexists. reflexivity.
Qed.

(** X6. An upload that passes the checks and whose file can be written
    registers the job with status [uploaded], the base name of the upload and
    the path of the stored file, writes the bytes there, queues nothing and
    answers [uploaded]. *)
Theorem upload_registers_job (job_id ts filename : string) (data : bytes) (st : state) :
  filename <> "" ->
  allowed_file (str_lower H) filename ALLOWED_EXTENSIONS = true ->
  Z.of_nat (length data) <= MAX_UPLOAD_SIZE ->
  (forall es,
     files st !! path_join H (UPLOAD_FOLDER H) (job_id +:+ "_" +:+ basename H filename)
     <> Some (Dir es)) ->
  let file_path :=
    path_join H (UPLOAD_FOLDER H) (job_id +:+ "_" +:+ basename H filename) in
  exists st',
    upload_file H job_id ts filename data st
    = (Ok (Returned [("job_id", job_id); ("status", "uploaded");
                     ("message", "File uploaded successfully")]), st')
    /\ get job_id (job_status st')
       = Some [("id", job_id); ("filename", basename H filename);
               ("status", "uploaded"); ("timestamp", ts); ("file_path", file_path)]
    /\ (forall other, other <> job_id ->
          get other (job_status st') = get other (job_status st))
    /\ files st' = <[file_path := File (String.string_of_list_byte data)]> (files st)
    /\ background_tasks st' = background_tasks st.
Proof.
  intros Hne Hal Hsize Hdir file_path.
  rewrite (upload_file_checked _ _ _ _ _ Hne Hal). cbv zeta.
  destruct (Z.gtb_spec (Z.of_nat (length data)) MAX_UPLOAD_SIZE) as [Hgt | _]; [lia |].
  fold file_path.
  assert (Hw : write_file file_path (String.string_of_list_byte data) (files st)
               = (Ok tt, <[file_path := File (String.string_of_list_byte data)]> (files st))).
  { unfold write_file. destruct (files st !! file_path) as [[c|es]|] eqn:E; try reflexivity.
    now destruct (Hdir es). }
  rewrite Hw. eexists. split; [reflexivity |].
  cbn [job_status files background_tasks]. repeat split.
  - erewrite store_get_same by (unfold create_job; apply get_set_eq). reflexivity.
  - intros other Hother. rewrite store_get_other by assumption.
    unfold create_job. apply get_set_ne. congruence.
Qed.

(** X7. When the file cannot be written, the exception leaves
    [upload_file] after [create_job]: the job stays registered, with status
    [uploaded] and an empty [file_path], and nothing is on the disk for
    it. *)
Theorem upload_write_failure_keeps_job (job_id ts filename : string) (data : bytes)
    (st : state) (es : list (string * entry)) :
  filename <> "" ->
  allowed_file (str_lower H) filename ALLOWED_EXTENSIONS = true ->
  Z.of_nat (length data) <= MAX_UPLOAD_SIZE ->
  files st !! path_join H (UPLOAD_FOLDER H) (job_id +:+ "_" +:+ basename H filename)
  = Some (Dir es) ->
  exists e st',
    upload_file H job_id ts filename data st = (Raise e, st')
    /\ get job_id (job_status st')
       = Some [("id", job_id); ("filename", basename H filename);
               ("status", "uploaded"); ("timestamp", ts); ("file_path", "")]
    /\ files st' = files st
    /\ background_tasks st' = background_tasks st.
Proof.
  intros Hne Hal Hsize Hdir.
  rewrite (upload_file_checked _ _ _ _ _ Hne Hal). cbv zeta.
  destruct (Z.gtb_spec (Z.of_nat (length data)) MAX_UPLOAD_SIZE) as [Hgt | _]; [lia |].
  unfold write_file. rewrite Hdir. eexists _, _. split; [reflexivity |].
  cbn [job_status files background_tasks]. repeat split.
  unfold create_job. apply get_set_eq.
Qed.

End UploadFacts.


Lemma upload_refused_leaves_no_trace_witness :
  exists detail,
    upload_file Posix.host "j2" "2024-01-02T00:00:00" "notes.exe" [x61]
      Example.uploaded_state
    = (Raise (HTTPException 400 detail), Example.uploaded_state).
Proof.
  apply (upload_refused_leaves_no_trace Posix.host);
    [reflexivity | right; left; reflexivity].
Defined.

Lemma upload_registers_job_witness :
  exists st',
    upload_file Posix.host "j2" "2024-01-02T00:00:00" "b.csv" [x31] Example.uploaded_state
    = (Ok (Returned [("job_id", "j2"); ("status", "uploaded");
                     ("message", "File uploaded successfully")]), st')
    /\ get "j2" (job_status st')
       = Some [("id", "j2"); ("filename", "b.csv"); ("status", "uploaded");
               ("timestamp", "2024-01-02T00:00:00");
               ("file_path", "/tmp/file_processor/uploads/j2_b.csv")]
    /\ (forall other, other <> "j2" ->
          get other (job_status st') = get other (job_status Example.uploaded_state))
    /\ files st'
       = <["/tmp/file_processor/uploads/j2_b.csv" := File "1"]>
           (files Example.uploaded_state)
    /\ background_tasks st' = background_tasks Example.uploaded_state.
Proof.
  apply (upload_registers_job Posix.host "j2" "2024-01-02T00:00:00" "b.csv" [x31]
           Example.uploaded_state).
  - discriminate.
  - reflexivity.
  - vm_compute. discriminate.
  - intros es. vm_compute. discriminate.
Defined.

Lemma upload_write_failure_keeps_job_witness :
  exists e st',
    upload_file Posix.host "j2" "2024-01-02T00:00:00" "b.csv" [x31] Example.blocked_upload
    = (Raise e, st')
    /\ get "j2" (job_status st')
       = Some [("id", "j2"); ("filename", "b.csv"); ("status", "uploaded");
               ("timestamp", "2024-01-02T00:00:00"); ("file_path", "")]
    /\ files st' = files Example.blocked_upload
    /\ background_tasks st' = background_tasks Example.blocked_upload.
Proof.
  apply (upload_write_failure_keeps_job Posix.host "j2" "2024-01-02T00:00:00" "b.csv"
           [x31] Example.blocked_upload []).
  - discriminate.
  - reflexivity.
  - vm_compute. discriminate.
  - vm_compute. reflexivity.
Defined.

(** ** The endpoints *)

Section EndpointFacts.

Variable H : Host.

Lemma submitted_writes job_id reg :
  writes_only ["status"; "code_path"; "result_path"] job_id reg (submitted H job_id reg).
Proof.
  unfold submitted.
  eapply writes_only_trans; [eapply writes_only_trans |];
    apply writes_only_store; cbn; tauto.
Qed.

(** X8. [submit_code] touches one job: it adds and removes no record and
    keeps the order of the registry; the records of the other jobs are the
    same and, in the record of its job, every field other than [status],
    [code_path] and [result_path] reads as before; it queues at most one
    execution, for the job it was called with. For an unknown identifier it
    raises a 404 and changes nothing. *)
Theorem submit_code_frame (job_id : string) (cs : CodeSubmission) (st : state) :
  keys (job_status (snd (submit_code H job_id cs st))) = keys (job_status st)
  /\ writes_only ["status"; "code_path"; "result_path"] job_id
       (job_status st) (job_status (snd (submit_code H job_id cs st)))
  /\ (background_tasks (snd (submit_code H job_id cs st)) = background_tasks st
      \/ exists t,
           task_job_id t = job_id
           /\ background_tasks (snd (submit_code H job_id cs st))
              = background_tasks st ++ [t])
  /\ (get job_id (job_status st) = None ->
      submit_code H job_id cs st = (Raise (HTTPException 404 "Job not found"), st)).
Proof.
  destruct (submit_code H job_id cs st) as [r st'] eqn:E. cbn [snd].
  apply submit_code_cases in E.
  destruct E as [(Hn & -> & ->)
                | (j & Hj & [(_ & Hr & Ht) | [(_ & _ & Hr & Ht) | (fp & _ & _ & Hr & Ht)]])].
  - split; [reflexivity |]. split; [apply writes_only_refl |].
    split; [now left | reflexivity].
  - rewrite Hr, Ht. split; [reflexivity |]. split; [apply writes_only_refl |].
    split; [now left | congruence].
  - rewrite Hr, Ht. split; [apply submitted_keys |]. split; [apply submitted_writes |].
    split; [now left | congruence].
  - rewrite Hr, Ht. split; [apply submitted_keys |]. split; [apply submitted_writes |].
    split; [| congruence].
    right. eexists. split; [| reflexivity]. reflexivity.
Qed.

(** X9. The two reading endpoints change nothing: whatever they answer or
    raise, the registry, the disk and the queue are as before. *)
Theorem reading_endpoints_change_nothing (job_id output_format : string) (st : state) :
  snd (get_status job_id st) = st
  /\ snd (get_results H job_id output_format st) = st.
Proof.
  split.
  - unfold get_status, bind, gets, from_option. cbn.
    now destruct (get job_id (job_status st)).
  - unfold get_results, bind, gets, field, from_option, lift_result. cbn.
    destruct (get job_id (job_status st)) as [j|]; [| reflexivity].
    destruct (get "status" j) as [status|]; [| reflexivity]. cbn.
    destruct (negb (String.eqb status "completed")); [reflexivity |].
    destruct (get "result_path" j) as [rp|]; [| reflexivity]. cbn.
    destruct (os_listdir rp (files st)) as [entries|e]; [| reflexivity].
    destruct (map fst (List.filter is_regular entries)) as [|first rest]; [reflexivity |].
    destruct (preferred H job_id output_format rp (first :: rest)); [reflexivity |].
    destruct (List.filter is_json (first :: rest)) as [|f l]; [reflexivity |].
    destruct (read_entry f entries) as [text|]; [| reflexivity]. cbn.
    destruct (json_accepts H text); [| reflexivity].
    destruct (render_error H text); reflexivity.
Qed.

Lemma preferred_other job_id fmt rp l :
  fmt <> "csv" -> fmt <> "excel" -> preferred H job_id fmt rp l = None.
Proof.
  intros Hc He. unfold preferred.
  destruct (String.eqb_spec fmt "csv"); [contradiction |].
  destruct (String.eqb_spec fmt "excel"); [contradiction | reflexivity].
Qed.

(** X10. The format is a hint with two values: with any [output_format]
    other than [csv] and [excel], [get_results] does what it does for
    [json]. *)
Theorem get_results_other_format_is_json (job_id output_format : string) (st : state) :
  output_format <> "csv" -> output_format <> "excel" ->
  get_results H job_id output_format st = get_results H job_id "json" st.
Proof.
  intros Hc He. unfold get_results, bind, gets, field, from_option, lift_result. cbn.
  destruct (get job_id (job_status st)) as [j|]; [| reflexivity].
  destruct (get "status" j) as [status|]; [| reflexivity]. cbn.
  destruct (negb (String.eqb status "completed")); [reflexivity |].
  destruct (get "result_path" j) as [rp|]; [| reflexivity]. cbn.
  destruct (os_listdir rp (files st)) as [entries|e]; [| reflexivity].
  destruct (map fst (List.filter is_regular entries)) as [|first rest]; [reflexivity |].
  rewrite (preferred_other _ _ _ _ Hc He). reflexivity.
Qed.

(** X11. A completed job whose result directory holds no regular file (it
    may hold sub-directories) has no result: [get_results] raises a 404,
    whatever the format asked for. *)
Theorem get_results_without_files (job_id output_format : string) (st : state)
    (j : job) (rp : string) (entries : list (string * entry)) :
  get job_id (job_status st) = Some j ->
  get "status" j = Some "completed" ->
  get "result_path" j = Some rp ->
  files st !! rp = Some (Dir entries) ->
  (forall e, In e entries -> snd e = NotAFile) ->
  get_results H job_id output_format st
  = (Raise (HTTPException 404 "No results found"), st).
Proof.
  intros Hj Hs Hrp Hd Hnone.
  apply (get_results_empty H _ _ _ _ _ _ Hj Hs Hrp Hd).
  assert (Hf : List.filter is_regular entries = []).
  { clear Hd. induction entries as [|e entries IH]; [reflexivity |]. cbn.
    unfold is_regular at 1. rewrite (Hnone e) by now left.
    apply IH. intros e' He'. apply Hnone. now right. }
  now rewrite Hf.
Qed.

End EndpointFacts.


Lemma get_results_other_format_is_json_witness :
  get_results Posix.host "j1" "pdf" Example.with_results
  = get_results Posix.host "j1" "json" Example.with_results.
Proof.
  apply (get_results_other_format_is_json Posix.host "j1" "pdf" Example.with_results);
    discriminate.
Defined.

Lemma get_results_without_files_witness :
  get_results Posix.host "j1" "csv" Example.without_results
  = (Raise (HTTPException 404 "No results found"), Example.without_results).
Proof.
  apply (get_results_without_files Posix.host "j1" "csv" Example.without_results
           [("id", "j1"); ("filename", "data.csv"); ("status", "completed");
            ("timestamp", "2024-01-01T00:00:00");
            ("file_path", "/tmp/file_processor/uploads/j1_data.csv");
            ("code_path", "/tmp/file_processor/code/j1_process.py");
            ("result_path", "/tmp/file_processor/results/j1");
            ("docker_cmd", Str.join " "
               (docker_cmd_of Posix.host "/tmp/file_processor/uploads/j1_data.csv"
                  "/tmp/file_processor/code/j1_process.py"
                  "/tmp/file_processor/results/j1" MAX_EXECUTION_TIME));
            ("stdout", ""); ("stderr", "")]
           "/tmp/file_processor/results/j1" [("cache", NotAFile)]).
  - vm_compute. reflexivity.
  - reflexivity.
  - reflexivity.
  - vm_compute. reflexivity.
  - intros e [<- | []]. reflexivity.
Defined.

(** ** Deleting a job and sweeping *)

Section CleanupFacts.

Variable H : Host.

(** X12. [cleanup_job] on a registered job whose artifacts the removal
    calls accept removes the record and the paths it names, leaves the other
    records, the other paths and the queue as they were, and answers with
    the message of success. *)
Theorem cleanup_job_removes (job_id : string) (st : state) (j : job) :
  get job_id (job_status st) = Some j ->
  removable (files st) j ->
  exists st',
    cleanup_job H job_id st
    = (Ok (Returned [("message", "Job " +:+ job_id +:+ " cleaned up successfully")]), st')
    /\ get job_id (job_status st') = None
    /\ (forall other, other <> job_id ->
          get other (job_status st') = get other (job_status st))
    /\ (forall p, In p (artifact_paths j) -> files st' !! p = None)
    /\ (forall p, ~ In p (artifact_paths j) -> files st' !! p = files st !! p)
    /\ background_tasks st' = background_tasks st.
Proof.
  intros Hj Hrm. unfold cleanup_job, bind, gets, mem. rewrite Hj. cbn [negb].
  unfold try_except, bind. rewrite (cleanup_job_files_run _ _ _ Hj).
  destruct (remove_artifacts job_id st) as [r s1] eqn:E.
  apply (remove_artifacts_effect _ _ j) in E as ((Hr & Ht & Hf) & Hnone & Hok);
    [| exact Hj].
  rewrite (Hok Hrm) in *. cbn [ret on_registry modify].
  eexists. split; [reflexivity |]. cbn [job_status files background_tasks].
  rewrite Hr. unfold delete_job, mem. rewrite Hj. repeat split.
  - apply get_del_eq.
  - intros other Hne. apply get_del_ne. congruence.
  - now apply Hnone.
  - intros p Hp. destruct (Hf p) as [E | [_ Hin]]; [exact E | contradiction].
  - exact Ht.
Qed.

(** X13. [cleanup_job] refuses without deleting anything: an unknown
    identifier gives a 404; a job whose input path is a directory, so that
    [os.remove] raises, gives a 500 whose detail wraps the inner 500, and
    the record stays with its artifacts. *)
Theorem cleanup_job_refusals (job_id : string) (st : state) :
  (get job_id (job_status st) = None ->
   cleanup_job H job_id st = (Raise (HTTPException 404 "Job not found"), st))
  /\ (forall j p es,
        get job_id (job_status st) = Some j ->
        get "file_path" j = Some p ->
        files st !! p = Some (Dir es) ->
        cleanup_job H job_id st
        = (Raise (HTTPException 500
                    ("Error cleaning up job: "
                     +:+ exc_str H (HTTPException 500 "Error cleaning up job files"))),
           st)).
Proof.
  split.
  - intros Hn. unfold cleanup_job, bind, gets, mem. now rewrite Hn.
  - intros j p es Hj Hp Hd. unfold cleanup_job, bind, gets, mem. rewrite Hj. cbn [negb].
    unfold try_except, bind. rewrite (cleanup_job_files_run _ _ _ Hj).
    unfold remove_artifacts, bind.
    rewrite (remove_artifact_run _ _ _ _ _ Hj), Hp.
    unfold os_path_exists, on_files, os_remove. rewrite Hd.
    destruct st as [reg d q]. reflexivity.
Qed.

(** X14. [cleanup_job_files] never raises and only removes from the disk:
    the registry and the queue are as before and every path is as before or
    gone. For an unknown identifier it returns [False] and changes nothing;
    for a job whose artifacts the removal calls accept it returns [True] and
    the paths the record names are gone. *)
Theorem cleanup_job_files_effect (job_id : string) (st : state) :
  exists b st',
    cleanup_job_files job_id st = (Ok b, st')
    /\ job_status st' = job_status st
    /\ background_tasks st' = background_tasks st
    /\ (forall p, files st' !! p = files st !! p \/ files st' !! p = None)
    /\ (get job_id (job_status st) = None -> b = false /\ st' = st)
    /\ (forall j, get job_id (job_status st) = Some j -> removable (files st) j ->
          b = true /\ forall p, In p (artifact_paths j) -> files st' !! p = None).
Proof.
  destruct (get job_id (job_status st)) as [j|] eqn:Hj.
  - rewrite (cleanup_job_files_run _ _ _ Hj).
    destruct (remove_artifacts job_id st) as [r s1] eqn:E.
    apply (remove_artifacts_effect _ _ j) in E as ((Hr & Ht & Hf) & Hnone & Hok);
      [| exact Hj].
    assert (Hshrink : forall p, files s1 !! p = files st !! p \/ files s1 !! p = None).
    { intros p. destruct (Hf p) as [E | [E _]]; auto. }
    destruct r as [[]|e]; eexists _, _; (split; [reflexivity |]);
      (split; [exact Hr |]); (split; [exact Ht |]); (split; [exact Hshrink |]);
      (split; [discriminate |]); intros j' Hj' Hrm;
      assert (j' = j) as -> by congruence.
    + split; [reflexivity |]. now apply Hnone.
    + discriminate (Hok Hrm).
  - exists false, st. unfold cleanup_job_files, bind, gets, mem. rewrite Hj.
    repeat split; auto; discriminate.
Qed.

Lemma jobs_to_delete_raises cutoff reg :
  (exists job_id j, In (job_id, j) reg /\ forall t, ~ stamped H j t) ->
  exists e, jobs_to_delete H cutoff reg = Raise e.
Proof.
  induction reg as [|[id j0] reg IH]; intros (job_id & j & Hin & Hbad); [destruct Hin |].
  cbn [jobs_to_delete].
  destruct (get "timestamp" j0) as [ts|] eqn:Hts; [| eauto].
  destruct (fromisoformat H ts) as [t|] eqn:Ht; [| eauto].
  destruct Hin as [[= -> ->] | Hin].
  - destruct (Hbad t). now exists ts.
  - destruct IH as [e ->]; [now exists job_id, j | eauto].
Qed.

(** X15. One record without a readable timestamp stops the whole cycle:
    the sweeper then deletes nothing, the records that are old included. *)
Theorem sweep_aborts_on_unreadable_timestamp (now : Z) (st : state)
    (job_id : string) (j : job) :
  In (job_id, j) (job_status st) ->
  (forall t, ~ stamped H j t) ->
  cleanup_old_jobs_cycle H now st = (Ok tt, st).
Proof.
  intros Hin Hbad.
  destruct (jobs_to_delete_raises (now - day) (job_status st)) as [e He];
    [now exists job_id, j |].
  unfold cleanup_old_jobs_cycle, try_except, bind, gets, lift_result. now rewrite He.
Qed.

Lemma purge_all_shrinks ids : forall s p,
  files (purge_all ids s) !! p = files s !! p \/ files (purge_all ids s) !! p = None.
Proof.
  induction ids as [|id ids IH]; intros s p; [now left |].
  cbn [purge_all fold_left]. fold (purge_all ids (snd (purge id s))).
  pose proof (purge_swept s [] s id (swept_start s)) as (_ & _ & Hf).
  destruct (IH (snd (purge id s)) p) as [E | E]; [| now right].
  rewrite E. destruct (Hf p) as [E' | [E' _]]; auto.
Qed.

(** X16. A sweeper cycle never raises, whatever the registry and the disk
    hold, and it only removes: every record is as before or gone, every path
    is as before or gone, and the queue is as before. *)
Theorem sweep_only_removes (now : Z) (st : state) :
  exists st',
    cleanup_old_jobs_cycle H now st = (Ok tt, st')
    /\ (forall job_id, get job_id (job_status st') = get job_id (job_status st)
                       \/ get job_id (job_status st') = None)
    /\ (forall p, files st' !! p = files st !! p \/ files st' !! p = None)
    /\ background_tasks st' = background_tasks st.
Proof.
  destruct (jobs_to_delete H (now - day) (job_status st)) as [ids|e] eqn:E.
  - rewrite (cleanup_cycle_run H _ _ _ E). eexists. split; [reflexivity |].
    destruct (purge_all_drops ids st) as [Ht Hd].
    repeat split; [exact Hd | apply purge_all_shrinks | exact Ht].
  - exists st. unfold cleanup_old_jobs_cycle, try_except, bind, gets, lift_result.
    rewrite E. repeat split; auto; intros; now left.
Qed.

End CleanupFacts.


Lemma cleanup_job_removes_witness :
  exists st',
    cleanup_job Posix.host "j1" Example.uploaded_state
    = (Ok (Returned [("message", "Job j1 cleaned up successfully")]), st')
    /\ get "j1" (job_status st') = None
    /\ (forall other, other <> "j1" ->
          get other (job_status st') = get other (job_status Example.uploaded_state))
    /\ (forall p, In p ["/tmp/file_processor/uploads/j1_data.csv"] -> files st' !! p = None)
    /\ (forall p, ~ In p ["/tmp/file_processor/uploads/j1_data.csv"] ->
          files st' !! p = files Example.uploaded_state !! p)
    /\ background_tasks st' = background_tasks Example.uploaded_state.
Proof.
  apply (cleanup_job_removes Posix.host "j1" Example.uploaded_state
           [("id", "j1"); ("filename", "data.csv"); ("status", "uploaded");
            ("timestamp", "2024-01-01T00:00:00");
            ("file_path", "/tmp/file_processor/uploads/j1_data.csv")]).
  - vm_compute. reflexivity.
  - repeat split; intros p x Hp; vm_compute in Hp;
      first [discriminate | injection Hp as <-; vm_compute; discriminate].
Defined.

Lemma cleanup_job_refusals_witness :
  cleanup_job Posix.host "old_bad" Example.aged
  = (Raise (HTTPException 500
              "Error cleaning up job: 500: Error cleaning up job files"),
     Example.aged).
Proof.
  apply (proj2 (cleanup_job_refusals Posix.host "old_bad" Example.aged)
           [("id", "old_bad"); ("filename", "a.csv"); ("status", "completed");
            ("timestamp", "2024-01-01T00:00:00"); ("file_path", "/up/old_bad_a.csv");
            ("code_path", "/code/old_bad_process.py")]
           "/up/old_bad_a.csv" []);
    vm_compute; reflexivity.
Defined.

Lemma sweep_aborts_on_unreadable_timestamp_witness :
  cleanup_old_jobs_cycle Posix.host Example.sweep_time Example.unstamped
  = (Ok tt, Example.unstamped).
Proof.
  apply (sweep_aborts_on_unreadable_timestamp Posix.host Example.sweep_time
           Example.unstamped "odd" [("id", "odd"); ("timestamp", "yesterday")]).
  - right. right. right. left. reflexivity.
  - intros t (ts & Hts & Ht). vm_compute in Hts. injection Hts as <-.
    vm_compute in Ht. discriminate.
Defined.

(** ** Upload and deletion *)

Section RoundTrip.

Variable H : Host.

(** X17. An upload followed by the deletion of the job leaves the service
    as it was before the upload: the same registry, in the same order, the
    same disk and the same queue. The identifier is new, the upload passes
    the checks and nothing was stored under its path before. *)
Theorem upload_then_cleanup (job_id ts filename : string) (data : bytes) (st : state) :
  get job_id (job_status st) = None ->
  filename <> "" ->
  allowed_file (str_lower H) filename ALLOWED_EXTENSIONS = true ->
  Z.of_nat (length data) <= MAX_UPLOAD_SIZE ->
  files st !! path_join H (UPLOAD_FOLDER H) (job_id +:+ "_" +:+ basename H filename)
  = None ->
  exists st1,
    upload_file H job_id ts filename data st
    = (Ok (Returned [("job_id", job_id); ("status", "uploaded");
                     ("message", "File uploaded successfully")]), st1)
    /\ cleanup_job H job_id st1
       = (Ok (Returned [("message", "Job " +:+ job_id +:+ " cleaned up successfully")]),
          st).
Proof.
  intros Hfresh Hne Hal Hsize Hfree.
  rewrite (upload_file_checked _ _ _ _ _ _ Hne Hal). cbv zeta.
  destruct (Z.gtb_spec (Z.of_nat (length data)) MAX_UPLOAD_SIZE) as [Hgt | _]; [lia |].
  unfold write_file at 1. rewrite Hfree.
  eexists. split; [reflexivity |].
  set (fp := path_join H (UPLOAD_FOLDER H) (job_id +:+ "_" +:+ basename H filename)) in *.
  set (text := String.string_of_list_byte data).
  set (reg1 := store job_id "file_path" fp
                 (create_job job_id ts (basename H filename) "" (job_status st))).
  assert (Hj : get job_id reg1
               = Some [("id", job_id); ("filename", basename H filename);
                       ("status", "uploaded"); ("timestamp", ts); ("file_path", fp)]).
  { unfold reg1. erewrite store_get_same by (unfold create_job; apply get_set_eq).
    reflexivity. }
  assert (Hdel : delete_job job_id reg1 = job_status st).
  { unfold reg1, store, create_job. rewrite get_set_eq.
    unfold delete_job, mem. rewrite get_set_eq, !del_set. now apply del_absent. }
  set (st1 := State reg1 (<[fp := File text]> (files st)) (background_tasks st)).
  assert (Hj1 : get job_id (job_status st1) = Some
                  [("id", job_id); ("filename", basename H filename);
                   ("status", "uploaded"); ("timestamp", ts); ("file_path", fp)])
    by exact Hj.
  assert (Hrm : remove_artifacts job_id st1
                = (Ok tt, State reg1 (files st) (background_tasks st))).
  { set (st2 := State reg1 (files st) (background_tasks st)).
    assert (H1 : remove_artifact job_id "file_path" os_remove st1 = (Ok tt, st2)).
    { rewrite (remove_artifact_run job_id "file_path" os_remove st1 _ Hj1).
      cbn [get String.eqb Ascii.eqb Bool.eqb].
      unfold os_path_exists, on_files, os_remove. cbn [files st1].
      rewrite lookup_insert_eq. cbn [job_status background_tasks].
      now rewrite (delete_insert_id (files st) fp) by exact Hfree. }
    assert (H2 : remove_artifact job_id "code_path" os_remove st2 = (Ok tt, st2))
      by now rewrite (remove_artifact_run job_id "code_path" os_remove st2 _ Hj).
    assert (H3 : remove_artifact job_id "result_path" shutil_rmtree st2 = (Ok tt, st2))
      by now rewrite (remove_artifact_run job_id "result_path" shutil_rmtree st2 _ Hj).
    unfold remove_artifacts, bind. now rewrite H1, H2, H3. }
  unfold cleanup_job, bind, gets, mem. rewrite Hj1. cbn [negb].
  unfold try_except, bind.
  rewrite (cleanup_job_files_run job_id st1 _ Hj1), Hrm.
  cbn [ret on_registry modify job_status files background_tasks].
  rewrite Hdel.
  now destruct st.
Qed.

End RoundTrip.


Lemma upload_then_cleanup_witness :
  exists st1,
    upload_file Posix.host "j2" "2024-01-02T00:00:00" "b.csv" [x31] Example.uploaded_state
    = (Ok (Returned [("job_id", "j2"); ("status", "uploaded");
                     ("message", "File uploaded successfully")]), st1)
    /\ cleanup_job Posix.host "j2" st1
       = (Ok (Returned [("message", "Job j2 cleaned up successfully")]),
          Example.uploaded_state).
Proof.
  apply (upload_then_cleanup Posix.host "j2" "2024-01-02T00:00:00" "b.csv" [x31]
           Example.uploaded_state).
  - reflexivity.
  - discriminate.
  - reflexivity.
  - vm_compute. discriminate.
  - vm_compute. reflexivity.
Defined.


(** ** The executor and the filter *)

Lemma windows_decode (data : bytes) :
  match data with [] => ret "" | _ => lift_result (decode_utf8 data) end
  = (lift_result (decode_utf8 data) : M sandbox string).
Proof. destruct data; reflexivity. Qed.

(** X18. The two platform branches are the same function of the run as far
    as the result and the registry go: for every run, [_execute_windows] and
    [_execute_unix] return or raise the same and leave the same registry.
    They leave the process in the same state too, except after a timeout on
    a live process: there the Windows branch has waited for the process it
    killed, and the Unix branch returns with the process signalled and not
    waited for. *)
Theorem platform_branches_agree (job_id : string) (cmd : list string) (tm : Z)
    (r : run) (s : sandbox) :
  fst (_execute_windows job_id cmd tm r s) = fst (_execute_unix job_id cmd tm r s)
  /\ registry_of (snd (_execute_windows job_id cmd tm r s))
     = registry_of (snd (_execute_unix job_id cmd tm r s))
  /\ match r with
     | Launches (TimesOut None _ _) =>
         process (snd (_execute_windows job_id cmd tm r s)) = Some Killed
         /\ process (snd (_execute_unix job_id cmd tm r s)) = Some Signalled
     | _ =>
         process (snd (_execute_windows job_id cmd tm r s))
         = process (snd (_execute_unix job_id cmd tm r s))
     end.
Proof.
  destruct r as [e | [c out err | rc out err]].
  - repeat split.
  - unfold _execute_windows, _execute_unix. rewrite !windows_decode. repeat split.
  - destruct rc; repeat split.
Qed.

Section ExecutionFacts.

Variable H : Host.

Lemma exec_finish_total job_id cmd tm r sb :
  fst (exec_finish H job_id cmd tm r sb) = Ok tt.
Proof.
  unfold exec_finish, execute.
  destruct r as [e | [c out err | rc out err]].
  - destruct (is_nt H); reflexivity.
  - unfold _execute_windows, _execute_unix. rewrite !windows_decode.
    unfold try_except, bind, lift_result, report_exit.
    destruct (is_nt H); destruct (decode_utf8 out); destruct (decode_utf8 err);
      destruct (negb (c =? 0)); reflexivity.
  - destruct (is_nt H); destruct rc; reflexivity.
Qed.

Lemma execute_as_phases job_id fp cp rp tm r s :
  execute_code_in_sandbox H job_id fp cp rp tm r s
  = exec_finish H job_id (docker_cmd_of H fp cp rp tm) tm r
      (Sandbox (prepared H job_id fp cp rp tm (registry_of s)) (process s) (calls s)).
Proof. reflexivity. Qed.

Lemma prepared_writes job_id fp cp rp tm reg :
  writes_only execution_fields job_id reg (prepared H job_id fp cp rp tm reg).
Proof.
  unfold prepared.
  eapply writes_only_trans; apply writes_only_update; unfold execution_fields; listed.
Qed.

Lemma exec_finish_writes job_id cmd tm r sb :
  writes_only execution_fields job_id (registry_of sb)
    (registry_of (snd (exec_finish H job_id cmd tm r sb))).
Proof.
  assert (Hone : forall status kwargs reg,
            incl (keys kwargs) execution_fields ->
            writes_only execution_fields job_id reg
              (update_job_status job_id status kwargs reg)).
  { intros. apply writes_only_update; [unfold execution_fields; listed | assumption]. }
  assert (Htwo : forall s1 k1 s2 k2 reg,
            incl (keys k1) execution_fields -> incl (keys k2) execution_fields ->
            writes_only execution_fields job_id reg
              (update_job_status job_id s2 k2 (update_job_status job_id s1 k1 reg))).
  { intros. eapply writes_only_trans; apply Hone; assumption. }
  unfold exec_finish, execute.
  destruct r as [e | [c out err | rc out err]].
  - destruct (is_nt H); cbn -[update_job_status String.append];
      apply Hone; unfold execution_fields; listed.
  - unfold _execute_windows, _execute_unix. rewrite !windows_decode.
    unfold try_except, bind, report_exit, lift_result, on_exception.
    destruct (is_nt H); destruct (decode_utf8 out) as [so|e1];
      destruct (decode_utf8 err) as [se|e2]; destruct (negb (c =? 0));
      cbn -[update_job_status exit_error String.append];
      first [apply Hone | apply Htwo]; unfold execution_fields; listed.
  - destruct (is_nt H); destruct rc; cbn -[update_job_status timeout_error];
      apply Hone; unfold execution_fields; listed.
Qed.

(** X19. An execution writes five fields of the record of its job and
    nothing else in the registry: for every run the registry has the same
    identifiers in the same order, the records of the other jobs are the
    same, and every field of the record other than [status], [docker_cmd],
    [stdout], [stderr] and [error] reads as before. When its job has been
    deleted in the meantime the execution leaves the registry as it is: it
    does not bring the job back. *)
Theorem execution_touches_one_job (job_id fp cp rp : string) (tm : Z) (r : run)
    (s : sandbox) :
  keys (registry_of (snd (execute_code_in_sandbox H job_id fp cp rp tm r s)))
  = keys (registry_of s)
  /\ writes_only ["status"; "docker_cmd"; "stdout"; "stderr"; "error"] job_id
       (registry_of s)
       (registry_of (snd (execute_code_in_sandbox H job_id fp cp rp tm r s)))
  /\ (get job_id (registry_of s) = None ->
      registry_of (snd (execute_code_in_sandbox H job_id fp cp rp tm r s))
      = registry_of s).
Proof.
  rewrite execute_as_phases.
  split; [| split].
  - destruct (exec_finish_shape H job_id (docker_cmd_of H fp cp rp tm) tm r
                (Sandbox (prepared H job_id fp cp rp tm (registry_of s)) (process s)
                   (calls s)))
      as (status & kwargs & reg1 & _ & _ & -> & Hreg1).
    cbn [registry_of] in Hreg1. rewrite update_keys.
    destruct Hreg1 as [-> | (kw1 & _ & ->)]; rewrite ?update_keys;
      unfold prepared; now rewrite !update_keys.
  - eapply writes_only_trans; [apply prepared_writes |].
    apply (exec_finish_writes job_id (docker_cmd_of H fp cp rp tm) tm r
             (Sandbox (prepared H job_id fp cp rp tm (registry_of s)) (process s)
                (calls s))).
  - intros Hn.
    destruct (exec_finish_shape H job_id (docker_cmd_of H fp cp rp tm) tm r
                (Sandbox (prepared H job_id fp cp rp tm (registry_of s)) (process s)
                   (calls s)))
      as (status & kwargs & reg1 & _ & _ & -> & Hreg1).
    cbn [registry_of] in Hreg1.
    assert (Hreg : reg1 = registry_of s).
    { destruct Hreg1 as [-> | (kw1 & _ & ->)];
        rewrite (prepared_absent H _ _ _ _ _ _ Hn); [reflexivity |].
      now apply update_absent. }
    rewrite Hreg. now apply update_absent.
Qed.

(** X20. An execution always comes to an end: for every run, the launch
    failing, the process exiting with any code and any output, or the wait
    timing out, [execute_code_in_sandbox] returns without raising, and a job
    that is still registered is left [completed], [failed] or [timeout],
    never [running]. *)
Theorem execution_always_ends (job_id fp cp rp : string) (tm : Z) (r : run)
    (s : sandbox) :
  fst (execute_code_in_sandbox H job_id fp cp rp tm r s) = Ok tt
  /\ (get job_id (registry_of s) <> None ->
      exists status,
        terminal status
        /\ status_of job_id
             (registry_of (snd (execute_code_in_sandbox H job_id fp cp rp tm r s)))
           = Some status).
Proof.
  rewrite execute_as_phases. split; [apply exec_finish_total |].
  intros Hj.
  destruct (exec_finish_rewrites H job_id (docker_cmd_of H fp cp rp tm) tm r
              (Sandbox (prepared H job_id fp cp rp tm (registry_of s)) (process s)
                 (calls s)))
    as (status & Hterm & Hrw).
  exists status. split; [exact Hterm |].
  destruct Hrw as (_ & _ & Hs). apply Hs. cbn [registry_of].
  destruct (get job_id (registry_of s)) as [j|] eqn:E; [| congruence].
  rewrite (prepared_get H _ _ _ _ _ _ _ E). discriminate.
Qed.

End ExecutionFacts.

Lemma occurs_in_wrapped (tok v pre post : string) :
  Str.occurs_in tok v -> Str.occurs_in tok (pre +:+ v +:+ post).
Proof.
  intros (a & b & ->). exists (pre +:+ a), (b +:+ post).
  now rewrite !append_assoc.
Qed.

(** X21. The filter cannot be passed by adding text: when [validate_code]
    rejects a text it rejects every text that contains it, and when it
    accepts a text it accepts every part of it. *)
Theorem validate_code_monotone (v pre post : string) :
  (forall e, validate_code v = Raise e ->
     exists e', validate_code (pre +:+ v +:+ post) = Raise e')
  /\ (validate_code (pre +:+ v +:+ post) = Ok (pre +:+ v +:+ post) ->
      validate_code v = Ok v).
Proof.
  assert (Hrej : forall e, validate_code v = Raise e ->
                 exists e', validate_code (pre +:+ v +:+ post) = Raise e').
  { intros e. unfold validate_code.
    destruct (first_forbidden forbidden_modules v) as [m|] eqn:E; [| discriminate].
    intros _. apply first_forbidden_some in E as [Hin Hc].
    destruct (first_forbidden forbidden_modules (pre +:+ v +:+ post)) as [m'|] eqn:E';
      [eauto |].
    rewrite first_forbidden_none in E'.
    assert (Hc' : Str.contains m (pre +:+ v +:+ post) = true).
    { apply contains_spec. apply occurs_in_wrapped. now apply contains_spec. }
    rewrite (E' m Hin) in Hc'. discriminate. }
  split; [exact Hrej |].
  intros Hok. destruct (validate_code_ok_or_rejected v) as [Hv | [e Hv]]; [exact Hv |].
  destruct (Hrej e Hv) as [e' He']. congruence.
Qed.

Lemma validate_code_monotone_witness :
  exists e',
    validate_code ("x = 1" +:+ Str.nl +:+ "import subprocess" +:+ Str.nl +:+ "y = 2")
    = Raise e'.
Proof.
  apply (proj1 (validate_code_monotone "import subprocess" ("x = 1" +:+ Str.nl)
                  (Str.nl +:+ "y = 2"))
           (ValueError "Forbidden module or function detected: subprocess")).
  reflexivity.
Defined.

(** ** The template *)

Section Template.

Variable H : Host.

(** X22. The template the service hands out can be handed back: the text
    of [get_code_template] holds none of the forbidden tokens, so the route
    passes it to [submit_code] as it is, for every job; and [get_template]
    answers with that text and changes nothing. *)
Theorem template_is_accepted (job_id : string) (st : state) :
  validate_code get_code_template = Ok get_code_template
  /\ post_submit_code H job_id get_code_template st
     = submit_code H job_id {| code := get_code_template |} st
  /\ get_template st = (Ok (Returned [("template", get_code_template)]), st).
Proof.
  assert (Hv : validate_code get_code_template = Ok get_code_template)
    by (vm_compute; reflexivity).
  split; [exact Hv |]. split; [| reflexivity].
  now apply post_submit_code_valid.
Qed.

End Template.

(** ** The records along a run *)

Lemma all_known_rewrites job_id new reg reg' :
  known_status new -> rewrites job_id new reg reg' -> all_known reg -> all_known reg'.
Proof.
  intros Hk (Ho & Hn & Hs) Hall id j Hj.
  destruct (decide (id = job_id)) as [-> | Hne].
  - exists new. split; [| exact Hk].
    assert (Hp : get job_id reg <> None).
    { intros Habs. apply Hn in Habs. congruence. }
    specialize (Hs Hp). unfold status_of in Hs. now rewrite Hj in Hs.
  - rewrite (Ho _ Hne) in Hj. now apply (Hall id).
Qed.

Lemma all_known_drops reg reg' : drops reg reg' -> all_known reg -> all_known reg'.
Proof.
  intros Hd Hall id j Hj. destruct (Hd id) as [E | E]; [| congruence].
  rewrite E in Hj. now apply (Hall id).
Qed.

Lemma terminal_known status : terminal status -> known_status status.
Proof. unfold known_status. intros [-> | [-> | ->]]; cbn; tauto. Qed.

Lemma own_records_writes H fields x reg reg' :
  ~ In "file_path" fields -> writes_only fields x reg reg' ->
  own_records H reg -> own_records H reg'.
Proof.
  intros Hnin (Ho & Hn & Hj) Hown id j' Hg.
  destruct (decide (id = x)) as [-> | Hne].
  - destruct (get x reg) as [j|] eqn:E; [| rewrite (Hn eq_refl) in Hg; discriminate].
    destruct (Hj j eq_refl) as (j1 & E1 & K). assert (j1 = j') as -> by congruence.
    rewrite (K _ Hnin). now apply (Hown x).
  - rewrite (Ho _ Hne) in Hg. now apply (Hown id).
Qed.

Lemma own_records_drops H reg reg' : drops reg reg' -> own_records H reg -> own_records H reg'.
Proof.
  intros Hd Hown id j Hg. destruct (Hd id) as [E | E]; [| congruence].
  rewrite E in Hg. now apply (Hown id).
Qed.

Lemma in_delete {A} (l : list A) (n : nat) (x : A) : In x (delete n l) -> In x l.
Proof.
  revert n. induction l as [|y l IH]; intros [|n]; cbn; auto.
  intros [-> | Hin]; [now left | right; now apply (IH n)].
Qed.

Section Records.

Variable H : Host.

Lemma step_all_known (a : action) (s : system) :
  all_known (job_status (server s)) -> all_known (job_status (server (step H a s))).
Proof.
  intros Hall.
  destruct a as [id ts filename data | id body | n | n r | now | id];
    cbn [step server].
  - destruct (upload_file_effect H id ts filename data (server s)) as (_ & Ho & Hj).
    intros x j Hx. destruct (decide (x = id)) as [-> | Hne].
    + destruct Hj as [E | [E | E]].
      * rewrite E in Hx. now apply (Hall id).
      * congruence.
      * exists "uploaded". unfold status_of in E. rewrite Hx in E.
        split; [exact E | cbn; tauto].
    + rewrite (Ho _ Hne) in Hx. now apply (Hall x).
  - destruct (post_submit_code_effect H id body (server s)) as [[Hr _] | (_ & Hr & _)];
      rewrite Hr; [exact Hall |].
    apply all_known_rewrites
      with (job_id := id) (new := "processing") (reg := job_status (server s));
      [cbn; tauto | apply submitted_rewrites | exact Hall].
  - destruct (background_tasks (server s) !! n) as [t|]; [| exact Hall].
    pose proof (exec_begin_rewrites H t (Sandbox (job_status (server s)) None []))
      as Hrw.
    destruct (exec_begin H t (Sandbox (job_status (server s)) None [])) as [r sb].
    cbn [snd server job_status registry_of] in *.
    apply (all_known_rewrites _ _ _ _ (or_intror (or_intror (or_introl eq_refl))) Hrw Hall).
  - destruct (awaiting s !! n) as [p|]; [| exact Hall].
    destruct (exec_finish_rewrites H (pending_job_id p) (pending_cmd p)
                (pending_max_execution_time p) r
                (Sandbox (job_status (server s)) (Some Running) []))
      as (new & Hterm & Hrw).
    cbn [snd server job_status registry_of] in *.
    exact (all_known_rewrites _ _ _ _ (terminal_known _ Hterm) Hrw Hall).
  - destruct (cleanup_cycle_drops H now (server s)) as [_ Hd].
    exact (all_known_drops _ _ Hd Hall).
  - destruct (cleanup_job_drops H id (server s)) as [_ Hd].
    exact (all_known_drops _ _ Hd Hall).
Qed.

(** X23. Whatever is done to the service, in any order and with any
    arguments, every record of the registry has a [status] and it is one of
    [uploaded], [processing], [running], [completed], [failed] and
    [timeout]. *)
Theorem status_is_always_known (schedule : list action) :
  all_known (job_status (server (play H schedule initial))).
Proof.
  assert (Hgen : forall s, all_known (job_status (server s)) ->
                           all_known (job_status (server (play H schedule s)))).
  { induction schedule as [|a rest IH]; intros s Hs; [exact Hs |].
    cbn [play fold_left]. apply IH. now apply step_all_known. }
  apply Hgen. intros id j Hj. discriminate.
Qed.

(** X24. In a run in which code is submitted only to uploaded jobs, no job
    has two executions under way: the jobs of the queued and of the waiting
    executions are all different, the job of a queued one is [processing]
    and the job of a waiting one is [running], unless it has been
    deleted. *)
Theorem one_execution_per_job (s : system) :
  reachable H s ->
  List.NoDup (map task_job_id (background_tasks (server s))
              ++ map pending_job_id (awaiting s))
  /\ (forall t status,
        In t (background_tasks (server s)) ->
        status_of (task_job_id t) (job_status (server s)) = Some status ->
        status = "processing")
  /\ (forall p status,
        In p (awaiting s) ->
        status_of (pending_job_id p) (job_status (server s)) = Some status ->
        status = "running").
Proof.
  intros Hr. destruct (reachable_invariant H s Hr) as [Iq Ia Is _]. auto.
Qed.

Lemma step_keeps_upload_fields (a : action) (s : system) (job_id : string) :
  (forall timestamp filename data, a <> Upload job_id timestamp filename data) ->
  keeps_upload_fields job_id (job_status (server s)) (job_status (server (step H a s))).
Proof.
  intros Hup.
  destruct a as [id ts filename data | id body | n | n r | now | id];
    cbn [step server].
  - destruct (upload_file_effect H id ts filename data (server s)) as (_ & Ho & _).
    assert (Hne : job_id <> id) by (intros ->; now apply (Hup ts filename data)).
    unfold keeps_upload_fields. rewrite (Ho _ Hne). apply keeps_upload_fields_refl.
  - destruct (post_submit_code_effect H id body (server s)) as [[Hr _] | (_ & Hr & _)];
      rewrite Hr; [apply keeps_upload_fields_refl |].
    eapply writes_only_keeps; [| apply submitted_writes]. fields_apart.
  - destruct (background_tasks (server s) !! n) as [t|];
      [| apply keeps_upload_fields_refl].
    rewrite exec_begin_run. cbn [server job_status registry_of].
    eapply writes_only_keeps; [| apply prepared_writes].
    unfold execution_fields. fields_apart.
  - destruct (awaiting s !! n) as [p|]; [| apply keeps_upload_fields_refl].
    cbn [server job_status].
    eapply writes_only_keeps;
      [| apply (exec_finish_writes H (pending_job_id p) (pending_cmd p)
                  (pending_max_execution_time p) r
                  (Sandbox (job_status (server s)) (Some Running) []))].
    unfold execution_fields. fields_apart.
  - destruct (cleanup_cycle_drops H now (server s)) as [_ Hd]. now apply drops_keeps.
  - destruct (cleanup_job_drops H id (server s)) as [_ Hd]. now apply drops_keeps.
Qed.

(** X25. What an upload wrote into a record is never rewritten: along every
    sequence of operations that has no second upload under the same
    identifier (the code draws a new [uuid4] for each), the record of a job,
    as long as it exists, keeps its [id], [filename], [timestamp] and
    [file_path]; and a job that is not or no longer in the registry does not
    come back. *)
Theorem upload_fields_are_kept (schedule : list action) (s : system) (job_id : string) :
  never_uploads job_id schedule ->
  (get job_id (job_status (server s)) = None ->
   get job_id (job_status (server (play H schedule s))) = None)
  /\ (forall j, get job_id (job_status (server s)) = Some j ->
        get job_id (job_status (server (play H schedule s))) = None
        \/ exists j',
             get job_id (job_status (server (play H schedule s))) = Some j'
             /\ forall key, In key ["id"; "filename"; "timestamp"; "file_path"] ->
                            get key j' = get key j).
Proof.
  revert s. induction schedule as [|a rest IH]; intros s Hup.
  - apply keeps_upload_fields_refl.
  - cbn [play fold_left].
    apply (keeps_upload_fields_trans job_id _ (job_status (server (step H a s)))).
    + apply step_keeps_upload_fields. intros ts f d ->. apply (Hup ts f d). now left.
    + apply IH. intros ts f d Hin. apply (Hup ts f d). now right.
Qed.

Lemma upload_file_own job_id ts filename data st :
  own_records H (job_status st) ->
  own_records H (job_status (snd (upload_file H job_id ts filename data st))).
Proof.
  intros Hown. unfold upload_file.
  destruct (String.eqb filename ""); [exact Hown |].
  destruct (negb (allowed_file (str_lower H) filename ALLOWED_EXTENSIONS)); [exact Hown |].
  unfold bind, on_registry, on_files, modify, raise, ret. cbv zeta.
  cbn [job_status files background_tasks].
  assert (Hother : forall id v j, id <> job_id ->
            get id (set job_id v (job_status st)) = Some j ->
            exists fp, get "file_path" j = Some fp /\ own_input H id fp).
  { intros id v j Hne Hg. rewrite get_set_ne in Hg by congruence. now apply (Hown id). }
  destruct (Z.of_nat (length data) >? MAX_UPLOAD_SIZE).
  - cbn [snd job_status]. intros id j Hg.
    unfold delete_job, create_job, mem in Hg. rewrite get_set_eq in Hg.
    destruct (decide (id = job_id)) as [-> | Hne].
    + rewrite get_del_eq in Hg. discriminate.
    + rewrite get_del_ne in Hg by congruence. now apply (Hother id _ j Hne Hg).
  - match goal with
    | |- context [write_file ?a ?b ?c] => destruct (write_file a b c) as [[[]|e] d]
    end; cbn [snd job_status]; intros id j Hg.
    + destruct (decide (id = job_id)) as [-> | Hne].
      * unfold create_job in Hg.
        erewrite store_get_same in Hg by apply get_set_eq.
        injection Hg as <-. eexists. split; [reflexivity |]. right. eauto.
      * rewrite store_get_other in Hg by assumption.
        now apply (Hother id _ j Hne Hg).
    + destruct (decide (id = job_id)) as [-> | Hne].
      * unfold create_job in Hg. rewrite get_set_eq in Hg.
        injection Hg as <-. eexists. split; [reflexivity |]. now left.
      * now apply (Hother id _ j Hne Hg).
Qed.

Lemma step_own (a : action) (s : system) :
  own_records H (job_status (server s))
  /\ (forall t, In t (background_tasks (server s)) -> own_task H t)
  /\ (forall p, In p (awaiting s) -> own_pending H p) ->
  own_records H (job_status (server (step H a s)))
  /\ (forall t, In t (background_tasks (server (step H a s))) -> own_task H t)
  /\ (forall p, In p (awaiting (step H a s)) -> own_pending H p).
Proof.
  intros (Hreg & Htasks & Hwait).
  assert (Hs : ~ In "file_path" ["status"; "code_path"; "result_path"])
    by (cbn; intuition discriminate).
  assert (He : ~ In "file_path" execution_fields) by (cbn; intuition discriminate).
  destruct a as [id ts filename data | id body | n | n r | now | id];
    cbn [step server awaiting].
  - destruct (upload_file_effect H id ts filename data (server s)) as (Ht & _).
    cbv zeta in Ht. rewrite Ht.
    split; [now apply upload_file_own | now split].
  - split; [| split; [| exact Hwait]].
    + destruct (post_submit_code_effect H id body (server s)) as [[Hr _] | (_ & Hr & _)];
        rewrite Hr; [exact Hreg |].
      apply (own_records_writes H _ id _ _ Hs (submitted_writes H id _) Hreg).
    + destruct (validate_code_ok_or_rejected body) as [Hv | [e Hv]].
      2:{ now rewrite (post_submit_code_rejected H _ _ _ _ Hv). }
      rewrite (post_submit_code_valid H _ _ _ Hv).
      destruct (submit_code H id {| code := body |} (server s)) as [res st'] eqn:E.
      apply submit_code_cases in E. cbn [snd].
      destruct E as [(_ & _ & ->)
                    | (j & Hj & [(_ & _ & Ht) | [(_ & _ & _ & Ht) | (fp & Hfp & _ & _ & Ht)]])];
        [exact Htasks | now rewrite Ht | now rewrite Ht |].
      rewrite Ht. intros t Hin. apply in_app_iff in Hin as [Hin | [<- | []]];
        [now apply Htasks |].
      destruct (Hreg id j Hj) as (fp' & Hfp' & Hown).
      assert (fp' = fp) as -> by congruence.
      repeat split. exact Hown.
  - destruct (background_tasks (server s) !! n) as [t|] eqn:Hn;
      [| cbn [server awaiting]; auto].
    rewrite exec_begin_run. cbn [server awaiting job_status background_tasks registry_of].
    assert (Ht : own_task H t).
    { apply Htasks. apply list_elem_of_In. now apply (list_elem_of_lookup_2 _ n). }
    split; [| split].
    + apply (own_records_writes H _ (task_job_id t) _ _
               He
               (prepared_writes H _ _ _ _ _ _) Hreg).
    + intros t' Hin. apply Htasks. now apply (in_delete _ n).
    + intros p Hin. apply in_app_iff in Hin as [Hin | [<- | []]]; [now apply Hwait |].
      destruct Ht as (Hi & Hc & Hr & Hm).
      split; cbn [pending_max_execution_time pending_job_id pending_cmd]; [exact Hm |].
      exists (task_file_path t). split; [exact Hi |]. now rewrite Hc, Hr, Hm.
  - destruct (awaiting s !! n) as [p|] eqn:Hn; [| cbn [server awaiting]; auto].
    cbn [server awaiting job_status background_tasks].
    split; [| split; [exact Htasks |]].
    + apply (own_records_writes H _ (pending_job_id p) _ _
               He
               (exec_finish_writes H (pending_job_id p) (pending_cmd p)
                  (pending_max_execution_time p) r
                  (Sandbox (job_status (server s)) (Some Running) [])) Hreg).
    + intros p' Hin. apply Hwait. now apply (in_delete _ n).
  - destruct (cleanup_cycle_drops H now (server s)) as [Ht Hd]. cbv zeta in Ht.
    rewrite Ht. split; [exact (own_records_drops H _ _ Hd Hreg) | now split].
  - destruct (cleanup_job_drops H id (server s)) as [Ht Hd]. cbv zeta in Ht.
    rewrite Ht. split; [exact (own_records_drops H _ _ Hd Hreg) | now split].
Qed.

(** X26. An execution works on the paths of its own job, under the
    configured time limit: whatever is done to the service, in any order
    and with any arguments, every record has an input path that is empty or
    lies under the upload folder with the identifier of the job in front;
    every queued execution has such an input path, the code path and the
    result path built from the identifier of its job and
    [MAX_EXECUTION_TIME]; and the command of every execution that waits for
    its process is the one built from these. *)
Theorem executions_mount_their_own_job (schedule : list action) :
  own_records H (job_status (server (play H schedule initial)))
  /\ (forall t, In t (background_tasks (server (play H schedule initial))) ->
        own_task H t)
  /\ (forall p, In p (awaiting (play H schedule initial)) -> own_pending H p).
Proof.
  assert (Hgen : forall s,
            own_records H (job_status (server s))
            /\ (forall t, In t (background_tasks (server s)) -> own_task H t)
            /\ (forall p, In p (awaiting s) -> own_pending H p) ->
            own_records H (job_status (server (play H schedule s)))
            /\ (forall t, In t (background_tasks (server (play H schedule s))) ->
                  own_task H t)
            /\ (forall p, In p (awaiting (play H schedule s)) -> own_pending H p)).
  { induction schedule as [|a rest IH]; intros s Hs; [exact Hs |].
    cbn [play fold_left]. apply IH. now apply step_own. }
  apply Hgen. split; [intros id j Hj; discriminate | split; intros ? []].
Qed.

End Records.


Lemma one_execution_per_job_witness :
  List.NoDup
    (map task_job_id
       (background_tasks (server (play Posix.host Example.waiting_run initial)))
     ++ map pending_job_id (awaiting (play Posix.host Example.waiting_run initial)))
  /\ (forall t status,
        In t (background_tasks (server (play Posix.host Example.waiting_run initial))) ->
        status_of (task_job_id t)
          (job_status (server (play Posix.host Example.waiting_run initial)))
        = Some status ->
        status = "processing")
  /\ (forall p status,
        In p (awaiting (play Posix.host Example.waiting_run initial)) ->
        status_of (pending_job_id p)
          (job_status (server (play Posix.host Example.waiting_run initial)))
        = Some status ->
        status = "running").
Proof.
  apply (one_execution_per_job Posix.host (play Posix.host Example.waiting_run initial)).
  apply (reachable_play Posix.host Example.waiting_run initial).
  - constructor.
  - vm_compute. intuition discriminate.
Defined.

Lemma upload_fields_are_kept_witness :
  (get "j1" (job_status (server (play Posix.host Example.waiting_run initial))) = None ->
   get "j1"
     (job_status
        (server (play Posix.host Example.closing_run
                   (play Posix.host Example.waiting_run initial)))) = None)
  /\ (forall j,
        get "j1" (job_status (server (play Posix.host Example.waiting_run initial)))
        = Some j ->
        get "j1"
          (job_status
             (server (play Posix.host Example.closing_run
                        (play Posix.host Example.waiting_run initial)))) = None
        \/ exists j',
             get "j1"
               (job_status
                  (server (play Posix.host Example.closing_run
                             (play Posix.host Example.waiting_run initial)))) = Some j'
             /\ forall key, In key ["id"; "filename"; "timestamp"; "file_path"] ->
                            get key j' = get key j).
Proof.
  apply (upload_fields_are_kept Posix.host Example.closing_run
           (play Posix.host Example.waiting_run initial) "j1").
  intros ts f d Hin. cbn in Hin. intuition discriminate.
Defined.
